(** * Shift-management system: the shift engine of [backend/routes/shift.py]

    A shallow embedding of the legality predicate, of the phases of
    [generate_optimized_shifts] and of the two manual end points
    ([adjust_shift], [swap_shifts]), with the properties of the engine
    stated and proved over it.

    Conventions of the embedding.
    - A shift code is a Python [int]: [Z]; a cell of a row is
      [Optional[int]]: [option Z] ([None] is the unset cell).
    - [employee_shifts : Dict[str, List[Optional[int]]]] is a
      [gmap string (list (option Z))]; a name listed twice in the roster
      is one key, hence one shared row, as in the Python dict.
    - Day indices are [nat]: every index the engine uses comes from a
      [range(...)] loop or is guarded by an explicit comparison.
    - [random] is an injected source: the list of the draws still to
      be made. *)

From stdpp Require Import gmap strings list fin_maps.
From Stdlib Require Import ZArith Lia.

Open Scope Z_scope.

Abbreviation schedule := (gmap string (list (option Z))).

(** ** Module constants *)


(** [SHIFT_NAMES = {1: 'Morning', 2: 'Evening', 3: 'Night', 0: 'Off'}];
    only its key set matters to the engine. *)
Definition SHIFT_NAMES_keys : list Z := [1; 2; 3; 0].

(** [TARGET_SHIFTS_PER_DAY = {1: 2, 2: 2, 3: 1}]; [.get(code)]. *)
Definition TARGET_SHIFTS_PER_DAY (code : Z) : option Z :=
  if code =? 1 then Some 2
  else if code =? 2 then Some 2
  else if code =? 3 then Some 1
  else None.

(** ** Cells and rows *)

(** [c == v] for a cell [c : Optional[int]] and an int literal [v]. *)
Definition cell_is (c : option Z) (v : Z) : bool :=
  match c with
  | Some x => x =? v
  | None => false
  end.

(** [c is None]. *)
Definition is_None_b (c : option Z) : bool :=
  match c with
  | Some _ => false
  | None => true
  end.

(** [row[i]] for an index inside the row.  The engine only reads cells
    at indices below [len(row)]; outside, the embedding reads [None]. *)
Definition cell_at (row : list (option Z)) (i : nat) : option Z :=
  match row !! i with
  | Some c => c
  | None => None
  end.

(** The slice [row[a:b]] for [0 <= a <= b]. *)
Definition slice (row : list (option Z)) (a b : nat) : list (option Z) :=
  take (b - a) (drop a row).

(** [employee_shifts.get(name, [])]. *)
Definition row_of (es : schedule) (name : string) : list (option Z) :=
  default [] (es !! name).

(** [employee_shifts[emp][day]]. *)
Definition get_shift (es : schedule) (emp : string) (day : nat) : option Z :=
  cell_at (row_of es emp) day.

(** [employee_shifts[emp][day] = c]. *)
Definition set_shift (es : schedule) (emp : string) (day : nat)
    (c : option Z) : schedule :=
  <[emp := <[day := c]> (row_of es emp)]> es.

(** ** The legality predicate: [is_shift_viable] *)

Definition is_shift_viable (employee_shifts : schedule) (name : string)
    (day : nat) (shift : option Z) (total_days : nat) : bool :=
  match shift with
  | None => false
  | Some shift =>
    if shift =? 0 then true
    else
      let shifts_list := row_of employee_shifts name in
      if (length shifts_list <=? day)%nat then false
      else
        let prev_shift :=
          if (0 <? day)%nat then cell_at shifts_list (day - 1) else None in
        let prev_prev_shift :=
          if (1 <? day)%nat then cell_at shifts_list (day - 2) else None in
        (* Mandatory Off after N-N *)
        if (2 <=? day)%nat && cell_is prev_prev_shift 3 && cell_is prev_shift 3
           && negb (shift =? 0) then false
        (* M-after-N constraint *)
        else if (shift =? 1) && cell_is prev_shift 3 then false
        (* Max two consecutive nights *)
        else if (shift =? 3) && cell_is prev_shift 3
                && cell_is prev_prev_shift 3 then false
        (* Avoid N -> E -> M pattern *)
        else if (shift =? 1) && (2 <=? day)%nat && cell_is prev_shift 2
                && cell_is prev_prev_shift 3 then false
        (* Special patterns ending in M *)
        else if (shift =? 1) && (3 <=? day)%nat
                && bool_decide (slice shifts_list (day - 3) day
                                = [Some 3; Some 2; Some 2]) then false
        else if (shift =? 1) && (4 <=? day)%nat
                && (bool_decide (slice shifts_list (day - 4) day
                                 = [Some 3; Some 2; Some 3; Some 2])
                    || bool_decide (slice shifts_list (day - 4) day
                                    = [Some 2; Some 3; Some 2; Some 2]))
             then false
        else true
  end.

(** The rules of the legality predicate as the specification words
    them, over one row: the days before [day] "match" a pattern when the
    row, cut at [day], ends with it. *)
Definition preceded_by (row : list (option Z)) (day : nat)
    (pattern : list Z) : Prop :=
  (Some <$> pattern) `suffix_of` take day row.

Definition viable_in_row (row : list (option Z)) (day : nat)
    (candidate : Z) : Prop :=
  candidate = 0 ∨
  ((day < length row)%nat ∧
   ¬ preceded_by row day [3; 3] ∧
   (candidate = 1 →
      ¬ preceded_by row day [3] ∧
      ¬ preceded_by row day [3; 2] ∧
      ¬ preceded_by row day [3; 2; 2] ∧
      ¬ preceded_by row day [3; 2; 3; 2] ∧
      ¬ preceded_by row day [2; 3; 2; 2])).

(** ** Python library functions used by the engine *)

(** [list.sort(key=...)] and [sorted]: a stable sort.  [leb x y] is
    the comparison [key(x) <= key(y)]; an element is put before the
    first element that is not smaller, so equal keys keep their order. *)
Fixpoint insert_sorted {A} (leb : A → A → bool) (x : A) (l : list A) : list A :=
  match l with
  | [] => [x]
  | y :: l' => if leb x y then x :: l else y :: insert_sorted leb x l'
  end.

Definition sort_by {A} (leb : A → A → bool) (l : list A) : list A :=
  foldr (insert_sorted leb) [] l.

(** Tuples of ints (booleans as 0/1) are compared lexicographically. *)
Fixpoint lex_le (k1 k2 : list Z) : bool :=
  match k1, k2 with
  | [], _ => true
  | _ :: _, [] => false
  | a :: k1', b :: k2' => (a <? b) || ((a =? b) && lex_le k1' k2')
  end.

Definition sort_by_key {A} (key : A → list Z) (l : list A) : list A :=
  sort_by (λ x y, lex_le (key x) (key y)) l.

(** [True] is 1 and [False] is 0 inside a sort key. *)
Definition Zb (b : bool) : Z := if b then 1 else 0.

(** [min(l, key=...)] for a non-empty list [best :: l]: the first of
    the minimal elements. *)
Fixpoint min_by {A} (key : A → Z) (best : A) (l : list A) : A :=
  match l with
  | [] => best
  | x :: l' => if key x <? key best then min_by key x l' else min_by key best l'
  end.

(** [l.remove(x)]: the first occurrence is removed.  Phase 2 removes
    from [available_today] only employees it has just taken from that
    list (see [removals_present]); the lists of the balancer, from
    which an employee just read in them is removed as well, are
    rebuilt at every pass. *)
Fixpoint list_remove (x : string) (l : list string) : list string :=
  match l with
  | [] => []
  | y :: l' => if bool_decide (x = y) then l' else y :: list_remove x l'
  end.

(** The removals [avail.remove(x)] for the [x] of [l], one after the
    other, all find their element; Python raises [ValueError] for an
    absent element. *)
Fixpoint removals_present (l avail : list string) : Prop :=
  match l with
  | [] => True
  | x :: l' => x ∈ avail ∧ removals_present l' (list_remove x avail)
  end.

(** [random._randbelow(n)]: the next draw of the source, reduced below [n]. *)
Definition randbelow (n : nat) (rng : list nat) : nat * list nat :=
  match rng with
  | [] => (0%nat, [])
  | r :: rng' => ((r mod n)%nat, rng')
  end.

(** [random.choice(c :: l)]. *)
Definition random_choice {A} (c : A) (l : list A) (rng : list nat) : A * list nat :=
  let '(j, rng') := randbelow (length (c :: l)) rng in
  (default c ((c :: l) !! j), rng').

(** [x[i], x[j] = x[j], x[i]]. *)
Definition swap_items {A} (x : list A) (i j : nat) : list A :=
  match x !! i, x !! j with
  | Some a, Some b => <[j := a]> (<[i := b]> x)
  | _, _ => x
  end.

(** [random.shuffle(x)]:
    [for i in reversed(range(1, len(x))): j = randbelow(i + 1); swap]. *)
Fixpoint shuffle_from {A} (i : nat) (x : list A) (rng : list nat) : list A * list nat :=
  match i with
  | O => (x, rng)
  | S i' =>
    let '(j, rng') := randbelow (S i) rng in
    shuffle_from i' (swap_items x i j) rng'
  end.

Definition random_shuffle {A} (x : list A) (rng : list nat) : list A * list nat :=
  shuffle_from (length x - 1) x rng.

(** [range(a, b)]. *)
Definition range (a b : nat) : list nat := seq a (b - a).

(** ** The state of one generation run *)

(** [shift_counts[emp][code]]: every inner dict has the keys 0..3. *)
Definition cnt_get (sc : gmap string (gmap Z Z)) (emp : string) (code : Z) : Z :=
  default 0 (default ∅ (sc !! emp) !! code).

(** [shift_counts[emp][code] += delta]. *)
Definition cnt_add (sc : gmap string (gmap Z Z)) (emp : string) (code delta : Z)
    : gmap string (gmap Z Z) :=
  <[emp := <[code := cnt_get sc emp code + delta]> (default ∅ (sc !! emp))]> sc.

(** [{name: {code: 0 for code in SHIFT_NAMES.keys()} for name in employee_names}]. *)
Definition zero_counts : gmap Z Z :=
  foldr (λ code m, <[code := 0]> m) ∅ SHIFT_NAMES_keys.

Definition init_counts (employee_names : list string) : gmap string (gmap Z Z) :=
  foldr (λ name m, <[name := zero_counts]> m) ∅ employee_names.

(** [days_with_offs_count[day]]. *)
Definition offs_get (dwo : gmap nat Z) (day : nat) : Z := default 0 (dwo !! day).

Record gen_state := {
  st_shifts : schedule;                 (* employee_shifts *)
  st_counts : gmap string (gmap Z Z);   (* shift_counts *)
  st_offs : gmap nat Z;                 (* days_with_offs_count *)
  st_rng : list nat                     (* the random source *)
}.

Definition with_shifts (st : gen_state) (es : schedule) : gen_state :=
  {| st_shifts := es; st_counts := st_counts st;
     st_offs := st_offs st; st_rng := st_rng st |}.

(** [employee_shifts[emp][day] = new; shift_counts[emp][old] -= 1;
    shift_counts[emp][new] += 1], the move every repair phase makes. *)
Definition move_shift (st : gen_state) (emp : string) (day : nat)
    (old new : Z) : gen_state :=
  {| st_shifts := set_shift (st_shifts st) emp day (Some new);
     st_counts := cnt_add (cnt_add (st_counts st) emp old (-1)) emp new 1;
     st_offs := st_offs st; st_rng := st_rng st |}.

(** [sum(1 for emp in employee_names if employee_shifts[emp][day] == s)]. *)
Definition count_day (es : schedule) (employee_names : list string)
    (day : nat) (s : Z) : Z :=
  Z.of_nat (length (filter (λ emp, cell_is (get_shift es emp day) s = true)
                           employee_names)).

(** ** Phase 0: [assign_night_shift_pairs] *)

Record pairs_state := {
  ps_shifts : schedule;
  ps_offs : gmap nat Z;
  ps_last_pair_end : gmap string Z;
  ps_night_assigned : list bool
}.

Definition last_pair_end_of (lpe : gmap string Z) (emp : string) : Z :=
  default 0 (lpe !! emp).

Definition night_assigned_at (na : list bool) (day : nat) : bool :=
  default false (na !! day).

Definition pair_candidate (ps : pairs_state) (total_days day : nat)
    (emp : string) : bool :=
  (last_pair_end_of (ps_last_pair_end ps) emp + 10 <=? Z.of_nat day)
  && is_None_b (get_shift (ps_shifts ps) emp day)
  && is_None_b (get_shift (ps_shifts ps) emp (day + 1))
  && ((total_days <=? day + 2)%nat
      || (is_None_b (get_shift (ps_shifts ps) emp (day + 2))
          && (offs_get (ps_offs ps) (day + 2) =? 0))).

Definition assign_pair (ps : pairs_state) (total_days day : nat)
    (emp : string) : pairs_state :=
  let es1 := set_shift (ps_shifts ps) emp day (Some 3) in
  let es2 := set_shift es1 emp (day + 1) (Some 3) in
  let na := <[(day + 1)%nat := true]> (<[day := true]> (ps_night_assigned ps)) in
  let lpe := <[emp := Z.of_nat day + 1]> (ps_last_pair_end ps) in
  if (day + 2 <? total_days)%nat then
    {| ps_shifts := set_shift es2 emp (day + 2) (Some 0);
       ps_offs := <[(day + 2)%nat := 1]> (ps_offs ps);
       ps_last_pair_end := lpe; ps_night_assigned := na |}
  else
    {| ps_shifts := es2; ps_offs := ps_offs ps;
       ps_last_pair_end := lpe; ps_night_assigned := na |}.

Definition pairs_step (employee_names : list string) (total_days : nat)
    (ps : pairs_state) (day : nat) : pairs_state :=
  if night_assigned_at (ps_night_assigned ps) day
     || night_assigned_at (ps_night_assigned ps) (day + 1)
  then ps
  else
    match filter (λ emp, pair_candidate ps total_days day emp = true)
                 employee_names with
    | [] => ps
    | c :: candidates =>
      let emp := min_by (last_pair_end_of (ps_last_pair_end ps)) c candidates in
      assign_pair ps total_days day emp
    end.

(** The second loop: a single N on a day that received no pair. *)
Definition single_night_step (employee_names : list string) (total_days : nat)
    (na : list bool) (acc : schedule * list nat) (day : nat)
    : schedule * list nat :=
  let '(es, rng) := acc in
  if night_assigned_at na day then acc
  else
    match filter (λ emp, is_None_b (get_shift es emp day)
                         && is_shift_viable es emp day (Some 3) total_days = true)
                 employee_names with
    | [] => acc
    | c :: candidates =>
      let '(emp, rng') := random_choice c candidates rng in
      (set_shift es emp day (Some 3), rng')
    end.

Definition assign_night_shift_pairs (employee_names : list string)
    (total_days : nat) (st : gen_state) : gen_state :=
  let ps0 :=
    {| ps_shifts := st_shifts st; ps_offs := st_offs st;
       ps_last_pair_end := foldr (λ emp m, <[emp := -100]> m) ∅ employee_names;
       ps_night_assigned := replicate total_days false |} in
  let ps := foldl (pairs_step employee_names total_days) ps0
                  (range 0 (total_days - 1)) in
  let '(es, rng) :=
    foldl (single_night_step employee_names total_days (ps_night_assigned ps))
          (ps_shifts ps, st_rng st) (range 0 total_days) in
  {| st_shifts := es; st_counts := st_counts st;
     st_offs := ps_offs ps; st_rng := rng |}.

(** ** Phase 1: off days *)

(** A number that may be [float('inf')]. *)
Inductive xnum :=
  | Fin (z : Z)
  | PosInf.

Definition xnum_ltb (a b : xnum) : bool :=
  match a, b with
  | Fin x, Fin y => x <? y
  | Fin _, PosInf => true
  | PosInf, _ => false
  end.

Definition xnum_eqb (a b : xnum) : bool :=
  match a, b with
  | Fin x, Fin y => x =? y
  | PosInf, PosInf => true
  | _, _ => false
  end.

(** [a >= 100]. *)
Definition xnum_ge_100 (a : xnum) : bool :=
  match a with
  | Fin x => 100 <=? x
  | PosInf => true
  end.

(** The order of the tuples [(score, flag)]. *)
Definition score_le (a b : xnum * Z) : bool :=
  xnum_ltb (fst a) (fst b) || (xnum_eqb (fst a) (fst b) && (snd a <=? snd b)).

Definition score_lt (a b : xnum * Z) : bool := negb (score_le b a).

Record off_state := {
  os_st : gen_state;
  os_last_off_day : gmap string Z;
  os_weekday_offs : gmap string (gset nat)
}.

Definition last_off_day_of (os : off_state) (emp : string) : Z :=
  default 0 (os_last_off_day os !! emp).

Definition weekday_offs_of (os : off_state) (emp : string) : gset nat :=
  default ∅ (os_weekday_offs os !! emp).

(** The five updates made whenever phase 1 gives [employee] an off day
    through the streak rule or the weekly rule. *)
Definition give_off (os : off_state) (employee : string) (day : nat) : off_state :=
  let st := os_st os in
  {| os_st :=
       {| st_shifts := set_shift (st_shifts st) employee day (Some 0);
          st_counts := cnt_add (st_counts st) employee 0 1;
          st_offs := <[day := offs_get (st_offs st) day + 1]> (st_offs st);
          st_rng := st_rng st |};
     os_last_off_day := <[employee := Z.of_nat day]> (os_last_off_day os);
     os_weekday_offs :=
       <[employee := weekday_offs_of os employee ∪ {[ (day mod 7)%nat ]}]>
         (os_weekday_offs os) |}.

Definition max_offs : Z := 5.
Definition max_consecutive_work_days : nat := 7.

(** The scan [for i in range(max_consecutive_work_days + 1)] backwards
    from [day]; the result is [(work_streak, consecutive_work)]. *)
Fixpoint streak_scan (row : list (option Z)) (day : nat) (steps : list nat)
    (consecutive_work : Z) : bool * Z :=
  match steps with
  | [] => (true, consecutive_work)
  | i :: steps' =>
    if (day <? i)%nat then (true, consecutive_work)       (* check_day < 0 *)
    else
      let c := cell_at row (day - i) in
      if cell_is c 0 then (false, consecutive_work)
      else streak_scan row day steps'
             (if is_None_b c then consecutive_work else consecutive_work + 1)
  end.

Definition streak_step (day : nat) (os : off_state) (employee : string) : off_state :=
  let st := os_st os in
  if (max_consecutive_work_days <=? day)%nat then
    let '(work_streak, consecutive_work) :=
      streak_scan (row_of (st_shifts st) employee) day
                  (range 0 (max_consecutive_work_days + 1)) 0 in
    if work_streak && (Z.of_nat max_consecutive_work_days <? consecutive_work) then
      if is_None_b (get_shift (st_shifts st) employee day)
         && (offs_get (st_offs st) day =? 0)
         && (cnt_get (st_counts st) employee 0 <? max_offs)
      then give_off os employee day
      else os
    else os
  else os.

(** The score of a free day of the week for [employee]. *)
Definition off_day_score (os : off_state) (employee : string) (day : nat)
    : xnum * Z :=
  let day_weekday := (day mod 7)%nat in
  let is_same_weekday_as_prev :=
    bool_decide (day_weekday ∈ weekday_offs_of os employee) in
  let last := last_off_day_of os employee in
  if 0 <=? last then
    let gap_from_last := Z.of_nat day - last in
    let gap_ok := (5 <=? gap_from_last) && (gap_from_last <=? 7) in
    (Fin (if gap_ok then Z.abs (gap_from_last - 6) else 100),
     Zb is_same_weekday_as_prev)
  else
    (* gap_from_last is inf: gap_ok is True and abs(inf - 6) is inf *)
    (PosInf, Zb is_same_weekday_as_prev).

(** [min(v[0] for v in viable_off_days)] for a non-empty list. *)
Fixpoint min_score (best : xnum * Z) (l : list ((xnum * Z) * nat)) : xnum * Z :=
  match l with
  | [] => best
  | v :: l' => if score_lt (fst v) best then min_score (fst v) l' else min_score best l'
  end.

Definition weekly_off_employee (total_days week_start week_end : nat)
    (os : off_state) (employee : string) : off_state :=
  let st := os_st os in
  let es := st_shifts st in
  if max_offs <=? cnt_get (st_counts st) employee 0 then os
  else
    let has_off_this_week :=
      existsb (λ d, cell_is (get_shift es employee d) 0)
              (filter (λ d, (d <? total_days)%nat
                            && negb (is_None_b (get_shift es employee d)) = true)
                      (range week_start week_end)) in
    if has_off_this_week then os
    else
      let scored :=
        (λ day, (off_day_score os employee day, day)) <$>
        filter (λ day, negb ((total_days <=? day)%nat
                             || negb (is_None_b (get_shift es employee day))
                             || (0 <? offs_get (st_offs st) day)) = true)
               (range week_start week_end) in
      let fallback :=
        (λ day, ((Fin 1000, 0), day)) <$>
        filter (λ day, (day <? total_days)%nat
                       && is_None_b (get_shift es employee day)
                       && (offs_get (st_offs st) day =? 0) = true)
               (range week_start week_end) in
      let viable_off_days :=
        match scored with
        | [] => fallback
        | v :: vs =>
          if xnum_ge_100 (fst (min_score (fst v) vs)) then fallback else scored
        end in
      match sort_by (λ x y, score_le (fst x) (fst y)) viable_off_days with
      | [] => os
      | best :: _ => give_off os employee (snd best)
      end.

Definition weekly_off_week (employee_names : list string) (total_days : nat)
    (os : off_state) (week : nat) : off_state :=
  let week_start := (week * 7)%nat in
  let week_end := Nat.min (week_start + 7) total_days in
  let '(shuffled_employees, rng') :=
    random_shuffle employee_names (st_rng (os_st os)) in
  let st := os_st os in
  let os' :=
    {| os_st := {| st_shifts := st_shifts st; st_counts := st_counts st;
                   st_offs := st_offs st; st_rng := rng' |};
       os_last_off_day := os_last_off_day os;
       os_weekday_offs := os_weekday_offs os |} in
  foldl (weekly_off_employee total_days week_start week_end) os'
        shuffled_employees.

(** "Ensure exactly one off per day". *)
Definition ensure_off_step (employee_names : list string) (st : gen_state)
    (day : nat) : gen_state :=
  if offs_get (st_offs st) day =? 0 then
    match filter (λ emp, is_None_b (get_shift (st_shifts st) emp day)
                         && (cnt_get (st_counts st) emp 0 <? max_offs) = true)
                 employee_names with
    | [] => st
    | c :: candidates =>
      let '(emp, rng') := random_choice c candidates (st_rng st) in
      {| st_shifts := set_shift (st_shifts st) emp day (Some 0);
         st_counts := cnt_add (st_counts st) emp 0 1;
         st_offs := <[day := 1]> (st_offs st);
         st_rng := rng' |}
    end
  else st.

Definition phase1 (employee_names : list string) (total_days : nat)
    (st : gen_state) : gen_state :=
  let os0 :=
    {| os_st := st;
       os_last_off_day := foldr (λ name m, <[name := -10]> m) ∅ employee_names;
       os_weekday_offs := foldr (λ name m, <[name := ∅]> m) ∅ employee_names |} in
  let total_weeks := ((total_days + 6) / 7)%nat in
  let os1 :=
    foldl (λ os day, foldl (streak_step day) os employee_names)
          os0 (range 0 total_days) in
  let os2 :=
    foldl (weekly_off_week employee_names total_days) os1 (range 0 total_weeks) in
  foldl (ensure_off_step employee_names) (os_st os2) (range 0 total_days).

(** ** Phase 2: the first 28 days *)

(** [TARGET_SHIFTS_PER_DAY[code]] for a code of [SHIFTS]. *)
Definition target_of (code : Z) : Z := default 0 (TARGET_SHIFTS_PER_DAY code).

(** [employee_shifts[emp][day] = code; shift_counts[emp][code] += 1]. *)
Definition assign_shift (st : gen_state) (emp : string) (day : nat) (code : Z)
    : gen_state :=
  {| st_shifts := set_shift (st_shifts st) emp day (Some code);
     st_counts := cnt_add (st_counts st) emp code 1;
     st_offs := st_offs st; st_rng := st_rng st |}.

(** "Assign Evening / Morning / Night": the deficit of [code] on [day]
    is filled from [available_today], least loaded first. *)
Definition fill_deficit (employee_names : list string) (total_days day : nat)
    (code : Z) (acc : gen_state * list string) : gen_state * list string :=
  let '(st, available_today) := acc in
  let needed :=
    Z.max 0 (target_of code - count_day (st_shifts st) employee_names day code) in
  if 0 <? needed then
    let candidates :=
      filter (λ emp, is_shift_viable (st_shifts st) emp day (Some code) total_days = true)
             available_today in
    let candidates := sort_by_key (λ x, [cnt_get (st_counts st) x code]) candidates in
    foldl (λ '(st, available_today) emp,
             (assign_shift st emp day code, list_remove emp available_today))
          (st, available_today) (take (Z.to_nat needed) candidates)
  else acc.

(** [for shift_code in preferred_order: if is_shift_viable(...): assign; break]. *)
Fixpoint first_viable (es : schedule) (emp : string) (day : nat)
    (total_days : nat) (codes : list Z) : option Z :=
  match codes with
  | [] => None
  | shift_code :: codes' =>
    if is_shift_viable es emp day (Some shift_code) total_days then Some shift_code
    else first_viable es emp day total_days codes'
  end.

Definition fallback_step (employee_names : list string) (total_days day : nat)
    (st : gen_state) (emp : string) : gen_state :=
  let es := st_shifts st in
  let preferred_order :=
    (if count_day es employee_names day 2 <? target_of 2 then [2] else [])
    ++ [1]
    ++ (if count_day es employee_names day 3 <? target_of 3 then [3] else []) in
  match first_viable es emp day total_days preferred_order with
  | Some shift_code => assign_shift st emp day shift_code
  | None => st       (* left as None *)
  end.

Definition phase2_day (employee_names : list string) (total_days : nat)
    (st : gen_state) (day : nat) : gen_state :=
  match filter (λ emp, is_None_b (get_shift (st_shifts st) emp day) = true)
               employee_names with
  | [] => st
  | available_today =>
    let acc := fill_deficit employee_names total_days day 2 (st, available_today) in
    let acc := fill_deficit employee_names total_days day 1 acc in
    let '(st, available_today) :=
      fill_deficit employee_names total_days day 3 acc in
    foldl (fallback_step employee_names total_days day) st available_today
  end.

Definition phase2 (employee_names : list string) (total_days : nat)
    (st : gen_state) : gen_state :=
  foldl (phase2_day employee_names total_days) st
        (range 0 (Nat.min 28 total_days)).

(** ** Phase 3: the 28-day pattern *)

Definition phase3_cell (total_days day : nat) (st : gen_state) (emp : string)
    : gen_state :=
  let es := st_shifts st in
  let equivalent_day_index := (day mod 28)%nat in
  if is_None_b (get_shift es emp day) then
    match get_shift es emp equivalent_day_index with
    | None => st
    | Some pattern_shift =>
      if is_shift_viable es emp day (Some pattern_shift) total_days
      then assign_shift st emp day pattern_shift
      else
        match first_viable es emp day total_days [2; 1; 3] with
        | Some alt_shift => assign_shift st emp day alt_shift
        | None => st   (* left as None instead of assigning Off *)
        end
    end
  else st.

Definition phase3 (employee_names : list string) (total_days : nat)
    (st : gen_state) : gen_state :=
  foldl (λ st day, foldl (phase3_cell total_days day) st employee_names)
        st (range 28 total_days).

(** ** Phase 4: the balancer *)

(** The keys of a dict built by iterating over [l]: first occurrences,
    in order. *)
Fixpoint dict_keys (seen l : list string) : list string :=
  match l with
  | [] => []
  | x :: l' =>
    if bool_decide (x ∈ seen) then dict_keys seen l'
    else x :: dict_keys (x :: seen) l'
  end.

(** The tallies are rebuilt from the matrix when phase 4 starts. *)
Definition recount (employee_names : list string) (total_days : nat)
    (es : schedule) : gmap string (gmap Z Z) :=
  foldl (λ sc name,
           foldl (λ sc day_idx,
                    match get_shift es name day_idx with
                    | Some shift => cnt_add sc name shift 1
                    | None => sc
                    end)
                 sc (range 0 total_days))
        (init_counts employee_names) employee_names.

(** [assigned_employees[s]] of one balancer iteration. *)
Definition assigned_employees (es : schedule) (employee_names : list string)
    (day : nat) (s : Z) : list string :=
  filter (λ emp, cell_is (get_shift es emp day) s = true)
         (dict_keys [] employee_names).

(** The loop shared by the three corrections of the balancer: walk the
    candidates, stop once [quota] moves are made, move a candidate from
    [origin] to [dest] when [dest] is viable for it.  The boolean is
    [made_change]. *)
Fixpoint move_up_to (total_days day : nat) (origin dest : Z) (quota : nat)
    (st : gen_state) (candidates : list string) : gen_state * bool :=
  match candidates with
  | [] => (st, false)
  | emp :: candidates' =>
    match quota with
    | O => (st, false)
    | S quota' =>
      if is_shift_viable (st_shifts st) emp day (Some dest) total_days then
        (fst (move_up_to total_days day origin dest quota'
                         (move_shift st emp day origin dest) candidates'),
         true)
      else move_up_to total_days day origin dest quota st candidates'
    end
  end.

Definition balance_evening (employee_names : list string) (total_days day : nat)
    (st : gen_state) : gen_state * bool :=
  let es := st_shifts st in
  let assigned := assigned_employees es employee_names day in
  let current_e := Z.of_nat (length (assigned 2)) in
  let target_e := target_of 2 in
  if target_e <? current_e then
    let num_to_move := current_e - target_e in
    let candidates_e :=
      sort_by_key (λ x, [- cnt_get (st_counts st) x 2]) (assigned 2) in
    move_up_to total_days day 2 1 (Z.to_nat num_to_move) st candidates_e
  else if current_e <? target_e then
    let num_needed := target_e - current_e in
    let donors :=
      if target_of 1 <? Z.of_nat (length (assigned 1)) then assigned 1 else [] in
    let donors :=
      sort_by_key (λ x, [Zb (negb (is_shift_viable es x day (Some 2) total_days));
                         cnt_get (st_counts st) x 2]) donors in
    move_up_to total_days day 1 2 (Z.to_nat num_needed) st donors
  else (st, false).

(** "Balance Night (N=1 strict)".  [night] is [assigned_employees[3]]
    and gives [shift_counts_day[3]]; both are computed when the pass
    starts, and the evening step changes neither. *)
Definition balance_night (total_days day : nat) (night : list string)
    (st : gen_state) : gen_state * bool :=
  let current_n := Z.of_nat (length night) in
  let target_n := target_of 3 in
  if target_n <? current_n then
    let num_to_move := current_n - target_n in
    let candidates_n :=
      sort_by_key (λ x, [- cnt_get (st_counts st) x 3]) night in
    move_up_to total_days day 3 1 (Z.to_nat num_to_move) st candidates_n
  else (st, false).

(** One pass of [for iteration in range(MAX_BALANCE_ITERATIONS)]; the
    boolean is [made_change]. *)
Definition balance_iteration (employee_names : list string)
    (total_days day : nat) (st : gen_state) : gen_state * bool :=
  let night := assigned_employees (st_shifts st) employee_names day 3 in
  let '(st1, changed_e) := balance_evening employee_names total_days day st in
  let '(st2, changed_n) := balance_night total_days day night st1 in
  (st2, changed_e || changed_n).

Definition MAX_BALANCE_ITERATIONS : nat := 7.

Fixpoint balance_day (iterations : nat) (employee_names : list string)
    (total_days day : nat) (st : gen_state) : gen_state :=
  match iterations with
  | O => st
  | S iterations' =>
    let '(st', made_change) :=
      balance_iteration employee_names total_days day st in
    if made_change
    then balance_day iterations' employee_names total_days day st'
    else st'
  end.

Definition phase4 (employee_names : list string) (total_days : nat)
    (st : gen_state) : gen_state :=
  let st :=
    {| st_shifts := st_shifts st;
       st_counts := recount employee_names total_days (st_shifts st);
       st_offs := st_offs st; st_rng := st_rng st |} in
  foldl (λ st day, balance_day MAX_BALANCE_ITERATIONS employee_names total_days day st)
        st (range 0 total_days).

(** ** Phase 4.5: presence of every shift *)

(** One repair of phase 4.5: [dest] is absent on [day]; the donors come
    from the shifts [src1] and [src2], those over target first, then
    those exactly at target; [tie] is the origin that sorts last among
    equals.  The result is [None] when nobody could be moved. *)
Definition presence_fix (employee_names : list string) (total_days day : nat)
    (dest src1 src2 tie : Z) (st : gen_state) : option gen_state :=
  let es := st_shifts st in
  let workers s :=
    (λ e, (e, s)) <$> filter (λ e, cell_is (get_shift es e day) s = true)
                             employee_names in
  let cnt s := count_day es employee_names day s in
  let candidates :=
    (if target_of src1 <? cnt src1 then workers src1 else [])
    ++ (if target_of src2 <? cnt src2 then workers src2 else []) in
  let candidates :=
    match candidates with
    | [] =>
      (if cnt src1 =? target_of src1 then workers src1 else [])
      ++ (if cnt src2 =? target_of src2 then workers src2 else [])
    | _ => candidates
    end in
  let candidates :=
    sort_by_key
      (λ x, [Zb (negb (is_shift_viable es (fst x) day (Some dest) total_days));
             cnt_get (st_counts st) (fst x) dest;
             Zb (snd x =? tie)])
      candidates in
  match filter (λ x, is_shift_viable es (fst x) day (Some dest) total_days = true)
               candidates with
  | [] => None
  | (emp, origin) :: _ => Some (move_shift st emp day origin dest)
  end.

(** One pass of the [while] loop; the boolean is [needs_check]. *)
Definition presence_iteration (employee_names : list string)
    (total_days day : nat) (st : gen_state) : gen_state * bool :=
  let es := st_shifts st in
  let cnt s := count_day es employee_names day s in
  let assigned_working := cnt 1 + cnt 2 + cnt 3 in
  if assigned_working =? 0 then (st, false)
  else
    let fix_e :=
      if cnt 2 =? 0
      then presence_fix employee_names total_days day 2 1 3 3 st else None in
    match fix_e with
    | Some st' => (st', true)
    | None =>
      let fix_m :=
        if cnt 1 =? 0
        then presence_fix employee_names total_days day 1 2 3 3 st else None in
      match fix_m with
      | Some st' => (st', true)
      | None =>
        let fix_n :=
          if cnt 3 =? 0
          then presence_fix employee_names total_days day 3 1 2 2 st else None in
        match fix_n with
        | Some st' => (st', true)
        | None => (st, (cnt 2 =? 0) || (cnt 1 =? 0) || (cnt 3 =? 0))
        end
      end
    end.

Definition max_check_iterations : nat := 5.

Fixpoint presence_day (iterations : nat) (employee_names : list string)
    (total_days day : nat) (st : gen_state) : gen_state :=
  match iterations with
  | O => st
  | S iterations' =>
    let '(st', needs_check) :=
      presence_iteration employee_names total_days day st in
    if needs_check
    then presence_day iterations' employee_names total_days day st'
    else st'
  end.

Definition phase45 (employee_names : list string) (total_days : nat)
    (st : gen_state) : gen_state :=
  foldl (λ st day, presence_day max_check_iterations employee_names total_days day st)
        st (range 0 total_days).

(** ** Phase 4.6: at least one N-N block per employee *)

(** The exceptions [generate_optimized_shifts] can raise: the
    [ValueError] of its first statement, and the [KeyError] of
    [shift_counts[emp][None]], a key no tally has.  The other
    subscripts of the function are guarded: list indices come from
    [range] loops or follow a bounds test, the tallies are read at the
    codes 0..3, [SHIFT_NAMES[...]] at a code that was just compared,
    and [min], [random.choice] and [candidates[0]] follow an emptiness
    test. *)
Inductive exn :=
  | ValueError_min_employees
  | KeyError_None.

(** [any(shifts[d] == 3 and shifts[d+1] == 3 for d in range(total_days - 1))]. *)
Definition has_nn (row : list (option Z)) (total_days : nat) : bool :=
  existsb (λ d, cell_is (cell_at row d) 3 && cell_is (cell_at row (d + 1)) 3)
          (range 0 (total_days - 1)).

(** [c in [None, 1, 2]]. *)
Definition convertible (c : option Z) : bool :=
  is_None_b c || cell_is c 1 || cell_is c 2.

(** The test of the scan of phase 4.6 at [day]. *)
Definition nn_window (es : schedule) (emp : string) (total_days day : nat) : bool :=
  convertible (get_shift es emp day)
  && convertible (get_shift es emp (day + 1))
  && is_shift_viable es emp day (Some 3) total_days
  && is_shift_viable es emp (day + 1) (Some 3) total_days.

(** [shift_counts[emp][old] -= 1 if old is not None else 0]: the
    subscription [shift_counts[emp][old]] is evaluated first, and fails
    for [old = None]. *)
Definition cnt_sub_cell (sc : gmap string (gmap Z Z)) (emp : string)
    (old : option Z) : exn + gmap string (gmap Z Z) :=
  match old with
  | None => inl KeyError_None
  | Some o => inr (cnt_add sc emp o (-1))
  end.

Definition phase46_emp (total_days : nat) (st : gen_state) (emp : string)
    : exn + gen_state :=
  let es := st_shifts st in
  if has_nn (row_of es emp) total_days then inr st
  else
    match find (nn_window es emp total_days) (range 0 (total_days - 1)) with
    | None => inr st       (* "Could not find a viable N-N block" *)
    | Some day =>
      let old1 := get_shift es emp day in
      let old2 := get_shift es emp (day + 1) in
      let es' := set_shift (set_shift es emp day (Some 3)) emp (day + 1) (Some 3) in
      match cnt_sub_cell (st_counts st) emp old1 with
      | inl e => inl e
      | inr sc1 =>
        match cnt_sub_cell sc1 emp old2 with
        | inl e => inl e
        | inr sc2 =>
          inr {| st_shifts := es'; st_counts := cnt_add sc2 emp 3 2;
                 st_offs := st_offs st; st_rng := st_rng st |}
        end
      end
    end.

Fixpoint phase46 (total_days : nat) (st : gen_state)
    (employee_names : list string) : exn + gen_state :=
  match employee_names with
  | [] => inr st
  | emp :: rest =>
    match phase46_emp total_days st emp with
    | inl e => inl e
    | inr st' => phase46 total_days st' rest
    end
  end.

(** ** Phase 5: final M-after-N validation *)

(** [shift_counts[emp][a] -= 1; shift_counts[emp][b] += 1] on the tallies alone. *)
Definition cnt_move (sc : gmap string (gmap Z Z)) (emp : string) (a b : Z)
    : gmap string (gmap Z Z) :=
  cnt_add (cnt_add sc emp a (-1)) emp b 1.

Definition phase5_cell (employee_names : list string) (total_days : nat)
    (emp : string) (st : gen_state) (day : nat) : gen_state :=
  let es := st_shifts st in
  let prev_shift := get_shift es emp (day - 1) in
  let current_shift := get_shift es emp day in
  if cell_is current_shift 1 && cell_is prev_shift 3 then
    if is_shift_viable es emp day (Some 2) total_days then
      let st1 := move_shift st emp day 1 2 in
      let cnt s := count_day (st_shifts st1) employee_names day s in
      if (target_of 2 <? cnt 2) && (cnt 1 <? target_of 1) then
        let candidates_e :=
          filter (λ e, cell_is (get_shift (st_shifts st1) e day) 2
                       && negb (bool_decide (e = emp)) = true)
                 employee_names in
        let candidates_e :=
          sort_by_key (λ x, [cnt_get (st_counts st1) x 1]) candidates_e in
        match filter (λ e, is_shift_viable (st_shifts st1) e day (Some 1) total_days = true)
                     candidates_e with
        | [] => st1                      (* "Mitigation failed" *)
        | swap_emp :: _ => move_shift st1 swap_emp day 2 1
        end
      else st1
    else if is_shift_viable es emp day (Some 0) total_days
            && (offs_get (st_offs st) day =? 0) then
      {| st_shifts := set_shift es emp day (Some 0);
         st_counts := cnt_move (st_counts st) emp 1 0;
         st_offs := <[day := 1]> (st_offs st);
         st_rng := st_rng st |}
    else st                              (* "CRITICAL: Cannot fix M-after-N" *)
  else st.

Definition phase5 (employee_names : list string) (total_days : nat)
    (st : gen_state) : gen_state :=
  foldl (λ st emp,
           foldl (phase5_cell employee_names total_days emp) st
                 (range 1 total_days))
        st employee_names.

(** ** Phase 6: final pattern and consecutive-night correction *)

(** [code in shift_counts[emp]]. *)
Definition cnt_has (sc : gmap string (gmap Z Z)) (emp : string) (code : Z) : bool :=
  bool_decide (is_Some (default ∅ (sc !! emp) !! code)).

(** The cell of [emp] on [day] is forced to Off:
    [employee_shifts[emp][day] = 0], one less of [orig_shift] when the
    tally has that key, one more Off, and the day is marked. *)
Definition force_off (st : gen_state) (emp : string) (day : nat)
    (orig_shift : Z) : gen_state :=
  let sc := st_counts st in
  let sc := if cnt_has sc emp orig_shift then cnt_add sc emp orig_shift (-1) else sc in
  {| st_shifts := set_shift (st_shifts st) emp day (Some 0);
     st_counts := cnt_add sc emp 0 1;
     st_offs := <[day := 1]> (st_offs st);
     st_rng := st_rng st |}.

(** The replacement draft: [swap_emp] takes [code] on [day]. *)
Definition draft (st : gen_state) (swap_emp : string) (day : nat) (code : Z)
    : gen_state :=
  let sc := st_counts st in
  let sc :=
    match get_shift (st_shifts st) swap_emp day with
    | Some cur => if cnt_has sc swap_emp cur then cnt_add sc swap_emp cur (-1) else sc
    | None => sc
    end in
  {| st_shifts := set_shift (st_shifts st) swap_emp day (Some code);
     st_counts := cnt_add sc swap_emp code 1;
     st_offs := st_offs st; st_rng := st_rng st |}.

(** "N-N->Off enforcement" at [day >= 2] for [emp]. *)
Definition phase6_nn_cell (employee_names : list string) (total_days : nat)
    (emp : string) (st : gen_state) (day : nat) : gen_state :=
  let es := st_shifts st in
  match get_shift es emp day with
  | Some orig_shift =>
    if cell_is (get_shift es emp (day - 2)) 3
       && cell_is (get_shift es emp (day - 1)) 3
       && negb (orig_shift =? 0) then
      let st1 := force_off st emp day orig_shift in
      let es1 := st_shifts st1 in
      let is_below_target :=
        match TARGET_SHIFTS_PER_DAY orig_shift with
        | Some target =>
          if orig_shift =? 1 then count_day es1 employee_names day 1 <? target
          else if (orig_shift =? 2) || (orig_shift =? 3)
               then count_day es1 employee_names day orig_shift <? target
               else false
        | None => false
        end in
      if is_below_target then
        let candidates :=
          filter (λ e, negb (bool_decide (e = emp))
                       && negb (cell_is (get_shift es1 e day) 0)
                       && negb (is_None_b (get_shift es1 e day))
                       && is_shift_viable es1 e day (Some orig_shift) total_days = true)
                 employee_names in
        let candidates :=
          sort_by_key (λ x, [cnt_get (st_counts st1) x orig_shift;
                             Zb (negb (cell_is (get_shift es1 x day) 1))])
                      candidates in
        match candidates with
        | [] => st1                  (* "Could not find replacement candidate" *)
        | swap_emp :: _ => draft st1 swap_emp day orig_shift
        end
      else st1
    else st
  | None => st
  end.

(** The pattern check before a Morning at [day >= 3] for [emp]. *)
Definition phase6_pattern_cell (employee_names : list string) (total_days : nat)
    (emp : string) (st : gen_state) (day : nat) : gen_state :=
  let es := st_shifts st in
  let shifts := row_of es emp in
  if cell_is (cell_at shifts day) 1 then
    let pattern_nem :=
      (2 <=? day)%nat && bool_decide (slice shifts (day - 2) day = [Some 3; Some 2]) in
    let pattern_nee :=
      bool_decide (slice shifts (day - 3) day = [Some 3; Some 2; Some 2]) in
    let pattern_nene :=
      (4 <=? day)%nat
      && bool_decide (slice shifts (day - 4) day = [Some 3; Some 2; Some 3; Some 2]) in
    let pattern_enee :=
      (4 <=? day)%nat
      && bool_decide (slice shifts (day - 4) day = [Some 2; Some 3; Some 2; Some 2]) in
    let force := pattern_nem || pattern_nee || pattern_nene || pattern_enee in
    if force then
      let st1 :=
        {| st_shifts := set_shift es emp day (Some 0);
           st_counts := cnt_move (st_counts st) emp 1 0;
           st_offs := <[day := 1]> (st_offs st);
           st_rng := st_rng st |} in
      let es1 := st_shifts st1 in
      if count_day es1 employee_names day 1 <? target_of 1 then
        let candidates :=
          filter (λ e, negb (bool_decide (e = emp))
                       && (cell_is (get_shift es1 e day) 2
                           || cell_is (get_shift es1 e day) 3)
                       && is_shift_viable es1 e day (Some 1) total_days = true)
                 employee_names in
        let candidates :=
          sort_by_key (λ x, [cnt_get (st_counts st1) x 1;
                             Zb (cell_is (get_shift es1 x day) 3)])
                      candidates in
        match candidates with
        | [] => st1
        | swap_emp :: _ => draft st1 swap_emp day 1
        end
      else st1
    else st
  else st.

Definition phase6_emp (employee_names : list string) (total_days : nat)
    (st : gen_state) (emp : string) : gen_state :=
  let st1 :=
    foldl (phase6_nn_cell employee_names total_days emp) st (range 2 total_days) in
  foldl (phase6_pattern_cell employee_names total_days emp) st1 (range 3 total_days).

Definition phase6 (employee_names : list string) (total_days : nat)
    (st : gen_state) : gen_state :=
  foldl (phase6_emp employee_names total_days) st employee_names.

(** ** [generate_optimized_shifts] *)

Definition min_required_employees : Z :=
  target_of 1 + target_of 2 + target_of 3 + 1.

(** The state after [employee_shifts], [shift_counts] and
    [days_with_offs_count] are created. *)
Definition initial_state (employee_names : list string) (total_days : nat)
    (rng : list nat) : gen_state :=
  {| st_shifts :=
       foldr (λ name m, <[name := replicate total_days None]> m) ∅ employee_names;
     st_counts := init_counts employee_names;
     st_offs := foldr (λ day m, <[day := 0]> m) ∅ (range 0 total_days);
     st_rng := rng |}.

(** Phases 0 to 4.5, which raise nothing. *)
Definition phases_0_to_45 (employee_names : list string) (total_days : nat)
    (rng : list nat) : gen_state :=
  let st := initial_state employee_names total_days rng in
  let st := assign_night_shift_pairs employee_names total_days st in
  let st := phase1 employee_names total_days st in
  let st := phase2 employee_names total_days st in
  let st := phase3 employee_names total_days st in
  let st := phase4 employee_names total_days st in
  phase45 employee_names total_days st.

(** Phases 0 to 5: the state phase 6 starts from, unless phase 4.6 raised. *)
Definition phases_0_to_5 (employee_names : list string) (total_days : nat)
    (rng : list nat) : exn + gen_state :=
  match phase46 total_days
                (phases_0_to_45 employee_names total_days rng)
                employee_names with
  | inl e => inl e
  | inr st => inr (phase5 employee_names total_days st)
  end.

(** The final check only logs; the matrix is returned as phase 6 left it. *)
Definition generate_optimized_shifts (employee_names : list string)
    (total_days : nat) (rng : list nat) : exn + schedule :=
  if Z.of_nat (length employee_names) <? min_required_employees
  then inl ValueError_min_employees
  else
    match phases_0_to_5 employee_names total_days rng with
    | inl e => inl e
    | inr st => inr (st_shifts (phase6 employee_names total_days st))
    end.

(** ** The stored schedule and the manual end points *)

(** A row of the [shiftassignment] table.  The primary key [id] is a
    fresh uuid that nothing of the engine reads; it is left out.  An
    employee id (a UUID) is a number, a date its proleptic ordinal. *)
Record ShiftAssignment := {
  sa_employee_id : N;
  sa_day : Z;
  sa_shift : Z;
  sa_shift_date : Z
}.

(** The database as one session sees it: the [employee] table (id to
    name), the [shiftassignment] table in the order its rows are
    returned, and the number of commits made. *)
Record database := {
  db_employees : gmap N string;
  db_assignments : list ShiftAssignment;
  db_commits : nat
}.

(** The month the request addresses ([current_year], [current_month]):
    the ordinal of its first day and its number of days; a month that
    does not exist has no day. *)
Record month := {
  first_ordinal : Z;
  month_len : Z
}.

(** [datetime(current_year, current_month, day).date()]; [None] is the
    [ValueError]. *)
Definition make_date (m : month) (day : Z) : option Z :=
  if (1 <=? day) && (day <=? month_len m) then Some (first_ordinal m + day - 1)
  else None.

(** The replies that are not a success. *)
Inductive http_error :=
  | Employee_not_found            (* 404 "Employee not found" *)
  | Invalid_day (day : Z)         (* 400 "Invalid day ..." *)
  | Invalid_shift_code            (* 400 "Invalid shift code" *)
  | Index_error                   (* new_shifts[i] past the end: uncaught *)
  | Same_employee                 (* 400 "Cannot swap same employee." *)
  | Employees_not_found           (* 404 "Employee(s) not found" *)
  | Same_shift (s : Z)            (* 400 "Both have same shift" *)
  | M_after_N (employee_id : N)   (* 400 "Swap failed: M-after-N for ..." *)
  | N_after_N (employee_id : N).  (* 400 "Swap failed: N-after-N for ..." *)

(** [select(ShiftAssignment).where(employee_id == e, shift_date == d).first()]:
    the position and the row. *)
Fixpoint find_assignment_from (i : nat) (rows : list ShiftAssignment)
    (e : N) (d : Z) : option (nat * ShiftAssignment) :=
  match rows with
  | [] => None
  | a :: rows' =>
    if bool_decide (sa_employee_id a = e) && (sa_shift_date a =? d)
    then Some (i, a)
    else find_assignment_from (S i) rows' e d
  end.

Definition find_assignment (rows : list ShiftAssignment) (e : N) (d : Z)
    : option (nat * ShiftAssignment) :=
  find_assignment_from 0 rows e d.

(** [assignment.shift = s]. *)
Definition with_shift (a : ShiftAssignment) (s : Z) : ShiftAssignment :=
  {| sa_employee_id := sa_employee_id a; sa_day := sa_day a;
     sa_shift := s; sa_shift_date := sa_shift_date a |}.







(** [prev_s = {a.employee_id: a.shift for a in prev_assign}] read at
    [employee]: the last row of the day before wins. *)
Definition prev_shift_of (rows : list ShiftAssignment) (prev_date : Z)
    (e1 e2 employee : N) : option Z :=
  foldl (λ m a, <[sa_employee_id a := sa_shift a]> m) (∅ : gmap N Z)
        (filter (λ a, sa_shift_date a = prev_date
                      ∧ (sa_employee_id a = e1 ∨ sa_employee_id a = e2)) rows)
  !! employee.

(** One side of "Perform swap": [employee] takes [s]; [a] is its row of
    the day in the current table, if any. *)
Definition give_shift (rows : list ShiftAssignment) (employee : N) (day : Z)
    (shift_date : Z) (s : Z) : list ShiftAssignment :=
  match find_assignment rows employee shift_date with
  | Some (i, a) =>
    if s =? 0 then delete i rows
    else <[i := with_shift a s]> rows
  | None =>
    if s =? 0 then rows
    else rows ++ [{| sa_employee_id := employee; sa_day := day;
                     sa_shift := s; sa_shift_date := shift_date |}]
  end.

(** The current code of [employee] on the day, Off when there is no row. *)
Definition current_shift_of (rows : list ShiftAssignment) (employee : N)
    (shift_date : Z) : Z :=
  match find_assignment rows employee shift_date with
  | Some (_, a) => sa_shift a
  | None => 0
  end.

Definition swap_shifts (db : database) (employee1_id employee2_id : N) (day : Z)
    (m : month) : (http_error + (Z * Z)) * database :=
  match make_date m day with
  | None => (inl (Invalid_day day), db)
  | Some shift_date =>
    if bool_decide (employee1_id = employee2_id) then (inl Same_employee, db)
    else
      match db_employees db !! employee1_id, db_employees db !! employee2_id with
      | Some _, Some _ =>
        let rows := db_assignments db in
        let s1 := current_shift_of rows employee1_id shift_date in
        let s2 := current_shift_of rows employee2_id shift_date in
        if s1 =? s2 then (inl (Same_shift s1), db)
        else
          let prev_date := shift_date - 1 in
          let prev_s1 := prev_shift_of rows prev_date employee1_id employee2_id employee1_id in
          let prev_s2 := prev_shift_of rows prev_date employee1_id employee2_id employee2_id in
          if (s2 =? 1) && cell_is prev_s1 3 then (inl (M_after_N employee1_id), db)
          else if (s1 =? 1) && cell_is prev_s2 3 then (inl (M_after_N employee2_id), db)
          else if (s2 =? 3) && cell_is prev_s1 3 then (inl (N_after_N employee1_id), db)
          else if (s1 =? 3) && cell_is prev_s2 3 then (inl (N_after_N employee2_id), db)
          else
            let rows1 := give_shift rows employee1_id day shift_date s2 in
            let rows2 := give_shift rows1 employee2_id day shift_date s1 in
            (inr (s2, s1),
             {| db_employees := db_employees db; db_assignments := rows2;
                db_commits := S (db_commits db) |})
      | _, _ => (inl Employees_not_found, db)
      end
  end.


(** ** Concrete rosters and states used by the examples *)

Definition roster6 : list string := ["a"; "b"; "c"; "d"; "e"; "f"]%string.

(** A state whose matrix is given row by row, in the order of the
    roster, with the tallies counted from it. *)
Definition state_of_rows (employee_names : list string)
    (rows : list (list (option Z))) (total_days : nat) : gen_state :=
  let es : schedule := list_to_map (zip employee_names rows) in
  {| st_shifts := es;
     st_counts := recount employee_names total_days es;
     st_offs := ∅; st_rng := [] |}.


(** The window test of phase 4.6 in the words of the specification,
    with the cells the code accepts: Morning, Evening or unset. *)
Definition eligible_window (row : list (option Z)) (total_days d : nat) : Prop :=
  (d + 1 < total_days)%nat
  ∧ cell_at row d ∈ [None; Some 1; Some 2]
  ∧ cell_at row (d + 1) ∈ [None; Some 1; Some 2]
  ∧ viable_in_row row d 3
  ∧ viable_in_row row (d + 1) 3.

(** One employee, four days: two days off, then two mornings. *)
Definition off_then_work : gen_state :=
  state_of_rows ["a"%string] [[Some 0; Some 0; Some 1; Some 1]] 4.

(** One employee, four days: an evening and three mornings. *)
Definition all_work : gen_state :=
  state_of_rows ["a"%string] [[Some 2; Some 1; Some 1; Some 1]] 4.

(** One employee, three days off. *)
Definition all_off : gen_state :=
  state_of_rows ["a"%string] [[Some 0; Some 0; Some 0]] 3.

(** The code stored for [employee] on [shift_date], if a row exists. *)
Definition stored_shift (rows : list ShiftAssignment) (employee : N)
    (shift_date : Z) : option Z :=
  match find_assignment rows employee shift_date with
  | Some (_, a) => Some (sa_shift a)
  | None => None
  end.



(** A thirty-day month, and a database with two employees where
    employee 1 works the Night of day 9 and the Morning of day 12. *)
Definition june : month := {| first_ordinal := 1000; month_len := 30 |}.

Definition small_db : database :=
  {| db_employees := {[ 1%N := "a"%string; 2%N := "b"%string ]};
     db_assignments :=
       [ {| sa_employee_id := 1; sa_day := 9; sa_shift := 3; sa_shift_date := 1008 |};
         {| sa_employee_id := 1; sa_day := 12; sa_shift := 1; sa_shift_date := 1011 |};
         {| sa_employee_id := 2; sa_day := 12; sa_shift := 2; sa_shift_date := 1011 |} ];
     db_commits := 0 |}.






(** ** Invariants of a generation run *)

(** Every row of the roster has one cell per day. *)
Definition rows_wf (employee_names : list string) (total_days : nat)
    (es : schedule) : Prop :=
  ∀ emp, emp ∈ employee_names → length (row_of es emp) = total_days.

(** [es'] comes from [es] by filling unset cells of the roster: a cell
    of day [x] that was filled holds a code [c] with [W x c]. *)
Definition fills (employee_names : list string) (W : nat → Z → Prop)
    (es es' : schedule) : Prop :=
  ∀ emp x,
    get_shift es' emp x = get_shift es emp x
    ∨ (emp ∈ employee_names ∧ get_shift es emp x = None
       ∧ ∃ c, W x c ∧ get_shift es' emp x = Some c).

(** A Night is followed, inside the period, by a Night or by Off. *)
Definition night_followed (employee_names : list string) (total_days : nat)
    (es : schedule) : Prop :=
  ∀ emp d, emp ∈ employee_names → (d + 1 < total_days)%nat →
    get_shift es emp d = Some 3 →
    get_shift es emp (d + 1) = Some 3 ∨ get_shift es emp (d + 1) = Some 0.

(** Inside the paired zone, the Nights of a row come in pairs
    (2j, 2j+1). *)
Definition nights_paired (employee_names : list string) (total_days : nat)
    (es : schedule) : Prop :=
  ∀ emp j, emp ∈ employee_names → (2 * j + 1 < total_days)%nat →
    (get_shift es emp (2 * j) = Some 3 ↔ get_shift es emp (2 * j + 1) = Some 3).

(** The number of employees of the roster whose cell of [day] satisfies [P]. *)
Definition holders (es : schedule) (employee_names : list string) (day : nat)
    (P : option Z → bool) : list string :=
  filter (λ emp, P (get_shift es emp day) = true) employee_names.

(** The days that the pair loop has covered when it reaches day [k]:
    [k] itself when [k] is even, [k + 1] when it is odd. *)
Definition covered (k : nat) : nat := (2 * ((k + 1) / 2))%nat.

(** At most one employee is Off on a day, and a day whose counter is 0
    has nobody Off. *)
Definition offs_ok (employee_names : list string) (es : schedule)
    (dwo : gmap nat Z) : Prop :=
  ∀ x, 0 ≤ offs_get dwo x
       ∧ (offs_get dwo x = 0 →
          holders es employee_names x (λ c, cell_is c 0) = [])
       ∧ (length (holders es employee_names x (λ c, cell_is c 0)) ≤ 1)%nat.

(** The cells after phases 0 and 1 hold Night, Off or nothing. *)
Definition night_off_only (employee_names : list string) (es : schedule) : Prop :=
  ∀ emp x, emp ∈ employee_names →
    get_shift es emp x = None ∨ get_shift es emp x = Some 3
    ∨ get_shift es emp x = Some 0.

(** The invariant of the pair loop of phase 0 when it reaches day [k]. *)
Definition pairs_inv (employee_names : list string) (total_days k : nat)
    (ps : pairs_state) : Prop :=
  let es := ps_shifts ps in
  let lpe := last_pair_end_of (ps_last_pair_end ps) in
  rows_wf employee_names total_days es
  ∧ length (ps_night_assigned ps) = total_days
  ∧ (∀ x, (x < total_days)%nat →
       night_assigned_at (ps_night_assigned ps) x = true ↔ (x < covered k)%nat)
  ∧ (∀ emp, emp ∈ employee_names →
       lpe emp = -100
       ∨ ∃ j : nat, lpe emp = Z.of_nat (2 * j + 1) ∧ (2 * j + 1 < covered k)%nat)
  ∧ (∀ emp emp', emp ∈ employee_names → emp' ∈ employee_names →
       lpe emp = lpe emp' → lpe emp ≠ -100 → emp = emp')
  ∧ (∀ emp x, emp ∈ employee_names → get_shift es emp x ≠ None →
       Z.of_nat x ≤ lpe emp + 1)
  ∧ night_off_only employee_names es
  ∧ (∀ x, (x < covered k)%nat → (x < total_days)%nat →
       length (holders es employee_names x (λ c, cell_is c 3)) = 1%nat)
  ∧ (∀ x, (covered k ≤ x)%nat →
       holders es employee_names x (λ c, cell_is c 3) = [])
  ∧ night_followed employee_names total_days es
  ∧ nights_paired employee_names total_days es
  ∧ offs_ok employee_names es (ps_offs ps)
  ∧ (∀ x, (covered k < x)%nat → offs_get (ps_offs ps) x = 0).

(** The days that hold a pair of phase 0: all of them but the last day
    of a period of odd length. *)
Definition paired_days (total_days : nat) : nat := (2 * (total_days / 2))%nat.

(** What phases 0 and 1 establish: Night, Off or nothing in every
    cell, one Night per paired day, every Night followed by a Night or
    by Off, the Nights of the paired days in pairs, at most one Off a
    day. *)
Definition nights_placed (employee_names : list string) (total_days : nat)
    (es : schedule) (dwo : gmap nat Z) : Prop :=
  rows_wf employee_names total_days es
  ∧ night_off_only employee_names es
  ∧ (∀ x, (x < paired_days total_days)%nat →
       length (holders es employee_names x (λ c, cell_is c 3)) = 1%nat)
  ∧ night_followed employee_names total_days es
  ∧ nights_paired employee_names (paired_days total_days) es
  ∧ offs_ok employee_names es dwo.

(** The invariant of phase 1: it only writes Off into unset cells, and
    keeps at most one Off a day. *)
Definition off_inv (employee_names : list string) (total_days : nat)
    (es0 : schedule) (st : gen_state) : Prop :=
  rows_wf employee_names total_days (st_shifts st)
  ∧ fills employee_names (λ _ c, c = 0) es0 (st_shifts st)
  ∧ offs_ok employee_names (st_shifts st) (st_offs st).

(** The writes of phase 2 on day [d]: Morning or Evening, and Night
    only on a day that holds no pair. *)
Definition day_writes (total_days d : nat) : nat → Z → Prop :=
  λ x c, x = d ∧ (c = 1 ∨ c = 2 ∨ (c = 3 ∧ (paired_days total_days ≤ d)%nat)).

(** The invariant of the work of phase 2 on day [d]: [available_today]
    lists, without repetition, the employees whose cell of the day is
    unset. *)
Definition day_inv (employee_names : list string) (total_days d : nat)
    (es_in : schedule) (acc : gen_state * list string) : Prop :=
  rows_wf employee_names total_days (st_shifts (fst acc))
  ∧ fills employee_names (day_writes total_days d) es_in (st_shifts (fst acc))
  ∧ NoDup (snd acc)
  ∧ ∀ e, e ∈ snd acc
         ↔ e ∈ employee_names ∧ get_shift (st_shifts (fst acc)) e d = None.

(** The writes of the whole of phase 2. *)
Definition template_writes (total_days : nat) : nat → Z → Prop :=
  λ x c, (x < Nat.min 28 total_days)%nat
         ∧ (c = 1 ∨ c = 2 ∨ (c = 3 ∧ (paired_days total_days ≤ x)%nat)).

(** A paired day is balanced: one Night, two Evenings, a Morning. *)
Definition balanced_day (employee_names : list string) (es : schedule)
    (x : nat) : Prop :=
  length (holders es employee_names x (λ c, cell_is c 3)) = 1%nat
  ∧ length (holders es employee_names x (λ c, cell_is c 2)) = 2%nat
  ∧ ∃ e, e ∈ employee_names ∧ get_shift es e x = Some 1.

(** The invariant of phase 2 when it reaches day [k]; [es1] is the
    matrix phase 1 left. *)
Definition phase2_inv (employee_names : list string) (total_days : nat)
    (es1 : schedule) (k : nat) (st : gen_state) : Prop :=
  rows_wf employee_names total_days (st_shifts st)
  ∧ fills employee_names (template_writes total_days) es1 (st_shifts st)
  ∧ (∀ e x, e ∈ employee_names → (x < k)%nat → get_shift (st_shifts st) e x ≠ None)
  ∧ (∀ x, (x < k)%nat → (x < paired_days total_days)%nat →
          balanced_day employee_names (st_shifts st) x)
  ∧ (∀ e x, (k ≤ x)%nat → get_shift (st_shifts st) e x = get_shift es1 e x).

(** Where the Nights of the extension come from: a Night was there
    when phase 3 started, or the employee has a Night in the template. *)
Definition night_origin (employee_names : list string) (es2 es : schedule) : Prop :=
  ∀ e x, e ∈ employee_names → get_shift es e x = Some 3 →
    get_shift es2 e x = Some 3
    ∨ ∃ y, (y < 28)%nat ∧ get_shift es2 e y = Some 3.

(** The invariant of phase 3 when it reaches day [k]; [es2] is the
    matrix phase 2 left.  A cell that phase 3 leaves unset comes after
    a Night. *)
Definition phase3_inv (employee_names : list string) (total_days : nat)
    (es2 : schedule) (k : nat) (st : gen_state) : Prop :=
  rows_wf employee_names total_days (st_shifts st)
  ∧ fills employee_names (λ x _, (28 ≤ x)%nat) es2 (st_shifts st)
  ∧ night_origin employee_names es2 (st_shifts st)
  ∧ (∀ e x, e ∈ employee_names → (28 ≤ x < k)%nat →
       get_shift (st_shifts st) e x = None →
       get_shift (st_shifts st) e (x - 1) = Some 3)
  ∧ (∀ e x, (k ≤ x)%nat → get_shift (st_shifts st) e x = get_shift es2 e x).

(** What phases 0 to 3 establish for phase 4.6: every employee has a
    pair of Nights inside the template, or no unset cell at all. *)
Definition block_or_full (employee_names : list string) (total_days : nat)
    (es : schedule) : Prop :=
  ∀ e, e ∈ employee_names →
    (∃ j, (2 * j + 1 < 28)%nat ∧ (28 ≤ total_days)%nat
          ∧ get_shift es e (2 * j) = Some 3 ∧ get_shift es e (2 * j + 1) = Some 3)
    ∨ (∀ x, (x < total_days)%nat → get_shift es e x ≠ None).

(** [es'] comes from [es] by overwriting cells of the days from [K] on
    with shift codes: phases 4 and 4.5 never unset a cell. *)
Definition rewrites (K : nat) (es es' : schedule) : Prop :=
  ∀ e x, get_shift es' e x = get_shift es e x
         ∨ ((K ≤ x)%nat ∧ ∃ c, get_shift es' e x = Some c).

(** The rows phase 4.6 handles without reading an unset cell. *)
Definition row_ok (total_days : nat) (es : schedule) (e : string) : Prop :=
  has_nn (row_of es e) total_days = true
  ∨ ∀ x, (x < total_days)%nat → get_shift es e x ≠ None.


(** The rest after an N-N block, checked on the days below [k]. *)
Definition nn_then_rest_upto (row : list (option Z)) (k : nat) : Prop :=
  ∀ d, (d + 2 < k)%nat →
    cell_at row d = Some 3 → cell_at row (d + 1) = Some 3 →
    cell_at row (d + 2) = Some 0 ∨ cell_at row (d + 2) = None.



(** One day with one Night, two Evenings, two Mornings and one Off. *)
Definition balanced_one_day : gen_state :=
  state_of_rows roster6
    [[Some 3]; [Some 2]; [Some 2]; [Some 1]; [Some 1]; [Some 0]] 1.

(** The state phase 3 starts from in a run of six employees over
    thirty days. *)
Definition thirty_days_before_phase3 : gen_state :=
  phase2 roster6 30
    (phase1 roster6 30
       (assign_night_shift_pairs roster6 30 (initial_state roster6 30 [2; 7; 1]%nat))).

(** ** [check_future_m_after_n] *)

(** [check_future_m_after_n(employee_shifts, name, day, total_days)];
    [None] is the [IndexError] of a row shorter than [day + 2]. *)
Definition check_future_m_after_n (employee_shifts : schedule) (name : string)
    (day total_days : nat) : option bool :=
  match employee_shifts !! name with
  | None => Some true
  | Some row =>
    if (total_days <=? day + 1)%nat then Some true
    else
      match row !! day, row !! (day + 1)%nat with
      | Some current_shift, Some next_day_shift =>
        if cell_is current_shift 3 && cell_is next_day_shift 1 then Some false
        else Some true
      | _, _ => None
      end
  end.

(** [es'] comes from [es] by writes that keep the length of every row
    and store a code of [SHIFT_NAMES] or a code read in the matrix. *)
Definition recoded (es es' : schedule) : Prop :=
  (∀ e, length (row_of es' e) = length (row_of es e))
  ∧ ∀ e x c, get_shift es' e x = Some c →
      (0 ≤ c ≤ 3) ∨ ∃ e' x', get_shift es e' x' = Some c.

(** A cell that holds a working shift: Morning, Evening or Night. *)
Definition working (c : option Z) : Prop :=
  c = Some 1 ∨ c = Some 2 ∨ c = Some 3.

(** [es'] comes from [es] by moving employees from one working shift
    to another: the cells that are Off or unset are the same in both. *)
Definition reshuffled (es es' : schedule) : Prop :=
  ∀ e x, get_shift es' e x = get_shift es e x
         ∨ (working (get_shift es e x) ∧ working (get_shift es' e x)).

(** A Morning directly after a Night: the row of [e] holds Night on
    day [d] and Morning on day [d + 1]. *)
Definition morning_after_night (es : schedule) (e : string) (d : nat) : Prop :=
  get_shift es e d = Some 3 ∧ get_shift es e (d + 1) = Some 1.

(** [es'] has the Nights of [es], and no Morning after a Night that
    [es] has not. *)
Definition no_new_morning_after_night (es es' : schedule) : Prop :=
  (∀ e x, get_shift es' e x = Some 3 ↔ get_shift es e x = Some 3)
  ∧ ∀ e d, morning_after_night es' e d → morning_after_night es e d.

(** Two employees over three days; "a" works N, N, M and "b" is Off on
    the third day, which the Off count of that day records. *)
Definition night_night_morning : gen_state :=
  {| st_shifts := st_shifts (state_of_rows ["a"; "b"]%string
                    [[Some 3; Some 3; Some 1]; [Some 1; Some 2; Some 0]] 3);
     st_counts := st_counts (state_of_rows ["a"; "b"]%string
                    [[Some 3; Some 3; Some 1]; [Some 1; Some 2; Some 0]] 3);
     st_offs := {[ 2%nat := 1 ]};
     st_rng := [] |}.

(** The rows stored for [employee] on [shift_date], in table order.
    The table has no uniqueness constraint on that pair. *)
Definition rows_for (rows : list ShiftAssignment) (employee : N)
    (shift_date : Z) : list ShiftAssignment :=
  filter (λ a, sa_employee_id a = employee ∧ sa_shift_date a = shift_date) rows.

(** ** The monthly report of one employee: [get_employee_schedule] *)

(** [SHIFT_NAMES.get(code)]. *)
Definition SHIFT_NAMES_get (code : Z) : option string :=
  if code =? 1 then Some "Morning"%string
  else if code =? 2 then Some "Evening"%string
  else if code =? 3 then Some "Night"%string
  else if code =? 0 then Some "Off"%string
  else None.

(** [date.weekday()] of the date with that ordinal: Monday is 0. *)
Definition weekday (ordinal : Z) : Z := (ordinal + 6) mod 7.

(** One entry of the [schedule] list.  The strings [date] and
    [weekday] of the entry are formatted from [se_date]. *)
Record schedule_entry := {
  se_day : Z;
  se_date : Z;
  se_shift_code : Z;
  se_shift_name : string
}.

(** The reply; its [month] string is formatted from the request. *)
Record employee_report := {
  er_employee_id : N;
  er_employee_name : string;
  er_schedule : list schedule_entry;
  er_statistics : list (string * Z);
  er_varied_weekoffs : bool
}.

Inductive schedule_error :=
  | Schedule_employee_not_found   (* 404 "Employee not found" *)
  | Invalid_year_or_month.        (* 400 "Invalid year or month combination" *)

(** [{a.shift_date: a for a in assignments}]: a later row replaces an
    earlier one of the same date. *)
Definition assign_map_of (assignments : list ShiftAssignment)
    : gmap Z ShiftAssignment :=
  foldl (λ mp a, <[sa_shift_date a := a]> mp) ∅ assignments.

(** [assignment.shift if assignment else 0] for [day_num]. *)
Definition code_on (assign_map : gmap Z ShiftAssignment) (start_date : Z)
    (day_num : nat) : Z :=
  match assign_map !! (start_date + Z.of_nat day_num) with
  | Some assignment => sa_shift assignment
  | None => 0
  end.

(** The body of [for day_num in range(num_days)] on [schedule],
    [stats] and [weekday_offs]. *)
Definition schedule_step (assign_map : gmap Z ShiftAssignment) (start_date : Z)
    (acc : list schedule_entry * gmap Z Z * gmap Z Z) (day_num : nat)
    : list schedule_entry * gmap Z Z * gmap Z Z :=
  let '(schedule, stats, weekday_offs) := acc in
  let current_date := start_date + Z.of_nat day_num in
  let shift_code := code_on assign_map start_date day_num in
  let shift_name := default "Unknown"%string (SHIFT_NAMES_get shift_code) in
  let schedule :=
    schedule ++ [{| se_day := Z.of_nat day_num + 1; se_date := current_date;
                    se_shift_code := shift_code;
                    se_shift_name := shift_name |}] in
  let stats :=
    match stats !! shift_code with
    | Some n => <[shift_code := n + 1]> stats
    | None => stats
    end in
  let weekday_offs :=
    if shift_code =? 0 then
      <[weekday current_date :=
          default 0 (weekday_offs !! weekday current_date) + 1]> weekday_offs
    else weekday_offs in
  (schedule, stats, weekday_offs).

(** The rows of the employee in the month come ordered by date; rows
    of one date keep the order of the table. *)
Definition get_employee_schedule (db : database) (employee_id : N) (m : month)
    : schedule_error + employee_report :=
  match db_employees db !! employee_id with
  | None => inl Schedule_employee_not_found
  | Some employee_name =>
    match make_date m 1 with
    | None => inl Invalid_year_or_month
    | Some start_date =>
      let num_days := month_len m in
      let end_date := start_date + (num_days - 1) in
      let assignments :=
        sort_by_key (λ a, [sa_shift_date a])
          (filter (λ a, sa_employee_id a = employee_id
                        ∧ start_date ≤ sa_shift_date a
                        ∧ sa_shift_date a ≤ end_date)
                  (db_assignments db)) in
      let assign_map := assign_map_of assignments in
      let '(schedule, stats, weekday_offs) :=
        foldl (schedule_step assign_map start_date) ([], zero_counts, ∅)
              (range 0 (Z.to_nat num_days)) in
      let varied_weekoffs :=
        if 1 <? default 0 (stats !! 0)
        then 1 <? Z.of_nat (size weekday_offs) else true in
      inr {| er_employee_id := employee_id;
             er_employee_name := employee_name;
             er_schedule := schedule;
             er_statistics :=
               omap (λ k, match SHIFT_NAMES_get k, stats !! k with
                          | Some name, Some v => Some (name, v)
                          | _, _ => None
                          end)
                    SHIFT_NAMES_keys;
             er_varied_weekoffs := varied_weekoffs |}
    end
  end.

(** The number of days of the report that carry [code]. *)
Definition days_with (schedule : list schedule_entry) (code : Z) : Z :=
  Z.of_nat (length (filter (λ en, se_shift_code en = code) schedule)).

(** ** The calendar: [calendar.monthrange], [datetime], [timedelta] *)

(** [calendar.isleap(year)]. *)
Definition isleap (year : Z) : bool :=
  (year mod 4 =? 0) && (negb (year mod 100 =? 0) || (year mod 400 =? 0)).

(** [calendar.mdays]. *)
Definition mdays : list Z := [0; 31; 28; 31; 30; 31; 30; 31; 31; 30; 31; 30; 31].

(** [calendar.monthrange(year, month)[1]]; [None] is [IllegalMonthError]. *)
Definition monthrange_days (year month : Z) : option Z :=
  if (1 <=? month) && (month <=? 12) then
    Some (nth (Z.to_nat month) mdays 0
          + (if (month =? 2) && isleap year then 1 else 0))
  else None.

Definition MINYEAR : Z := 1.
Definition MAXYEAR : Z := 9999.

(** The number of days before January 1st of [year]. *)
Definition days_before_year (year : Z) : Z :=
  let y := year - 1 in y * 365 + y / 4 - y / 100 + y / 400.

(** The number of days of [year] before the first day of [month]. *)
Definition DAYS_BEFORE_MONTH : list Z :=
  [0; 0; 31; 59; 90; 120; 151; 181; 212; 243; 273; 304; 334].

Definition days_before_month (year month : Z) : Z :=
  nth (Z.to_nat month) DAYS_BEFORE_MONTH 0
  + (if (2 <? month) && isleap year then 1 else 0).

(** [datetime(year, month, 1)] as the ordinal of its date; [None] is
    the [ValueError] of a year or month out of range. *)
Definition first_of_month (year month : Z) : option Z :=
  if (MINYEAR <=? year) && (year <=? MAXYEAR) && (1 <=? month) && (month <=? 12)
  then Some (days_before_year year + days_before_month year month + 1)
  else None.

(** The ordinal of [date.max], December 31st of the year 9999. *)
Definition MAX_ORDINAL : Z := 3652059.

(** [d + timedelta(days=n)]; [None] is the [OverflowError] of a date
    out of range. *)
Definition add_days (ordinal n : Z) : option Z :=
  if (1 <=? ordinal + n) && (ordinal + n <=? MAX_ORDINAL)
  then Some (ordinal + n) else None.

(** [(target_year < current_year) or (target_year == current_year and
    target_month < current_month)]. *)
Definition past_month (target_year target_month current_year current_month : Z)
    : bool :=
  (target_year <? current_year)
  || ((target_year =? current_year) && (target_month <? current_month)).

(** The rows with [start_date <= shift_date < end_date_exclusive], and
    the others. *)
Definition rows_in_range (start_date end_date_exclusive : Z)
    (rows : list ShiftAssignment) : list ShiftAssignment :=
  filter (λ a, start_date ≤ sa_shift_date a
               ∧ sa_shift_date a < end_date_exclusive) rows.

Definition rows_out_of_range (start_date end_date_exclusive : Z)
    (rows : list ShiftAssignment) : list ShiftAssignment :=
  filter (λ a, ¬ (start_date ≤ sa_shift_date a
                  ∧ sa_shift_date a < end_date_exclusive)) rows.

(** ** [delete_shift_schedule] *)

Inductive delete_reply :=
  | Delete_invalid_month        (* 400 "Invalid month or year" *)
  | Delete_past_month           (* 400 "Cannot delete schedules for past months" *)
  | Delete_date_error           (* ValueError or OverflowError, not caught *)
  | Delete_nothing_found        (* 200 "No shift assignments found for ..." *)
  | Deleted (num_deleted : nat).  (* 200 "Successfully deleted ..." *)

(** [now_year], [now_month] are [datetime.now()]; [year] and [month]
    the optional parameters of the request. *)
Definition delete_shift_schedule (now_year now_month : Z) (year month : option Z)
    (db : database) : delete_reply * database :=
  let target_year := default now_year year in
  let target_month := default now_month month in
  match monthrange_days target_year target_month with
  | None => (Delete_invalid_month, db)
  | Some total_days =>
    if past_month target_year target_month now_year now_month
    then (Delete_past_month, db)
    else
      match first_of_month target_year target_month with
      | None => (Delete_date_error, db)
      | Some start_date =>
        match add_days start_date total_days with
        | None => (Delete_date_error, db)
        | Some end_date_exclusive =>
          let existing_count :=
            length (rows_in_range start_date end_date_exclusive
                                  (db_assignments db)) in
          if (existing_count =? 0)%nat then (Delete_nothing_found, db)
          else
            (Deleted existing_count,
             {| db_employees := db_employees db;
                db_assignments :=
                  rows_out_of_range start_date end_date_exclusive
                                    (db_assignments db);
                db_commits := S (db_commits db) |})
        end
      end
  end.

(** ** [assign_shifts] *)

Inductive assign_reply :=
  | Assign_invalid_month             (* 400 "Invalid month or year" *)
  | Assign_past_month                (* 400 "Cannot generate shifts for past months" *)
  | Assign_too_far                   (* 400 "... more than one year in the future" *)
  | Assign_date_error                (* ValueError or OverflowError, not caught *)
  | Assign_conflict (existing_count : nat)   (* 409 *)
  | Assign_too_few (found : nat)     (* 400 "At least 6 ... required" *)
  | Assign_failed_generation         (* 400 "Failed generation: ..." *)
  | Assign_unexpected_error          (* 500 "Unexpected error during assignment" *)
  | Assigned (added_count : nat).    (* 200 *)

(** [{emp.name: emp.id for emp in employee_list}]. *)
Definition employee_id_map (employee_list : list (N * string)) : gmap string N :=
  foldl (λ mp emp, <[emp.2 := emp.1]> mp) ∅ employee_list.

(** The rows built from one row of the matrix:
    [for day_idx, shift_code in enumerate(shifts)], the unset cells
    skipped. *)
Definition assignments_of_row (emp_id : N) (start_date : Z)
    (shifts : list (option Z)) : list ShiftAssignment :=
  omap (λ cell,
          match cell.2 with
          | Some shift_code =>
            Some {| sa_employee_id := emp_id;
                    sa_day := Z.of_nat cell.1 + 1;
                    sa_shift := shift_code;
                    sa_shift_date := start_date + Z.of_nat cell.1 |}
          | None => None
          end)
       (zip (seq 0 (length shifts)) shifts).

(** [assignments_to_add]: [employee_shifts.items()] goes through the
    names in the order the matrix was created with. *)
Definition assignments_to_add (employee_list : list (N * string))
    (employee_shifts : schedule) (start_date : Z) : list ShiftAssignment :=
  mjoin ((λ name,
            match employee_id_map employee_list !! name with
            | None => []            (* "Skipping assignments ... ID not found" *)
            | Some emp_id =>
              assignments_of_row emp_id start_date (row_of employee_shifts name)
            end)
         <$> dict_keys [] (snd <$> employee_list)).

(** [employee_list] is the answer to the query for the employees of
    the two roles, ordered by name, as pairs of id and name. *)
Definition assign_shifts (now_year now_month : Z) (year month : option Z)
    (force : bool) (employee_list : list (N * string)) (rng : list nat)
    (db : database) : assign_reply * database :=
  let target_year := default now_year year in
  let target_month := default now_month month in
  match monthrange_days target_year target_month with
  | None => (Assign_invalid_month, db)
  | Some total_days =>
    if past_month target_year target_month now_year now_month
    then (Assign_past_month, db)
    else if now_year + 1 <? target_year then (Assign_too_far, db)
    else
      match first_of_month target_year target_month with
      | None => (Assign_date_error, db)
      | Some start_date =>
        match add_days start_date total_days with
        | None => (Assign_date_error, db)
        | Some end_date_exclusive =>
          let existing_count :=
            length (rows_in_range start_date end_date_exclusive
                                  (db_assignments db)) in
          if (0 <? existing_count)%nat && negb force
          then (Assign_conflict existing_count, db)
          else if Z.of_nat (length employee_list) <? min_required_employees
          then (Assign_too_few (length employee_list), db)
          else
            let employee_names := snd <$> employee_list in
            match generate_optimized_shifts employee_names
                                            (Z.to_nat total_days) rng with
            | inl ValueError_min_employees => (Assign_failed_generation, db)
            | inl KeyError_None => (Assign_unexpected_error, db)
            | inr employee_shifts =>
              let kept :=
                rows_out_of_range start_date end_date_exclusive
                                  (db_assignments db) in
              let to_add :=
                assignments_to_add employee_list employee_shifts start_date in
              (Assigned (length to_add),
               {| db_employees := db_employees db;
                  db_assignments := kept ++ to_add;
                  db_commits := S (S (db_commits db)) |})
            end
        end
      end
  end.

(** November 2026 begins on the day with ordinal 739921.  A table with
    two rows in that month and one in December. *)
Definition november_db : database :=
  {| db_employees := {[ 1%N := "a"%string; 2%N := "b"%string ]};
     db_assignments :=
       [ {| sa_employee_id := 1; sa_day := 1; sa_shift := 3; sa_shift_date := 739921 |};
         {| sa_employee_id := 2; sa_day := 30; sa_shift := 1; sa_shift_date := 739950 |};
         {| sa_employee_id := 1; sa_day := 1; sa_shift := 2; sa_shift_date := 739951 |} ];
     db_commits := 0 |}.

(** Six employees of the two roles, in the order of their names. *)
Definition staff6 : list (N * string) :=
  [(1%N, "a"); (2%N, "b"); (3%N, "c"); (4%N, "d"); (5%N, "e"); (6%N, "f")]%string.

(** The stored rows dated in the month of a request; the month is
    [year]-[month]. *)
Definition month_rows (year month : Z) (rows : list ShiftAssignment)
    : list ShiftAssignment :=
  match first_of_month year month, monthrange_days year month with
  | Some start_date, Some total_days =>
    rows_in_range start_date (start_date + total_days) rows
  | _, _ => []
  end.

(** ** [get_shift_pairing] *)












(** * Properties *)

(** ** Rows, cells and slices *)

Lemma cell_is_true (row : list (option Z)) (i : nat) (v : Z) :
  cell_is (cell_at row i) v = true ↔ row !! i = Some (Some v).
Proof.
  unfold cell_is, cell_at.
  destruct (row !! i) as [[x|]|]; split; intros H; try discriminate.
  - apply Z.eqb_eq in H. by subst.
  - injection H as ->. apply Z.eqb_refl.
Qed.

Lemma slice_cons_lookup (row : list (option Z)) (a k : nat) (c : option Z)
    (p : list (option Z)) :
  length p = k →
  slice row a (a + S k) = c :: p ↔ row !! a = Some c ∧ slice row (S a) (S a + k) = p.
Proof.
  intros Hk. unfold slice.
  replace (a + S k - a)%nat with (S k) by lia.
  replace (S a + k - S a)%nat with k by lia.
  revert row. induction a as [|a IH]; intros row.
  - destruct row as [|x row]; simpl.
    + split; [discriminate | intros [? _]; discriminate].
    + rewrite drop_0. split.
      * intros [= -> <-]. done.
      * intros [[= ->] ->]. done.
  - destruct row as [|x row]; simpl.
    + split; [discriminate | intros [? _]; discriminate].
    + apply IH.
Qed.

Lemma slice_nil (row : list (option Z)) (a : nat) : slice row a a = [].
Proof. unfold slice. by rewrite Nat.sub_diag. Qed.

(** A pattern precedes [day] exactly when the slice of its length
    that ends at [day] is the pattern. *)
Lemma preceded_by_slice (row : list (option Z)) (day : nat) (p : list Z) :
  (day ≤ length row)%nat →
  preceded_by row day p ↔
  (length p ≤ day)%nat ∧ slice row (day - length p) day = Some <$> p.
Proof.
  intros Hday. unfold preceded_by, slice. split.
  - intros [k Hk].
    assert (Hlen : length (take day row) = (length k + length p)%nat).
    { rewrite Hk, length_app, length_fmap. done. }
    rewrite length_take in Hlen.
    split; [lia|].
    replace (day - (day - length p))%nat with (length p) by lia.
    rewrite take_drop_commute.
    replace (day - length p + length p)%nat with day by lia.
    rewrite Hk.
    replace (day - length p)%nat with (length k) by lia.
    by rewrite drop_app_length.
  - intros [Hle Heq].
    exists (take (day - length p) row).
    rewrite <- Heq.
    replace (day - (day - length p))%nat with (length p) by lia.
    rewrite take_drop_commute.
    replace (day - length p + length p)%nat with day by lia.
    rewrite <- (take_drop (day - length p) (take day row)) at 1.
    f_equal. rewrite take_take. f_equal. lia.
Qed.

Lemma preceded_by_1 (row : list (option Z)) (day : nat) (a : Z) :
  (day ≤ length row)%nat →
  preceded_by row day [a] ↔ (1 ≤ day)%nat ∧ row !! (day - 1)%nat = Some (Some a).
Proof.
  intros Hday. rewrite preceded_by_slice by done. simpl.
  split; intros [H1 H2]; (split; [done|]).
  - replace day with (day - 1 + 1)%nat in H2 at 2 by lia.
    apply (slice_cons_lookup _ _ 0 _ []) in H2; [|done]. tauto.
  - replace day with (day - 1 + 1)%nat at 2 by lia.
    apply (slice_cons_lookup _ _ 0 _ []); [done|]. split; [done|].
    replace (S (day - 1) + 0)%nat with (S (day - 1)) by lia. apply slice_nil.
Qed.

Lemma preceded_by_2 (row : list (option Z)) (day : nat) (a b : Z) :
  (day ≤ length row)%nat →
  preceded_by row day [a; b] ↔
  (2 ≤ day)%nat ∧ row !! (day - 2)%nat = Some (Some a)
  ∧ row !! (day - 1)%nat = Some (Some b).
Proof.
  intros Hday. rewrite preceded_by_slice by done. simpl.
  split.
  - intros [H1 H2]. split; [done|].
    replace day with (day - 2 + 2)%nat in H2 at 2 by lia.
    apply (slice_cons_lookup _ _ 1 _ [Some b]) in H2; [|done].
    destruct H2 as [Ha H2]. split; [done|].
    apply (slice_cons_lookup _ _ 0 _ []) in H2; [|done].
    replace (S (day - 2)) with (day - 1)%nat in H2 by lia. tauto.
  - intros (H1 & Ha & Hb). split; [done|].
    replace day with (day - 2 + 2)%nat at 2 by lia.
    apply (slice_cons_lookup _ _ 1 _ [Some b]); [done|]. split; [done|].
    apply (slice_cons_lookup _ _ 0 _ []); [done|].
    replace (S (day - 2)) with (day - 1)%nat by lia. split; [done|].
    replace (S (day - 1) + 0)%nat with (S (day - 1)) by lia. apply slice_nil.
Qed.

(** ** The legality predicate *)

(** The legality predicate, rule by rule, against the wording of the
    specification. *)
Lemma is_shift_viable_iff (employee_shifts : schedule) (name : string)
    (day : nat) (candidate : Z) (total_days : nat) :
  is_shift_viable employee_shifts name day (Some candidate) total_days = true
  ↔ viable_in_row (row_of employee_shifts name) day candidate.
Proof.
  unfold is_shift_viable, viable_in_row.
  set (row := row_of employee_shifts name).
  destruct (Z.eqb_spec candidate 0) as [->|Hc0]; [tauto|].
  destruct (Nat.leb_spec (length row) day) as [Hout|Hin].
  { split; [discriminate|]. intros [?|[? _]]; [done|lia]. }
  assert (Hle : (day ≤ length row)%nat) by lia.
  rewrite (preceded_by_2 row day 3 3), (preceded_by_2 row day 3 2),
    (preceded_by_1 row day 3) by done.
  rewrite !(preceded_by_slice row day) by done.
  simpl length.
  assert (Hprev : ∀ v, cell_is (if (0 <? day)%nat then cell_at row (day - 1) else None) v = true
                       ↔ (1 ≤ day)%nat ∧ row !! (day - 1)%nat = Some (Some v)).
  { intros v. destruct (Nat.ltb_spec 0 day).
    - rewrite cell_is_true. intuition lia.
    - simpl. split; [discriminate|]. intros [? _]. lia. }
  assert (Hpp : ∀ v, cell_is (if (1 <? day)%nat then cell_at row (day - 2) else None) v = true
                     ↔ (2 ≤ day)%nat ∧ row !! (day - 2)%nat = Some (Some v)).
  { intros v. destruct (Nat.ltb_spec 1 day).
    - rewrite cell_is_true. intuition lia.
    - simpl. split; [discriminate|]. intros [? _]. lia. }
  set (prev := if (0 <? day)%nat then cell_at row (day - 1) else None) in *.
  set (pp := if (1 <? day)%nat then cell_at row (day - 2) else None) in *.
  pose proof (Hprev 3) as Hp3. pose proof (Hprev 2) as Hp2.
  pose proof (Hpp 3) as Hpp3.
  set (s3 := slice row (day - 3) day) in *.
  set (s4 := slice row (day - 4) day) in *.
  change (Some <$> [3; 2; 2]) with [Some 3; Some 2; Some 2].
  change (Some <$> [3; 2; 3; 2]) with [Some 3; Some 2; Some 3; Some 2].
  change (Some <$> [2; 3; 2; 2]) with [Some 2; Some 3; Some 2; Some 2].
  simpl negb. rewrite andb_true_r.
  destruct (Z.eqb_spec candidate 1) as [Hc1|Hc1];
    destruct (Z.eqb_spec candidate 3) as [Hc3|Hc3]; try lia;
    destruct (cell_is prev 3) eqn:Ep3; destruct (cell_is pp 3) eqn:Epp3;
    destruct (cell_is prev 2) eqn:Ep2;
    destruct (Nat.leb_spec 2 day); destruct (Nat.leb_spec 3 day);
    destruct (Nat.leb_spec 4 day); try lia; simpl;
    repeat case_bool_decide; simpl.
  all: repeat match goal with
       | H : true = true ↔ ?P |- _ =>
         assert P by (apply H; reflexivity); clear H
       | H : false = true ↔ ?P |- _ =>
         assert (¬ P) by (intros HP; apply H in HP; discriminate); clear H
       end.
  all: split; [ try discriminate; intros _ | try (intros _; reflexivity) ].
  all: lazymatch goal with
       | |- _ → false = true =>
         intros [?|(_ & Hnn & Hm)]; [lia|]; exfalso;
         try (apply Hnn; intuition (try lia; try congruence));
         try (specialize (Hm Hc1); destruct Hm as (Hm1 & Hm2 & Hm3 & Hm4 & Hm5);
              intuition (try lia; try congruence))
       | |- _ =>
         right; split; [done|]; split;
         [ intuition (try lia; try congruence)
         | intros ?; try lia; repeat apply conj; intuition (try lia; try congruence) ]
       end.
  all: repeat match goal with
       | H : (_ <= _)%nat → _ |- _ => specialize (H ltac:(lia))
       end; eauto.
Qed.

(** C1.  [is_shift_viable] accepts a candidate code exactly when the
    rules of the specification accept it on the employee's own row
    ([viable_in_row] reads nothing but [row_of employee_shifts name]):
    Off is always viable; inside the row, a non-Off candidate is
    refused when the two preceding days are both Night, and Morning is
    refused moreover when the preceding days match [N], [N,E],
    [N,E,E], [N,E,N,E] or [E,N,E,E]; every other candidate inside the
    row is viable.  Neither the other rows nor [total_days] matter. *)
Theorem is_shift_viable_rules (employee_shifts : schedule) (name : string)
    (day : nat) (candidate : Z) (total_days : nat) :
  is_shift_viable employee_shifts name day (Some candidate) total_days = true
  ↔ viable_in_row (row_of employee_shifts name) day candidate.
Proof. apply is_shift_viable_iff. Qed.

(** ** Reading and writing cells *)

Lemma row_of_set_shift_eq (es : schedule) (emp : string) (day : nat) (c : option Z) :
  row_of (set_shift es emp day c) emp = <[day := c]> (row_of es emp).
Proof. unfold set_shift, row_of at 1. by rewrite lookup_insert_eq. Qed.

Lemma row_of_set_shift_ne (es : schedule) (emp emp' : string) (day : nat)
    (c : option Z) :
  emp ≠ emp' → row_of (set_shift es emp day c) emp' = row_of es emp'.
Proof. intros Hne. unfold set_shift, row_of at 1. by rewrite lookup_insert_ne. Qed.

Lemma cell_at_insert (row : list (option Z)) (i j : nat) (c : option Z) :
  cell_at (<[i := c]> row) j
  = if bool_decide (i = j ∧ (i < length row)%nat) then c else cell_at row j.
Proof.
  unfold cell_at. case_bool_decide as H.
  - destruct H as [-> H]. by rewrite list_lookup_insert_eq.
  - destruct (decide (i = j)) as [->|Hne].
    + assert (length row ≤ j)%nat by lia.
      by rewrite list_insert_ge.
    + by rewrite list_lookup_insert_ne.
Qed.

Lemma bool_decide_ext_if {A} (P Q : Prop) `{Decision P, Decision Q} (x y : A) :
  (P ↔ Q) → (if bool_decide P then x else y) = (if bool_decide Q then x else y).
Proof. intros HPQ. by rewrite (bool_decide_ext P Q HPQ). Qed.

Lemma get_shift_set_shift (es : schedule) (emp emp' : string) (day day' : nat)
    (c : option Z) :
  get_shift (set_shift es emp day c) emp' day'
  = if bool_decide (emp = emp' ∧ day = day' ∧ (day < length (row_of es emp))%nat)
    then c else get_shift es emp' day'.
Proof.
  unfold get_shift. destruct (decide (emp = emp')) as [<-|Hne].
  - rewrite row_of_set_shift_eq, cell_at_insert.
    apply bool_decide_ext_if. tauto.
  - rewrite row_of_set_shift_ne by done.
    rewrite (bool_decide_eq_false_2 (emp = emp' ∧ _)); [done|tauto].
Qed.


(** ** The roster check *)

Lemma phase46_error (total_days : nat) (employee_names : list string)
    (st : gen_state) (e : exn) :
  phase46 total_days st employee_names = inl e → e = KeyError_None.
Proof.
  revert st. induction employee_names as [|emp rest IH]; intros st; simpl.
  - discriminate.
  - unfold phase46_emp.
    destruct (has_nn _ _); [apply IH|].
    destruct (find _ _); [|apply IH].
    unfold cnt_sub_cell.
    destruct (get_shift (st_shifts st) emp n); [|by intros [= <-]].
    destruct (get_shift (st_shifts st) emp (n + 1)); [|by intros [= <-]].
    apply IH.
Qed.

(** C2.  [generate_optimized_shifts] raises the [ValueError] of the
    roster check exactly when the roster has fewer than 6 names; the
    result is then the exception alone, no matrix, whatever
    [total_days] and the random source are. *)
Theorem generate_insufficient_roster (employee_names : list string)
    (total_days : nat) (rng : list nat) :
  generate_optimized_shifts employee_names total_days rng
    = inl ValueError_min_employees
  ↔ (length employee_names < 6)%nat.
Proof.
  unfold generate_optimized_shifts.
  change min_required_employees with 6.
  destruct (Z.ltb_spec (Z.of_nat (length employee_names)) 6) as [Hlt|Hge].
  - split; [lia|done].
  - split; [|lia]. unfold phases_0_to_5.
    destruct (phase46 _ _ _) as [e|st] eqn:E; [|discriminate].
    apply phase46_error in E. subst e. discriminate.
Qed.

(** ** The balancer and Night *)

Arguments is_shift_viable : simpl never.

Lemma sort_by_perm {A} (leb : A → A → bool) (l : list A) : sort_by leb l ≡ₚ l.
Proof.
  induction l as [|x l IH]; simpl; [done|].
  rewrite <- IH at 2.
  generalize (sort_by leb l). clear. intros l.
  induction l as [|y l IH]; simpl; [done|].
  destruct (leb x y); [done|].
  rewrite IH. apply Permutation_swap.
Qed.

Lemma elem_of_sort_by_key {A} (key : A → list Z) (l : list A) (x : A) :
  x ∈ sort_by_key key l ↔ x ∈ l.
Proof. unfold sort_by_key. by rewrite sort_by_perm. Qed.












(** ** The Night-block guarantor *)

Lemma find_seq_first (f : nat → bool) (a n d : nat) :
  find f (seq a n) = Some d
  ↔ (a ≤ d < a + n)%nat ∧ f d = true ∧ ∀ d', (a ≤ d' < d)%nat → f d' = false.
Proof.
  revert a. induction n as [|n IH]; intros a; simpl.
  - split; [discriminate|]. intros [? _]. lia.
  - destruct (f a) eqn:Ea.
    + split.
      * intros [= <-]. split; [lia|]. split; [done|]. intros; lia.
      * intros (Hr & Hd & Hfirst). f_equal.
        destruct (decide (a = d)) as [|Hne]; [done|].
        rewrite Hfirst in Ea; [done|lia].
    + rewrite IH. split.
      * intros (Hr & Hd & Hfirst). split; [lia|]. split; [done|].
        intros d' Hd'. destruct (decide (d' = a)) as [->|]; [done|].
        apply Hfirst. lia.
      * intros (Hr & Hd & Hfirst).
        assert (a ≠ d) by (intros ->; congruence).
        split; [lia|]. split; [done|]. intros d' Hd'. apply Hfirst. lia.
Qed.

Lemma find_seq_none (f : nat → bool) (a n : nat) :
  find f (seq a n) = None ↔ ∀ d, (a ≤ d < a + n)%nat → f d = false.
Proof.
  revert a. induction n as [|n IH]; intros a; simpl.
  - split; [intros; lia|done].
  - destruct (f a) eqn:Ea.
    + split; [discriminate|]. intros H. rewrite H in Ea; [done|lia].
    + rewrite IH. split.
      * intros H d Hd. destruct (decide (d = a)) as [->|]; [done|].
        apply H. lia.
      * intros H d Hd. apply H. lia.
Qed.

Lemma convertible_true (c : option Z) :
  convertible c = true ↔ c ∈ [None; Some 1; Some 2].
Proof.
  unfold convertible. rewrite !elem_of_cons, elem_of_nil.
  destruct c as [x|]; simpl.
  - destruct (Z.eqb_spec x 1), (Z.eqb_spec x 2); simpl;
      split; try done; try (intros _; subst; tauto);
      intros [?|[[= ?]|[[= ?]|[]]]]; done.
  - tauto.
Qed.

Lemma nn_window_eligible (es : schedule) (emp : string) (total_days d : nat) :
  (d + 1 < total_days)%nat →
  nn_window es emp total_days d = true
  ↔ eligible_window (row_of es emp) total_days d.
Proof.
  intros Hd. unfold nn_window, eligible_window, get_shift.
  rewrite !andb_true_iff, !convertible_true, !is_shift_viable_iff. tauto.
Qed.

(** C9, the claim as stated fails: the first window of [off_then_work]
    whose cells are both legal as Night is the pair of Off days (0, 1);
    phase 4.6 passes over it and converts days (2, 3). *)
Lemma guarantor_skips_off_window :
  has_nn (row_of (st_shifts off_then_work) "a") 4 = false
  ∧ get_shift (st_shifts off_then_work) "a" 0 = Some 0
  ∧ get_shift (st_shifts off_then_work) "a" 1 = Some 0
  ∧ is_shift_viable (st_shifts off_then_work) "a" 0 (Some 3) 4 = true
  ∧ is_shift_viable (st_shifts off_then_work) "a" 1 (Some 3) 4 = true
  ∧ match phase46_emp 4 off_then_work "a" with
    | inr st => row_of (st_shifts st) "a" = [Some 0; Some 0; Some 3; Some 3]
    | inl _ => False
    end.
Proof. vm_compute. done. Qed.

(** C9, amended.  For an employee without any N-N block, phase 4.6
    looks for the first pair of consecutive days whose cells are both
    Morning, Evening or unset (an Off cell is not eligible) and both
    legal as Night.  When the two cells of that window are set, it
    writes Night into both, leaves every other cell and row alone, and
    moves the two tallies to Night.  When there is no such window, the
    state is left as it is. *)
Theorem night_block_guarantor (total_days : nat) (st : gen_state) (emp : string) :
  has_nn (row_of (st_shifts st) emp) total_days = false →
  (∀ d c1 c2,
     eligible_window (row_of (st_shifts st) emp) total_days d →
     (∀ d', (d' < d)%nat → ¬ eligible_window (row_of (st_shifts st) emp) total_days d') →
     cell_at (row_of (st_shifts st) emp) d = Some c1 →
     cell_at (row_of (st_shifts st) emp) (d + 1) = Some c2 →
     ∃ st', phase46_emp total_days st emp = inr st'
       ∧ row_of (st_shifts st') emp
         = <[(d + 1)%nat := Some 3]> (<[d := Some 3]> (row_of (st_shifts st) emp))
       ∧ (∀ emp', emp' ≠ emp →
            row_of (st_shifts st') emp' = row_of (st_shifts st) emp')
       ∧ st_counts st'
         = cnt_add (cnt_add (cnt_add (st_counts st) emp c1 (-1)) emp c2 (-1)) emp 3 2)
  ∧ ((∀ d, ¬ eligible_window (row_of (st_shifts st) emp) total_days d) →
     phase46_emp total_days st emp = inr st).
Proof.
  intros Hnn. split.
  - intros d c1 c2 Hel Hfirst Hc1 Hc2.
    assert (Hd : (d + 1 < total_days)%nat) by apply Hel.
    assert (Hfind : find (nn_window (st_shifts st) emp total_days)
                         (range 0 (total_days - 1)) = Some d).
    { unfold range. apply find_seq_first. split; [lia|]. split.
      - by apply nn_window_eligible.
      - intros d' Hd'. apply not_true_is_false. intros Hw.
        apply nn_window_eligible in Hw; [|lia].
        by apply (Hfirst d'); [lia|]. }
    unfold phase46_emp. rewrite Hnn, Hfind.
    unfold get_shift. rewrite Hc1, Hc2. simpl.
    eexists. split; [done|]. simpl. split; [|split; [|done]].
    + by rewrite row_of_set_shift_eq, row_of_set_shift_eq.
    + intros emp' Hne. by rewrite !row_of_set_shift_ne.
  - intros Hnone.
    assert (Hfind : find (nn_window (st_shifts st) emp total_days)
                         (range 0 (total_days - 1)) = None).
    { unfold range. apply find_seq_none. intros d Hd.
      apply not_true_is_false. intros Hw.
      apply nn_window_eligible in Hw; [|lia]. by apply (Hnone d). }
    unfold phase46_emp. by rewrite Hnn, Hfind.
Qed.

Lemma all_work_window : eligible_window (row_of (st_shifts all_work) "a") 4 0.
Proof.
  apply (nn_window_eligible (st_shifts all_work) "a" 4 0); [lia|]. by vm_compute.
Qed.

Lemma all_off_no_window (d : nat) :
  ¬ eligible_window (row_of (st_shifts all_off) "a") 3 d.
Proof.
  intros (Hd & Hc & _). destruct d as [|[|d]]; [| |lia].
  all: replace (cell_at _ _) with (Some 0 : option Z) in Hc by reflexivity.
  all: rewrite !elem_of_cons, elem_of_nil in Hc.
  all: by destruct Hc as [|[[= ?]|[[= ?]|[]]]].
Qed.

(** The amended C9 at work: the first window of [all_work] is days
    (0, 1), and [all_off] has no window at all. *)
Lemma night_block_guarantor_witness :
  (∃ st', phase46_emp 4 all_work "a" = inr st'
     ∧ row_of (st_shifts st') "a" = [Some 3; Some 3; Some 1; Some 1])
  ∧ phase46_emp 3 all_off "a" = inr all_off.
Proof.
  split.
  - destruct (night_block_guarantor 4 all_work "a" eq_refl) as [Hconv _].
    destruct (Hconv 0%nat 2 1 all_work_window) as (st' & Hst & Hrow & _).
    + intros d' Hd'. lia.
    + reflexivity.
    + reflexivity.
    + exists st'. split; [exact Hst|exact Hrow].
  - destruct (night_block_guarantor 3 all_off "a" eq_refl) as [_ Hnone].
    exact (Hnone all_off_no_window).
Defined.

(** ** Manual adjustment *)



Lemma key_matches_true (b : ShiftAssignment) (e : N) (d : Z) :
  bool_decide (sa_employee_id b = e) && (sa_shift_date b =? d) = true
  ↔ sa_employee_id b = e ∧ sa_shift_date b = d.
Proof. by rewrite andb_true_iff, bool_decide_eq_true, Z.eqb_eq. Qed.















(** ** Swaps *)

Lemma cell_is_Some (c : option Z) (v : Z) : cell_is c v = true ↔ c = Some v.
Proof.
  destruct c as [x|]; simpl; [|done].
  rewrite Z.eqb_eq. split; [by intros ->|by intros [= ->]].
Qed.




(** ** Phase 6 and the rest after an N-N block *)














Lemma nn_then_rest_upto_le (row : list (option Z)) (k k' : nat) :
  (k' ≤ k)%nat → nn_then_rest_upto row k → nn_then_rest_upto row k'.
Proof. intros Hle HP d Hd. apply HP. lia. Qed.








(** ** Generic facts on lists *)

Lemma foldl_invariant {A B} (I : A → Prop) (f : A → B → A) (l : list B) (a : A) :
  I a → (∀ a b, b ∈ l → I a → I (f a b)) → I (foldl f a l).
Proof.
  revert a. induction l as [|b l IH]; intros a Ha Hf; simpl; [done|].
  apply IH.
  - apply Hf; [left|done].
  - intros a' b' Hb'. apply Hf. by right.
Qed.

Lemma elem_of_range (a b x : nat) : x ∈ range a b ↔ (a ≤ x < b)%nat.
Proof. unfold range. rewrite elem_of_seq. lia. Qed.

Lemma NoDup_sort_by {A} (leb : A → A → bool) (l : list A) :
  NoDup l → NoDup (sort_by leb l).
Proof. intros H. by rewrite sort_by_perm. Qed.

Lemma length_sort_by {A} (leb : A → A → bool) (l : list A) :
  length (sort_by leb l) = length l.
Proof. by rewrite sort_by_perm. Qed.

Lemma elem_of_sort_by {A} (leb : A → A → bool) (l : list A) (x : A) :
  x ∈ sort_by leb l ↔ x ∈ l.
Proof. by rewrite sort_by_perm. Qed.

Lemma min_by_elem {A} (key : A → Z) (best : A) (l : list A) :
  min_by key best l ∈ best :: l.
Proof.
  revert best. induction l as [|x l IH]; intros best; simpl; [left|].
  destruct (key x <? key best).
  - right. apply IH.
  - specialize (IH best). apply elem_of_cons in IH as [->|IH]; [left|].
    right. by right.
Qed.

Lemma filter_same {A} (P Q : A → bool) (l : list A) :
  (∀ y, y ∈ l → P y = Q y) →
  filter (λ y, P y = true) l = filter (λ y, Q y = true) l.
Proof.
  induction l as [|y l IH]; intros H; [done|].
  rewrite !filter_cons, (H y) by left.
  rewrite IH; [done|]. intros z Hz. apply H. by right.
Qed.

(** In a list without repetition, changing the test on one element
    changes the count of the elements that pass by that element only. *)
Lemma length_filter_change {A} `{EqDecision A} (P Q : A → bool) (l : list A) (x : A) :
  NoDup l → x ∈ l → (∀ y, y ∈ l → y ≠ x → P y = Q y) →
  (length (filter (λ y, Q y = true) l) + (if P x then 1 else 0)
   = length (filter (λ y, P y = true) l) + (if Q x then 1 else 0))%nat.
Proof.
  induction l as [|y l IH]; intros Hnd Hin Hsame.
  - by apply elem_of_nil in Hin.
  - apply NoDup_cons in Hnd as [Hy Hnd].
    rewrite !filter_cons.
    destruct (decide (y = x)) as [->|Hne].
    + assert (Hrest : filter (λ y, Q y = true) l = filter (λ y, P y = true) l).
      { apply filter_same. intros z Hz. symmetry.
        apply Hsame; [by right|]. intros ->. done. }
      rewrite Hrest.
      destruct (P x), (Q x); repeat case_decide; simpl; try done; lia.
    + apply elem_of_cons in Hin as [->|Hin]; [done|].
      specialize (IH Hnd Hin (λ z Hz, Hsame z ltac:(by right))).
      rewrite (Hsame y) by (done || left).
      destruct (Q y); repeat case_decide; simpl; try done; lia.
Qed.

(** A list without repetition whose elements all lie in [k] is no
    longer than [k]. *)
Lemma NoDup_length_le {A} (l k : list A) :
  NoDup l → (∀ x, x ∈ l → x ∈ k) → (length l ≤ length k)%nat.
Proof.
  intros Hnd Hsub. apply submseteq_length. by apply NoDup_submseteq.
Qed.

Lemma length_filter_split {A} (P : A → bool) (l : list A) :
  (length (filter (λ y, P y = true) l)
   + length (filter (λ y, P y = false) l) = length l)%nat.
Proof.
  induction l as [|y l IH]; simpl; [done|].
  rewrite !filter_cons. destruct (P y); repeat case_decide; simpl; try done; lia.
Qed.

(** ** Writes and fills *)

Lemma length_row_of_set_shift (es : schedule) (emp emp' : string) (day : nat)
    (c : option Z) :
  length (row_of (set_shift es emp day c) emp') = length (row_of es emp').
Proof.
  destruct (decide (emp = emp')) as [<-|Hne].
  - by rewrite row_of_set_shift_eq, length_insert.
  - by rewrite row_of_set_shift_ne.
Qed.

Lemma rows_wf_set_shift (employee_names : list string) (total_days : nat)
    (es : schedule) (emp : string) (day : nat) (c : option Z) :
  rows_wf employee_names total_days es →
  rows_wf employee_names total_days (set_shift es emp day c).
Proof. intros H e He. rewrite length_row_of_set_shift. by apply H. Qed.

(** Reading a cell after a write, inside well-formed rows. *)
Lemma get_set_wf (employee_names : list string) (total_days : nat) (es : schedule)
    (emp emp' : string) (day day' : nat) (c : option Z) :
  rows_wf employee_names total_days es → emp ∈ employee_names →
  (day < total_days)%nat →
  get_shift (set_shift es emp day c) emp' day'
  = if bool_decide (emp = emp' ∧ day = day') then c else get_shift es emp' day'.
Proof.
  intros Hwf Hemp Hday. rewrite get_shift_set_shift.
  apply bool_decide_ext_if. rewrite (Hwf emp Hemp). tauto.
Qed.

Lemma get_shift_ge (employee_names : list string) (total_days : nat) (es : schedule)
    (emp : string) (day : nat) :
  rows_wf employee_names total_days es → emp ∈ employee_names →
  (total_days ≤ day)%nat → get_shift es emp day = None.
Proof.
  intros Hwf Hemp Hday. unfold get_shift, cell_at.
  rewrite lookup_ge_None_2; [done|]. rewrite (Hwf emp Hemp). lia.
Qed.

Lemma fills_refl (employee_names : list string) (W : nat → Z → Prop)
    (es : schedule) : fills employee_names W es es.
Proof. intros emp x. by left. Qed.

Lemma fills_trans (employee_names : list string) (W : nat → Z → Prop)
    (es1 es2 es3 : schedule) :
  fills employee_names W es1 es2 → fills employee_names W es2 es3 →
  fills employee_names W es1 es3.
Proof.
  intros H12 H23 emp x.
  destruct (H23 emp x) as [H|(He & Hn & c & Hc & Hs)].
  - rewrite H. apply H12.
  - destruct (H12 emp x) as [H|(_ & _ & c' & _ & Hs')].
    + right. rewrite <- H. eauto 8.
    + congruence.
Qed.

Lemma fills_weaken (employee_names : list string) (W W' : nat → Z → Prop)
    (es es' : schedule) :
  (∀ x c, W x c → W' x c) →
  fills employee_names W es es' → fills employee_names W' es es'.
Proof.
  intros HW H emp x.
  destruct (H emp x) as [?|(He & Hn & c & Hc & Hs)]; [by left|].
  right. eauto 10.
Qed.

Lemma fills_set_shift (employee_names : list string) (W : nat → Z → Prop)
    (es : schedule) (emp : string) (day : nat) (c : Z) :
  emp ∈ employee_names → W day c → get_shift es emp day = None →
  fills employee_names W es (set_shift es emp day (Some c)).
Proof.
  intros Hemp HW Hnone e x. rewrite get_shift_set_shift.
  case_bool_decide as Hk; [|by left].
  destruct Hk as (<- & <- & _). right. eauto 10.
Qed.

(** A set cell is kept by a fill. *)
Lemma fills_Some (employee_names : list string) (W : nat → Z → Prop)
    (es es' : schedule) (emp : string) (x : nat) (v : Z) :
  fills employee_names W es es' →
  get_shift es emp x = Some v → get_shift es' emp x = Some v.
Proof.
  intros H Hv. destruct (H emp x) as [->|(_ & Hn & _)]; congruence.
Qed.

(** A code that the fill does not write on a day was there before. *)
Lemma fills_back (employee_names : list string) (W : nat → Z → Prop)
    (es es' : schedule) (emp : string) (x : nat) (v : Z) :
  fills employee_names W es es' → ¬ W x v →
  get_shift es' emp x = Some v → get_shift es emp x = Some v.
Proof.
  intros H HW Hv. destruct (H emp x) as [<-|(_ & _ & c & Hc & Hs)]; [done|].
  congruence.
Qed.

(** On a day of which the fill writes nothing, nothing changes. *)
Lemma fills_outside (employee_names : list string) (W : nat → Z → Prop)
    (es es' : schedule) (emp : string) (x : nat) :
  fills employee_names W es es' → (∀ c, ¬ W x c) →
  get_shift es' emp x = get_shift es emp x.
Proof.
  intros H HW. destruct (H emp x) as [?|(_ & _ & c & Hc & _)]; [done|].
  by destruct (HW c).
Qed.

Lemma fills_night_followed (employee_names : list string) (zone : nat)
    (W : nat → Z → Prop) (es es' : schedule) :
  (∀ x, W x 3 → (zone ≤ x + 1)%nat) → fills employee_names W es es' →
  night_followed employee_names zone es →
  night_followed employee_names zone es'.
Proof.
  intros HW Hf HJ emp d Hemp Hd Hn.
  apply (fills_back _ _ _ _ _ _ _ Hf) in Hn; [|intros HW3; apply HW in HW3; lia].
  destruct (HJ emp d Hemp Hd Hn) as [H|H]; [left|right];
    by apply (fills_Some _ _ _ _ _ _ _ Hf).
Qed.

Lemma fills_nights_paired (employee_names : list string) (zone : nat)
    (W : nat → Z → Prop) (es es' : schedule) :
  (∀ x, W x 3 → (zone ≤ x)%nat) → fills employee_names W es es' →
  nights_paired employee_names zone es →
  nights_paired employee_names zone es'.
Proof.
  intros HW Hf HP emp j Hemp Hj. split; intros Hn.
  - apply (fills_back _ _ _ _ _ _ _ Hf) in Hn; [|intros HW3; apply HW in HW3; lia].
    apply (fills_Some _ _ _ _ _ _ _ Hf). by apply HP.
  - apply (fills_back _ _ _ _ _ _ _ Hf) in Hn; [|intros HW3; apply HW in HW3; lia].
    apply (fills_Some _ _ _ _ _ _ _ Hf). by apply (HP emp j).
Qed.

Lemma night_followed_zone (employee_names : list string) (zone zone' : nat)
    (es : schedule) :
  (zone' ≤ zone)%nat → night_followed employee_names zone es →
  night_followed employee_names zone' es.
Proof. intros Hz H emp d Hemp Hd. apply H; [done|lia]. Qed.

Lemma nights_paired_zone (employee_names : list string) (zone zone' : nat)
    (es : schedule) :
  (zone' ≤ zone)%nat → nights_paired employee_names zone es →
  nights_paired employee_names zone' es.
Proof. intros Hz H emp j Hemp Hj. apply H; [done|lia]. Qed.

(** The holders of a code that the fill does not write on a day stay
    the same. *)
Lemma fills_holders (employee_names : list string) (W : nat → Z → Prop)
    (es es' : schedule) (day : nat) (v : Z) :
  ¬ W day v → fills employee_names W es es' →
  holders es' employee_names day (λ c, cell_is c v)
  = holders es employee_names day (λ c, cell_is c v).
Proof.
  intros HW Hf. unfold holders. apply filter_same. intros emp _.
  destruct (cell_is (get_shift es emp day) v) eqn:E.
  - apply cell_is_Some in E. apply cell_is_Some.
    by apply (fills_Some _ _ _ _ _ _ _ Hf).
  - apply not_true_iff_false. intros E'. apply cell_is_Some in E'.
    apply (fills_back _ _ _ _ _ _ _ Hf HW) in E'.
    apply cell_is_Some in E'. congruence.
Qed.

(** ** Phase 0: every day gets its Night *)

Lemma covered_even (q : nat) : covered (2 * q) = (2 * q)%nat.
Proof.
  unfold covered. replace (2 * q + 1)%nat with (1 + q * 2)%nat by lia.
  rewrite Nat.div_add by lia. simpl. lia.
Qed.

Lemma covered_odd (q : nat) : covered (2 * q + 1) = (2 * q + 2)%nat.
Proof.
  unfold covered. replace (2 * q + 1 + 1)%nat with (0 + (q + 1) * 2)%nat by lia.
  rewrite Nat.div_add by lia. simpl. lia.
Qed.

Lemma even_or_odd (k : nat) : (∃ q, k = (2 * q)%nat) ∨ (∃ q, k = (2 * q + 1)%nat).
Proof.
  destruct (Nat.Even_or_Odd k) as [[q ->]|[q ->]]; [left|right]; by exists q.
Qed.

(** The holders of a day after one write. *)
Lemma holders_set_other (es : schedule) (employee_names : list string)
    (emp : string) (day x : nat) (c : option Z) (P : option Z → bool) :
  x ≠ day →
  holders (set_shift es emp day c) employee_names x P
  = holders es employee_names x P.
Proof.
  intros Hne. unfold holders. apply filter_same. intros e _.
  rewrite get_shift_set_shift. rewrite bool_decide_eq_false_2; [done|].
  intros (_ & ? & _). done.
Qed.

Lemma holders_set_same (es : schedule) (employee_names : list string)
    (emp : string) (day x : nat) (c : option Z) (P : option Z → bool) :
  P c = P (get_shift es emp day) →
  holders (set_shift es emp day c) employee_names x P
  = holders es employee_names x P.
Proof.
  intros Hsame. unfold holders. apply filter_same. intros e _.
  rewrite get_shift_set_shift. case_bool_decide as Hk; [|done].
  destruct Hk as (<- & <- & _). done.
Qed.

Lemma holders_set_gain (employee_names : list string) (total_days : nat)
    (es : schedule) (emp : string) (day : nat) (c : option Z)
    (P : option Z → bool) :
  NoDup employee_names → rows_wf employee_names total_days es →
  emp ∈ employee_names → (day < total_days)%nat →
  P (get_shift es emp day) = false → P c = true →
  length (holders (set_shift es emp day c) employee_names day P)
  = S (length (holders es employee_names day P)).
Proof.
  intros Hnd Hwf Hemp Hday Hold Hnew. unfold holders.
  pose proof (length_filter_change
                (λ e, P (get_shift es e day))
                (λ e, P (get_shift (set_shift es emp day c) e day))
                employee_names emp Hnd Hemp) as H.
  simpl in H. rewrite Hold in H.
  rewrite (get_set_wf employee_names total_days) in H by done.
  rewrite bool_decide_eq_true_2 in H by done. rewrite Hnew in H.
  rewrite Nat.add_0_r in H. rewrite H; [lia|].
  intros y Hy Hne. rewrite (get_set_wf employee_names total_days) by done.
  rewrite bool_decide_eq_false_2; [done|]. intros [? _]. done.
Qed.

Lemma elem_of_holders (es : schedule) (employee_names : list string) (day : nat)
    (P : option Z → bool) (emp : string) :
  emp ∈ holders es employee_names day P
  ↔ P (get_shift es emp day) = true ∧ emp ∈ employee_names.
Proof. unfold holders. by rewrite list_elem_of_filter. Qed.

Lemma holders_nil (es : schedule) (employee_names : list string) (day : nat)
    (P : option Z → bool) :
  holders es employee_names day P = []
  ↔ ∀ emp, emp ∈ employee_names → P (get_shift es emp day) = false.
Proof.
  split.
  - intros H emp Hemp. apply not_true_iff_false. intros HP.
    assert (Hin : emp ∈ holders es employee_names day P)
      by (by apply elem_of_holders).
    rewrite H in Hin. by apply elem_of_nil in Hin.
  - intros H. destruct (holders es employee_names day P) as [|e l] eqn:E; [done|].
    assert (Hin : e ∈ holders es employee_names day P) by (rewrite E; left).
    apply elem_of_holders in Hin as [HP He]. rewrite H in HP; done.
Qed.

(** The matrix and the counters a run starts from. *)
Lemma row_of_initial (employee_names : list string) (total_days : nat)
    (rng : list nat) (emp : string) :
  emp ∈ employee_names →
  row_of (st_shifts (initial_state employee_names total_days rng)) emp
  = replicate total_days None.
Proof.
  unfold initial_state, row_of. simpl.
  induction employee_names as [|x l IH]; intros Hin; simpl.
  - by apply elem_of_nil in Hin.
  - destruct (decide (x = emp)) as [->|Hne].
    + by rewrite lookup_insert_eq.
    + rewrite lookup_insert_ne by done.
      apply elem_of_cons in Hin as [->|Hin]; [done|]. by apply IH.
Qed.

Lemma get_shift_initial (employee_names : list string) (total_days : nat)
    (rng : list nat) (emp : string) (x : nat) :
  emp ∈ employee_names →
  get_shift (st_shifts (initial_state employee_names total_days rng)) emp x = None.
Proof.
  intros Hin. unfold get_shift, cell_at. rewrite row_of_initial by done.
  destruct (replicate total_days None !! x) as [c|] eqn:E; [|done].
  by apply lookup_replicate in E as [-> _].
Qed.

Lemma offs_get_initial (employee_names : list string) (total_days : nat)
    (rng : list nat) (x : nat) :
  offs_get (st_offs (initial_state employee_names total_days rng)) x = 0.
Proof.
  unfold initial_state, offs_get. simpl.
  induction (range 0 total_days) as [|y l IH]; simpl; [done|].
  destruct (decide (y = x)) as [->|Hne].
  - by rewrite lookup_insert_eq.
  - by rewrite lookup_insert_ne.
Qed.

Lemma last_pair_end_initial (employee_names : list string) (emp : string) :
  emp ∈ employee_names →
  last_pair_end_of (foldr (λ emp m, <[emp := -100]> m) ∅ employee_names) emp = -100.
Proof.
  unfold last_pair_end_of.
  induction employee_names as [|x l IH]; intros Hin; simpl.
  - by apply elem_of_nil in Hin.
  - destruct (decide (x = emp)) as [->|Hne].
    + by rewrite lookup_insert_eq.
    + rewrite lookup_insert_ne by done.
      apply elem_of_cons in Hin as [->|Hin]; [done|]. by apply IH.
Qed.

Lemma foldl_seq (A : Type) (I : nat → A → Prop) (f : A → nat → A)
    (a n : nat) (s : A) :
  I a s →
  (∀ x s, (a ≤ x < a + n)%nat → I x s → I (S x) (f s x)) →
  I (a + n)%nat (foldl f s (seq a n)).
Proof.
  revert a s. induction n as [|n IH]; intros a s Hs Hstep; simpl.
  - by rewrite Nat.add_0_r.
  - replace (a + S n)%nat with (S a + n)%nat by lia. apply IH.
    + apply Hstep; [lia|done].
    + intros x s' Hx. apply Hstep. lia.
Qed.

Lemma foldl_range (A : Type) (I : nat → A → Prop) (f : A → nat → A)
    (a b : nat) (s : A) :
  (a ≤ b)%nat → I a s →
  (∀ x s, (a ≤ x < b)%nat → I x s → I (S x) (f s x)) →
  I b (foldl f s (range a b)).
Proof.
  intros Hab Hs Hstep. unfold range.
  replace b with (a + (b - a))%nat at 1 by lia.
  apply foldl_seq; [done|]. intros x s' Hx. apply Hstep. lia.
Qed.

(** The five employees whose pair ended less than ten days ago leave a
    sixth one free. *)
Lemma pair_candidate_exists (employee_names : list string) (total_days k : nat)
    (ps : pairs_state) (q : nat) :
  NoDup employee_names → (6 ≤ length employee_names)%nat →
  k = (2 * q)%nat → (k + 1 < total_days)%nat →
  pairs_inv employee_names total_days k ps →
  filter (λ emp, pair_candidate ps total_days k emp = true) employee_names ≠ [].
Proof.
  intros Hnd Hlen Hk Hlt (Hwf & Hna & Hnak & Hlpe & Hinj & Hcells & _ & _ & _ & _ & _ & _ & Hdwo).
  intros Hnil.
  assert (Hcov : covered k = k) by (subst k; apply covered_even).
  set (lpe := last_pair_end_of (ps_last_pair_end ps)) in *.
  assert (Hbusy : ∀ emp, emp ∈ employee_names → Z.of_nat k < lpe emp + 10).
  { intros emp Hemp. destruct (Z.ltb_spec (Z.of_nat k) (lpe emp + 10)) as [|Hle]; [done|].
    exfalso. assert (Hin : emp ∈ filter (λ emp, pair_candidate ps total_days k emp = true) employee_names).
    { apply list_elem_of_filter. split; [|done]. unfold pair_candidate. fold lpe.
      assert (HN : ∀ x, (k ≤ x)%nat → get_shift (ps_shifts ps) emp x = None).
      { intros x Hx. destruct (get_shift (ps_shifts ps) emp x) eqn:E; [|done].
        assert (Hc := Hcells emp x Hemp). rewrite E in Hc.
        specialize (Hc ltac:(done)). lia. }
      rewrite !HN by lia. rewrite Hdwo by lia.
      rewrite (proj2 (Z.leb_le _ _)) by lia. simpl. apply orb_true_r. }
    rewrite Hnil in Hin. by apply elem_of_nil in Hin. }
  assert (Hnd' : NoDup (lpe <$> employee_names)).
  { apply NoDup_fmap_2_strong; [|done]. intros x y Hx Hy Heq.
    apply Hinj; try done. specialize (Hbusy x Hx). lia. }
  assert (Hsub : ∀ v, v ∈ lpe <$> employee_names →
                 v ∈ [Z.of_nat k - 9; Z.of_nat k - 7; Z.of_nat k - 5;
                      Z.of_nat k - 3; Z.of_nat k - 1]).
  { intros v Hv. apply list_elem_of_fmap in Hv as (emp & -> & Hemp).
    specialize (Hbusy emp Hemp).
    destruct (Hlpe emp Hemp) as [H100|(j & Hj & Hjk)]; [lia|].
    rewrite Hcov in Hjk. rewrite Hj in *.
    assert (Hc : (2 * j + 1 = k - 9 ∨ 2 * j + 1 = k - 7 ∨ 2 * j + 1 = k - 5
                  ∨ 2 * j + 1 = k - 3 ∨ 2 * j + 1 = k - 1)%nat) by lia.
    rewrite !elem_of_cons.
    destruct Hc as [Hc|[Hc|[Hc|[Hc|Hc]]]]; rewrite Hc; lia. }
  pose proof (NoDup_length_le _ _ Hnd' Hsub) as Hle.
  rewrite length_fmap in Hle. simpl in Hle. lia.
Qed.

Lemma is_None_b_true (c : option Z) : is_None_b c = true ↔ c = None.
Proof. destruct c; simpl; split; intros; congruence. Qed.

(** The holders of a day, compared between two matrices cell by cell. *)
Lemma holders_same (es es' : schedule) (employee_names : list string)
    (day : nat) (P : option Z → bool) :
  (∀ e, e ∈ employee_names → P (get_shift es' e day) = P (get_shift es e day)) →
  holders es' employee_names day P = holders es employee_names day P.
Proof. intros H. unfold holders. by apply filter_same. Qed.

Lemma holders_gain (es es' : schedule) (employee_names : list string)
    (emp : string) (day : nat) (P : option Z → bool) :
  NoDup employee_names → emp ∈ employee_names →
  (∀ e, e ∈ employee_names → e ≠ emp →
        P (get_shift es' e day) = P (get_shift es e day)) →
  P (get_shift es emp day) = false → P (get_shift es' emp day) = true →
  length (holders es' employee_names day P)
  = S (length (holders es employee_names day P)).
Proof.
  intros Hnd Hemp Hsame Hold Hnew. unfold holders.
  pose proof (length_filter_change
                (λ e, P (get_shift es e day)) (λ e, P (get_shift es' e day))
                employee_names emp Hnd Hemp) as H.
  simpl in H. rewrite Hold, Hnew in H.
  specialize (H ltac:(intros y Hy Hne; symmetry; by apply Hsame)). lia.
Qed.

Lemma holders_loss (es es' : schedule) (employee_names : list string)
    (emp : string) (day : nat) (P : option Z → bool) :
  NoDup employee_names → emp ∈ employee_names →
  (∀ e, e ∈ employee_names → e ≠ emp →
        P (get_shift es' e day) = P (get_shift es e day)) →
  P (get_shift es emp day) = true → P (get_shift es' emp day) = false →
  S (length (holders es' employee_names day P))
  = length (holders es employee_names day P).
Proof.
  intros Hnd Hemp Hsame Hold Hnew. symmetry.
  apply (holders_gain es' es employee_names emp); try done.
  intros e He Hne. symmetry. by apply Hsame.
Qed.

(** The cells after a pair is written. *)
Lemma get_assign_pair (employee_names : list string) (total_days k : nat)
    (ps : pairs_state) (emp e : string) (x : nat) :
  rows_wf employee_names total_days (ps_shifts ps) → emp ∈ employee_names →
  (k + 1 < total_days)%nat →
  get_shift (ps_shifts (assign_pair ps total_days k emp)) e x
  = if bool_decide (emp = e ∧ (x = k ∨ x = (k + 1)%nat)) then Some 3
    else if bool_decide (emp = e ∧ x = (k + 2)%nat ∧ (k + 2 < total_days)%nat)
         then Some 0
         else get_shift (ps_shifts ps) e x.
Proof.
  intros Hwf Hemp Hk. unfold assign_pair.
  assert (Hwf1 := rows_wf_set_shift _ _ _ emp k (Some 3) Hwf).
  assert (Hwf2 := rows_wf_set_shift _ _ _ emp (k + 1) (Some 3) Hwf1).
  destruct (Nat.ltb_spec (k + 2) total_days) as [H2|H2]; simpl.
  - rewrite (get_set_wf employee_names total_days) by done.
    rewrite (get_set_wf employee_names total_days) by (done || lia).
    rewrite (get_set_wf employee_names total_days) by (done || lia).
    repeat case_bool_decide; try done; exfalso; intuition (lia || congruence).
  - rewrite (get_set_wf employee_names total_days) by (done || lia).
    rewrite (get_set_wf employee_names total_days) by (done || lia).
    repeat case_bool_decide; try done; exfalso; intuition (lia || congruence).
Qed.

Lemma pair_candidate_true (ps : pairs_state) (total_days day : nat) (emp : string) :
  pair_candidate ps total_days day emp = true →
  last_pair_end_of (ps_last_pair_end ps) emp + 10 ≤ Z.of_nat day
  ∧ get_shift (ps_shifts ps) emp day = None
  ∧ get_shift (ps_shifts ps) emp (day + 1) = None
  ∧ ((total_days ≤ day + 2)%nat
     ∨ (get_shift (ps_shifts ps) emp (day + 2) = None
        ∧ offs_get (ps_offs ps) (day + 2) = 0)).
Proof.
  unfold pair_candidate. rewrite !andb_true_iff, orb_true_iff, andb_true_iff.
  rewrite !is_None_b_true, Z.leb_le, Nat.leb_le, Z.eqb_eq. tauto.
Qed.

Lemma night_assigned_at_insert (na : list bool) (i x : nat) :
  night_assigned_at (<[i := true]> na) x
  = if bool_decide (i = x ∧ (i < length na)%nat) then true
    else night_assigned_at na x.
Proof.
  unfold night_assigned_at. case_bool_decide as H.
  - destruct H as [<- H]. by rewrite list_lookup_insert_eq.
  - destruct (decide (i = x)) as [<-|Hne].
    + rewrite list_insert_ge; [done|]. lia.
    + by rewrite list_lookup_insert_ne.
Qed.

Lemma last_pair_end_insert (lpe : gmap string Z) (emp e : string) (v : Z) :
  last_pair_end_of (<[emp := v]> lpe) e
  = if bool_decide (emp = e) then v else last_pair_end_of lpe e.
Proof.
  unfold last_pair_end_of. case_bool_decide as H.
  - subst. by rewrite lookup_insert_eq.
  - by rewrite lookup_insert_ne.
Qed.

Lemma offs_get_insert (dwo : gmap nat Z) (i x : nat) (v : Z) :
  offs_get (<[i := v]> dwo) x = if bool_decide (i = x) then v else offs_get dwo x.
Proof.
  unfold offs_get. case_bool_decide as H.
  - subst. by rewrite lookup_insert_eq.
  - by rewrite lookup_insert_ne.
Qed.

Lemma assign_pair_fields (ps : pairs_state) (total_days k : nat) (emp : string) :
  ps_night_assigned (assign_pair ps total_days k emp)
  = <[(k + 1)%nat := true]> (<[k := true]> (ps_night_assigned ps))
  ∧ ps_last_pair_end (assign_pair ps total_days k emp)
    = <[emp := Z.of_nat k + 1]> (ps_last_pair_end ps)
  ∧ ps_offs (assign_pair ps total_days k emp)
    = if (k + 2 <? total_days)%nat then <[(k + 2)%nat := 1]> (ps_offs ps)
      else ps_offs ps.
Proof. unfold assign_pair. by destruct (k + 2 <? total_days)%nat. Qed.

Lemma rows_wf_assign_pair (employee_names : list string) (total_days k : nat)
    (ps : pairs_state) (emp : string) :
  rows_wf employee_names total_days (ps_shifts ps) →
  rows_wf employee_names total_days (ps_shifts (assign_pair ps total_days k emp)).
Proof.
  intros H. unfold assign_pair.
  destruct (k + 2 <? total_days)%nat; simpl; repeat apply rows_wf_set_shift; done.
Qed.

(** Writing a pair on an even day keeps the invariant of the loop. *)
Lemma assign_pair_inv (employee_names : list string) (total_days k q : nat)
    (ps : pairs_state) (emp : string) :
  NoDup employee_names → emp ∈ employee_names →
  k = (2 * q)%nat → (k + 1 < total_days)%nat →
  pairs_inv employee_names total_days k ps →
  pair_candidate ps total_days k emp = true →
  pairs_inv employee_names total_days (S k) (assign_pair ps total_days k emp).
Proof.
  intros Hnd Hemp Hk Hlt
    (Hwf & Hna & Hnak & Hlpe & Hinj & Hcells & Hno & Hone & Hnone & Hfol & Hpair
     & Hoff & Hdwo) Hcand.
  apply pair_candidate_true in Hcand as (Hgap & Hc0 & Hc1 & Hc2).
  assert (Hcov : covered k = k) by (subst k; apply covered_even).
  assert (Hcov' : covered (S k) = (k + 2)%nat).
  { subst k. replace (S (2 * q)) with (2 * q + 1)%nat by lia.
    rewrite covered_odd. lia. }
  rewrite Hcov in *.
  destruct (assign_pair_fields ps total_days k emp) as (Ena & Elpe & Eoffs).
  pose proof (get_assign_pair employee_names total_days k ps emp) as G.
  set (ps' := assign_pair ps total_days k emp) in *.
  set (es := ps_shifts ps) in *. set (es' := ps_shifts ps') in *.
  assert (HNone : ∀ x, (k ≤ x)%nat → get_shift es emp x = None).
  { intros x Hx. destruct (get_shift es emp x) eqn:E; [|done].
    assert (Hc := Hcells emp x Hemp). rewrite E in Hc.
    specialize (Hc ltac:(done)). lia. }
  assert (G1 : ∀ x, x = k ∨ x = (k + 1)%nat → get_shift es' emp x = Some 3).
  { intros x Hx. rewrite G by done. by rewrite bool_decide_eq_true_2. }
  assert (G2 : (k + 2 < total_days)%nat → get_shift es' emp (k + 2) = Some 0).
  { intros Hx. rewrite G by done.
    rewrite bool_decide_eq_false_2 by (intros [_ ?]; lia).
    by rewrite bool_decide_eq_true_2. }
  assert (G3 : ∀ e x, ¬ (e = emp ∧ (x = k ∨ x = (k + 1)%nat
                                    ∨ (x = (k + 2)%nat ∧ (k + 2 < total_days)%nat))) →
               get_shift es' e x = get_shift es e x).
  { intros e x Hx. rewrite G by done.
    rewrite bool_decide_eq_false_2 by (intros [-> ?]; apply Hx; intuition lia).
    rewrite bool_decide_eq_false_2 by (intros [-> ?]; apply Hx; intuition lia).
    done. }
  assert (G4 : ∀ e x, get_shift es e x ≠ None → get_shift es' e x = get_shift es e x).
  { intros e x Hx. apply G3. intros (-> & Hd). apply Hx, HNone. lia. }
  assert (G5 : ∀ e x, e ≠ emp → get_shift es' e x = get_shift es e x).
  { intros e x Hx. apply G3. intros (-> & _). done. }
  clear G.
  unfold pairs_inv. fold ps' es'. cbv zeta. rewrite Hcov', Ena, Elpe, Eoffs.
  split; [by apply rows_wf_assign_pair|].
  split; [by rewrite !length_insert|].
  split.
  { intros x Hx. rewrite !night_assigned_at_insert, length_insert, Hna.
    specialize (Hnak x Hx).
    repeat case_bool_decide; split; intros; try done; try lia.
    - apply Hnak in H1. lia.
    - apply Hnak. assert (x ≠ k) by (intros ->; apply H0; split; [done|lia]).
      assert (x ≠ (k + 1)%nat) by (intros ->; apply H; split; [done|lia]). lia. }
  split.
  { intros e He. rewrite last_pair_end_insert. case_bool_decide.
    - right. exists q. split; lia.
    - destruct (Hlpe e He) as [?|(j & ? & ?)]; [by left|right].
      exists j. split; [done|lia]. }
  split.
  { intros e e' He He'. rewrite !last_pair_end_insert.
    repeat case_bool_decide; subst; try done.
    - intros Heq _. exfalso.
      destruct (Hlpe e' He') as [?|(j & ? & ?)]; lia.
    - intros Heq _. exfalso.
      destruct (Hlpe e He) as [?|(j & ? & ?)]; lia.
    - by apply Hinj. }
  split.
  { intros e x He Hx. rewrite last_pair_end_insert.
    destruct (decide (e = emp ∧ (x = k ∨ x = (k + 1)%nat
                                 ∨ (x = (k + 2)%nat ∧ (k + 2 < total_days)%nat))))
      as [[-> Hd]|Hd].
    - rewrite bool_decide_eq_true_2 by done. lia.
    - rewrite G3 in Hx by done. specialize (Hcells e x He Hx).
      case_bool_decide; [subst|done]. lia. }
  split.
  { intros e x He.
    destruct (decide (e = emp ∧ (x = k ∨ x = (k + 1)%nat
                                 ∨ (x = (k + 2)%nat ∧ (k + 2 < total_days)%nat))))
      as [[-> Hd]|Hd].
    - destruct Hd as [->|[->|[-> ?]]]; rewrite ?G1, ?G2 by (done || lia); tauto.
    - rewrite G3 by done. by apply Hno. }
  split.
  { intros x Hx HxT.
    destruct (decide (x = k ∨ x = (k + 1)%nat)) as [Hd|Hd].
    - rewrite (holders_gain es es' employee_names emp); try done.
      + rewrite Hnone by lia. done.
      + intros e He Hne. by rewrite G5.
      + rewrite HNone by lia. done.
      + by rewrite G1.
    - rewrite (holders_same es es'); [apply Hone; lia|].
      intros e He. rewrite G3; [done|]. intros (_ & ?). lia. }
  split.
  { intros x Hx. rewrite (holders_same es es'); [apply Hnone; lia|].
    intros e He.
    destruct (decide (e = emp ∧ x = (k + 2)%nat ∧ (k + 2 < total_days)%nat))
      as [(-> & -> & ?)|Hd].
    - rewrite G2, HNone by (done || lia). done.
    - rewrite G3; [done|]. intros (? & ?). apply Hd. split; [done|]. lia. }
  split.
  { intros e d He Hd HN.
    destruct (decide (e = emp ∧ (d = k ∨ d = (k + 1)%nat
                                 ∨ (d = (k + 2)%nat ∧ (k + 2 < total_days)%nat))))
      as [[-> Hc]|Hc].
    - destruct Hc as [->|[->|[-> ?]]].
      + left. apply G1. lia.
      + right. replace (k + 1 + 1)%nat with (k + 2)%nat in * by lia. by apply G2.
      + rewrite G2 in HN by done. done.
    - rewrite G3 in HN by done.
      destruct (Hfol e d He Hd HN) as [H|H]; rewrite G4; rewrite H; auto. }
  split.
  { intros e j He Hj.
    destruct (decide (e = emp)) as [->|Hne]; [|rewrite !G5 by done; by apply Hpair].
    destruct (decide (j < q)%nat) as [Hjq|Hjq].
    { rewrite !G3 by (intros (_ & ?); lia). by apply Hpair. }
    destruct (decide (j = q)) as [->|Hjq'].
    { rewrite !G1 by lia. done. }
    assert (Hr : get_shift es' emp (2 * j + 1) = None).
    { rewrite G3 by (intros (_ & ?); lia). apply HNone. lia. }
    rewrite Hr.
    destruct (decide ((2 * j)%nat = (k + 2)%nat ∧ (k + 2 < total_days)%nat))
      as [[-> ?]|Hc].
    - rewrite G2 by done. done.
    - rewrite G3 by (intros (_ & ?); lia). rewrite HNone by lia. done. }
  split.
  { intros x. destruct (Hoff x) as (Hx0 & Hx1 & Hx2).
    destruct (Nat.ltb_spec (k + 2) total_days) as [H2|H2].
    - rewrite offs_get_insert. case_bool_decide as Hx.
      + subst x. split; [lia|]. split; [lia|].
        rewrite (holders_gain es es' employee_names emp); try done.
        * destruct Hc2 as [?|[_ Hz]]; [lia|].
          by rewrite (proj1 (proj2 (Hoff (k + 2)%nat)) Hz).
        * intros e He Hne. by rewrite G5.
        * rewrite HNone by lia. done.
        * by rewrite G2.
      + rewrite (holders_same es es'); [done|]. intros e He.
        destruct (decide (e = emp ∧ (x = k ∨ x = (k + 1)%nat))) as [[-> Hd]|Hd].
        * rewrite G1, HNone by (done || lia). done.
        * rewrite G3; [done|]. intros (? & ?). apply Hd. split; [done|]. lia.
    - rewrite (holders_same es es'); [done|]. intros e He.
      destruct (decide (e = emp ∧ (x = k ∨ x = (k + 1)%nat))) as [[-> Hd]|Hd].
      + rewrite G1, HNone by (done || lia). done.
      + rewrite G3; [done|]. intros (? & ?). apply Hd. split; [done|]. lia. }
  intros x Hx. destruct (k + 2 <? total_days)%nat.
  - rewrite offs_get_insert. rewrite bool_decide_eq_false_2 by lia. apply Hdwo. lia.
  - apply Hdwo. lia.
Qed.

Lemma pairs_step_inv (employee_names : list string) (total_days k : nat)
    (ps : pairs_state) :
  NoDup employee_names → (6 ≤ length employee_names)%nat →
  (k < total_days - 1)%nat →
  pairs_inv employee_names total_days k ps →
  pairs_inv employee_names total_days (S k)
            (pairs_step employee_names total_days ps k).
Proof.
  intros Hnd Hlen Hk Hinv. unfold pairs_step.
  pose proof Hinv as (_ & _ & Hnak & _).
  destruct (even_or_odd k) as [[q Hq]|[q Hq]].
  - assert (Hcov : covered k = k) by (subst k; apply covered_even).
    assert (H0 : night_assigned_at (ps_night_assigned ps) k = false).
    { apply not_true_iff_false. rewrite Hnak by lia. lia. }
    assert (H1 : night_assigned_at (ps_night_assigned ps) (k + 1) = false).
    { apply not_true_iff_false. rewrite Hnak by lia. lia. }
    rewrite H0, H1. simpl.
    pose proof (pair_candidate_exists employee_names total_days k ps q
                  Hnd Hlen Hq ltac:(lia) Hinv) as Hex.
    destruct (filter _ employee_names) as [|c candidates] eqn:E; [done|].
    pose proof (min_by_elem (last_pair_end_of (ps_last_pair_end ps)) c candidates)
      as Hmin.
    rewrite <- E in Hmin. apply list_elem_of_filter in Hmin as [Hc Hin].
    apply (assign_pair_inv employee_names total_days k q); try done. lia.
  - assert (Hcov : covered k = S k).
    { subst k. rewrite covered_odd. lia. }
    assert (H0 : night_assigned_at (ps_night_assigned ps) k = true).
    { rewrite Hnak by lia. lia. }
    rewrite H0. simpl.
    assert (Hcov' : covered (S k) = covered k).
    { rewrite Hcov. subst k. replace (S (2 * q + 1)) with (2 * (q + 1))%nat by lia.
      rewrite covered_even. lia. }
    unfold pairs_inv in *. by rewrite Hcov'.
Qed.

Lemma covered_pred (total_days : nat) :
  covered (total_days - 1) = (2 * (total_days / 2))%nat.
Proof.
  unfold covered. destruct total_days as [|n]; [done|].
  by replace (S n - 1 + 1)%nat with (S n) by lia.
Qed.

Lemma paired_days_bounds (total_days : nat) :
  (total_days - 1 ≤ 2 * (total_days / 2) ≤ total_days)%nat.
Proof.
  pose proof (Nat.div_mod_eq total_days 2) as H.
  pose proof (Nat.mod_upper_bound total_days 2 ltac:(lia)). lia.
Qed.

Lemma pairs_inv_initial (employee_names : list string) (total_days : nat)
    (rng : list nat) :
  let st := initial_state employee_names total_days rng in
  pairs_inv employee_names total_days 0
    {| ps_shifts := st_shifts st; ps_offs := st_offs st;
       ps_last_pair_end := foldr (λ emp m, <[emp := -100]> m) ∅ employee_names;
       ps_night_assigned := replicate total_days false |}.
Proof.
  intros st. unfold pairs_inv.
  cbn [ps_shifts ps_offs ps_last_pair_end ps_night_assigned].
  assert (HN : ∀ e x, e ∈ employee_names → get_shift (st_shifts st) e x = None).
  { intros e x He. by apply get_shift_initial. }
  assert (HH : ∀ x v, holders (st_shifts st) employee_names x (λ c, cell_is c v) = []).
  { intros x v. apply holders_nil. intros e He. by rewrite HN. }
  split.
  { intros e He. unfold st. rewrite row_of_initial by done. apply length_replicate. }
  split; [apply length_replicate|].
  split.
  { intros x Hx. unfold night_assigned_at.
    rewrite lookup_replicate_2 by done. cbn [default]. change (covered 0) with 0%nat.
    split; [done|lia]. }
  split; [intros e He; left; by apply last_pair_end_initial|].
  split.
  { intros e e' He He' _ H. by rewrite last_pair_end_initial in H. }
  split; [intros e x He H; by rewrite HN in H|].
  split; [intros e x He; left; by apply HN|].
  split; [change (covered 0) with 0%nat; lia|].
  split; [intros x _; apply HH|].
  split; [intros e d He _ H; by rewrite HN in H|].
  split; [intros e j He _; by rewrite !HN|].
  split.
  { intros x. unfold st. rewrite offs_get_initial. split; [done|].
    split; [intros _; apply HH|]. fold st. rewrite HH. simpl. lia. }
  intros x _. apply offs_get_initial.
Qed.

Lemma random_choice_elem {A} (c : A) (l : list A) (rng : list nat) :
  fst (random_choice c l rng) ∈ c :: l.
Proof.
  unfold random_choice. destruct (randbelow _ rng) as [j rng']. simpl.
  destruct ((c :: l) !! j) as [y|] eqn:E; simpl.
  - by apply list_elem_of_lookup_2 in E.
  - left.
Qed.

Lemma single_night_step_fills (employee_names : list string) (total_days : nat)
    (na : list bool) (es0 : schedule) (acc : schedule * list nat) (day : nat) :
  (day < total_days)%nat →
  (night_assigned_at na day = false → (paired_days total_days ≤ day)%nat) →
  fills employee_names (λ x c, (paired_days total_days ≤ x)%nat ∧ c = 3)
        es0 (fst acc)
  ∧ rows_wf employee_names total_days (fst acc) →
  fills employee_names (λ x c, (paired_days total_days ≤ x)%nat ∧ c = 3)
        es0 (fst (single_night_step employee_names total_days na acc day))
  ∧ rows_wf employee_names total_days
            (fst (single_night_step employee_names total_days na acc day)).
Proof.
  intros Hday Hna [Hf Hwf]. destruct acc as [es rng]. unfold single_night_step.
  destruct (night_assigned_at na day); [done|].
  destruct (filter _ employee_names) as [|c candidates] eqn:E; [done|].
  pose proof (random_choice_elem c candidates rng) as Hin.
  destruct (random_choice c candidates rng) as [emp rng']. simpl in *.
  rewrite <- E in Hin. apply list_elem_of_filter in Hin as [Hc Hin].
  apply andb_true_iff in Hc as [Hc _]. apply is_None_b_true in Hc.
  split; [|by apply rows_wf_set_shift].
  eapply fills_trans; [exact Hf|].
  apply fills_set_shift; try done. split; [|done]. by apply Hna.
Qed.

(** Phase 0 on the empty matrix. *)
Lemma assign_night_shift_pairs_post (employee_names : list string)
    (total_days : nat) (rng : list nat) :
  NoDup employee_names → (6 ≤ length employee_names)%nat →
  let st := assign_night_shift_pairs employee_names total_days
              (initial_state employee_names total_days rng) in
  nights_placed employee_names total_days (st_shifts st) (st_offs st).
Proof.
  intros Hnd Hlen. unfold assign_night_shift_pairs.
  set (st0 := initial_state employee_names total_days rng).
  set (ps0 := {| ps_shifts := st_shifts st0; ps_offs := st_offs st0;
                 ps_last_pair_end := _; ps_night_assigned := _ |}).
  assert (Hinv : pairs_inv employee_names total_days (total_days - 1)
                   (foldl (pairs_step employee_names total_days) ps0
                          (range 0 (total_days - 1)))).
  { apply (foldl_range _ (pairs_inv employee_names total_days)); [lia| |].
    - apply pairs_inv_initial.
    - intros x s Hx. apply pairs_step_inv; try done. lia. }
  set (ps := foldl (pairs_step employee_names total_days) ps0 _) in *.
  destruct Hinv as (Hwf & Hna & Hnak & _ & _ & _ & Hno & Hone & _ & Hfol & Hpair
                    & Hoff & _).
  rewrite covered_pred in *. fold (paired_days total_days) in *.
  pose proof (paired_days_bounds total_days) as Hb. fold (paired_days total_days) in Hb.
  assert (Hloop :
    fills employee_names (λ x c, (paired_days total_days ≤ x)%nat ∧ c = 3)
          (ps_shifts ps)
          (fst (foldl (single_night_step employee_names total_days
                                         (ps_night_assigned ps))
                      (ps_shifts ps, st_rng st0) (range 0 total_days)))
    ∧ rows_wf employee_names total_days
        (fst (foldl (single_night_step employee_names total_days
                                       (ps_night_assigned ps))
                    (ps_shifts ps, st_rng st0) (range 0 total_days)))).
  { apply (foldl_invariant
             (λ acc, fills employee_names
                       (λ x c, (paired_days total_days ≤ x)%nat ∧ c = 3)
                       (ps_shifts ps) (fst acc)
                     ∧ rows_wf employee_names total_days (fst acc))).
    - split; [apply fills_refl|done].
    - intros acc x Hx. apply elem_of_range in Hx.
      apply single_night_step_fills; [lia|].
      intros Hf. destruct (decide (x < paired_days total_days)%nat) as [Hlt|]; [|lia].
      apply Hnak in Hlt; [|lia]. congruence. }
  destruct (foldl (single_night_step _ _ _) _ _) as [es rng'].
  simpl in Hloop. destruct Hloop as [Hf Hwf']. simpl.
  split; [done|].
  split.
  { intros e x He. destruct (Hf e x) as [->|(_ & _ & c & [_ ->] & ->)]; [|tauto].
    by apply Hno. }
  split.
  { intros x Hx.
    pose proof (λ H, fills_holders employee_names _ _ _ x 3 H Hf) as HH.
    simpl in HH. rewrite HH by lia. apply Hone; lia. }
  split.
  { eapply fills_night_followed; [|exact Hf|done]. simpl. lia. }
  split.
  { eapply fills_nights_paired; [|exact Hf|].
    - simpl. lia.
    - eapply nights_paired_zone; [|done]. lia. }
  intros x. destruct (Hoff x) as (H0 & H1 & H2).
  pose proof (λ H, fills_holders employee_names _ _ _ x 0 H Hf) as HH.
  simpl in HH. rewrite HH by (by intros [_ ?]). done.
Qed.

(** ** Phase 1: off days go into unset cells *)

Lemma elem_of_list_insert_inv {A} (l : list A) (i : nat) (v y : A) :
  y ∈ <[i := v]> l → y = v ∨ y ∈ l.
Proof.
  revert i. induction l as [|x l IH]; intros i H; simpl in *.
  - by apply elem_of_nil in H.
  - destruct i as [|i]; simpl in H; apply elem_of_cons in H as [->|H].
    + by left.
    + right. by right.
    + right. left.
    + destruct (IH i H) as [?|?]; [by left|right; by right].
Qed.

Lemma elem_of_swap_items {A} (x : list A) (i j : nat) (y : A) :
  y ∈ swap_items x i j → y ∈ x.
Proof.
  unfold swap_items.
  destruct (x !! i) as [a|] eqn:Ei; [|done].
  destruct (x !! j) as [b|] eqn:Ej; [|done].
  intros H. apply elem_of_list_insert_inv in H as [->|H].
  - by apply list_elem_of_lookup_2 in Ei.
  - apply elem_of_list_insert_inv in H as [->|H]; [|done].
    by apply list_elem_of_lookup_2 in Ej.
Qed.

Lemma elem_of_shuffle_from {A} (i : nat) (x : list A) (rng : list nat) (y : A) :
  y ∈ fst (shuffle_from i x rng) → y ∈ x.
Proof.
  revert x rng. induction i as [|i IH]; intros x rng; simpl; [done|].
  destruct (randbelow (S (S i)) rng) as [j rng'].
  intros H. apply IH in H. by apply elem_of_swap_items in H.
Qed.

Lemma elem_of_random_shuffle {A} (x : list A) (rng : list nat) (y : A) :
  y ∈ fst (random_shuffle x rng) → y ∈ x.
Proof. apply elem_of_shuffle_from. Qed.

(** One off day written where the day had none. *)
Lemma off_write (employee_names : list string) (total_days : nat)
    (es0 es : schedule) (dwo : gmap nat Z) (emp : string) (day : nat) :
  NoDup employee_names → emp ∈ employee_names → (day < total_days)%nat →
  get_shift es emp day = None → offs_get dwo day = 0 →
  rows_wf employee_names total_days es →
  fills employee_names (λ _ c, c = 0) es0 es →
  offs_ok employee_names es dwo →
  rows_wf employee_names total_days (set_shift es emp day (Some 0))
  ∧ fills employee_names (λ _ c, c = 0) es0 (set_shift es emp day (Some 0))
  ∧ offs_ok employee_names (set_shift es emp day (Some 0)) (<[day := 1]> dwo).
Proof.
  intros Hnd Hemp Hday Hnone Hzero Hwf Hf Hoff.
  split; [by apply rows_wf_set_shift|].
  split; [eapply fills_trans; [exact Hf|]; by apply fills_set_shift|].
  intros x. destruct (Hoff x) as (H0 & H1 & H2). rewrite offs_get_insert.
  case_bool_decide as Hx.
  - subst x. split; [lia|]. split; [lia|].
    rewrite (holders_set_gain employee_names total_days); try done.
    + by rewrite H1.
    + by rewrite Hnone.
  - rewrite holders_set_other by done. done.
Qed.

Lemma give_off_inv (employee_names : list string) (total_days : nat)
    (es0 : schedule) (os : off_state) (emp : string) (day : nat) :
  NoDup employee_names → emp ∈ employee_names → (day < total_days)%nat →
  get_shift (st_shifts (os_st os)) emp day = None →
  offs_get (st_offs (os_st os)) day = 0 →
  off_inv employee_names total_days es0 (os_st os) →
  off_inv employee_names total_days es0 (os_st (give_off os emp day)).
Proof.
  intros Hnd Hemp Hday Hnone Hzero (Hwf & Hf & Hoff).
  unfold off_inv, give_off. cbn [os_st st_shifts st_offs]. rewrite Hzero.
  change (0 + 1) with 1. by apply off_write.
Qed.

Lemma streak_step_inv (employee_names : list string) (total_days : nat)
    (es0 : schedule) (day : nat) (os : off_state) (employee : string) :
  NoDup employee_names → employee ∈ employee_names → (day < total_days)%nat →
  off_inv employee_names total_days es0 (os_st os) →
  off_inv employee_names total_days es0 (os_st (streak_step day os employee)).
Proof.
  intros Hnd Hemp Hday Hinv. unfold streak_step.
  destruct (max_consecutive_work_days <=? day)%nat; [|done].
  destruct (streak_scan _ _ _ _) as [work_streak consecutive_work].
  destruct (work_streak && _); [|done].
  destruct (is_None_b _ && _ && _) eqn:E; [|done].
  apply andb_true_iff in E as [E _]. apply andb_true_iff in E as [E1 E2].
  apply is_None_b_true in E1. apply Z.eqb_eq in E2.
  by apply give_off_inv.
Qed.

Lemma weekly_off_employee_inv (employee_names : list string) (total_days : nat)
    (es0 : schedule) (week_start week_end : nat) (os : off_state)
    (employee : string) :
  NoDup employee_names → employee ∈ employee_names →
  off_inv employee_names total_days es0 (os_st os) →
  off_inv employee_names total_days es0
          (os_st (weekly_off_employee total_days week_start week_end os employee)).
Proof.
  intros Hnd Hemp Hinv. unfold weekly_off_employee.
  destruct (max_offs <=? _); [done|].
  destruct (existsb _ _); [done|].
  set (scored := (λ day, (off_day_score os employee day, day)) <$> _).
  set (fallback := (λ day, ((Fin 1000, 0), day)) <$> _).
  set (viable_off_days := match scored with [] => fallback | _ => _ end).
  assert (Hgood : ∀ v, v ∈ viable_off_days →
            (snd v < total_days)%nat
            ∧ get_shift (st_shifts (os_st os)) employee (snd v) = None
            ∧ offs_get (st_offs (os_st os)) (snd v) = 0).
  { assert (Hs : ∀ v, v ∈ scored →
              (snd v < total_days)%nat
              ∧ get_shift (st_shifts (os_st os)) employee (snd v) = None
              ∧ offs_get (st_offs (os_st os)) (snd v) = 0).
    { intros v Hv. apply list_elem_of_fmap in Hv as (day & -> & Hd).
      apply list_elem_of_filter in Hd as [Hd _]. simpl.
      apply negb_true_iff in Hd. apply orb_false_iff in Hd as [Hd H3].
      apply orb_false_iff in Hd as [H1 H2].
      apply Nat.leb_gt in H1. apply negb_false_iff, is_None_b_true in H2.
      apply Z.ltb_ge in H3.
      destruct Hinv as (_ & _ & Hoff). destruct (Hoff day) as [? _].
      split; [done|]. split; [done|lia]. }
    assert (Hfb : ∀ v, v ∈ fallback →
              (snd v < total_days)%nat
              ∧ get_shift (st_shifts (os_st os)) employee (snd v) = None
              ∧ offs_get (st_offs (os_st os)) (snd v) = 0).
    { intros v Hv. apply list_elem_of_fmap in Hv as (day & -> & Hd).
      apply list_elem_of_filter in Hd as [Hd _]. simpl.
      apply andb_true_iff in Hd as [Hd H3]. apply andb_true_iff in Hd as [H1 H2].
      apply Nat.ltb_lt in H1. apply is_None_b_true in H2. apply Z.eqb_eq in H3.
      done. }
    subst viable_off_days. destruct scored as [|v vs]; [done|].
    destruct (xnum_ge_100 _); done. }
  destruct (sort_by _ viable_off_days) as [|best rest] eqn:Es; [done|].
  assert (Hb : best ∈ viable_off_days).
  { apply (elem_of_sort_by (λ x y, score_le (fst x) (fst y))). rewrite Es. left. }
  destruct (Hgood best Hb) as (H1 & H2 & H3).
  by apply give_off_inv.
Qed.

Lemma weekly_off_week_inv (employee_names : list string) (total_days : nat)
    (es0 : schedule) (os : off_state) (week : nat) :
  NoDup employee_names →
  off_inv employee_names total_days es0 (os_st os) →
  off_inv employee_names total_days es0
          (os_st (weekly_off_week employee_names total_days os week)).
Proof.
  intros Hnd Hinv. unfold weekly_off_week.
  pose proof (elem_of_random_shuffle employee_names (st_rng (os_st os))) as Hsh.
  destruct (random_shuffle employee_names (st_rng (os_st os)))
    as [shuffled_employees rng'].
  simpl in Hsh.
  apply (foldl_invariant
           (λ os, off_inv employee_names total_days es0 (os_st os))).
  - exact Hinv.
  - intros os' e He. apply weekly_off_employee_inv; [done|]. by apply Hsh.
Qed.

Lemma ensure_off_step_inv (employee_names : list string) (total_days : nat)
    (es0 : schedule) (st : gen_state) (day : nat) :
  NoDup employee_names → (day < total_days)%nat →
  off_inv employee_names total_days es0 st →
  off_inv employee_names total_days es0 (ensure_off_step employee_names st day).
Proof.
  intros Hnd Hday Hinv. unfold ensure_off_step.
  destruct (Z.eqb_spec (offs_get (st_offs st) day) 0) as [Hz|]; [|done].
  destruct (filter _ employee_names) as [|c candidates] eqn:E; [done|].
  pose proof (random_choice_elem c candidates (st_rng st)) as Hin.
  destruct (random_choice c candidates (st_rng st)) as [emp rng'].
  simpl in Hin. rewrite <- E in Hin.
  apply list_elem_of_filter in Hin as [Hc Hin].
  apply andb_true_iff in Hc as [Hc _]. apply is_None_b_true in Hc.
  destruct Hinv as (Hwf & Hf & Hoff).
  unfold off_inv. cbn [st_shifts st_offs]. by apply off_write.
Qed.

(** Phase 1 fills unset cells with Off and keeps at most one Off a day. *)
Lemma phase1_inv (employee_names : list string) (total_days : nat)
    (st : gen_state) :
  NoDup employee_names →
  rows_wf employee_names total_days (st_shifts st) →
  offs_ok employee_names (st_shifts st) (st_offs st) →
  off_inv employee_names total_days (st_shifts st)
          (phase1 employee_names total_days st).
Proof.
  intros Hnd Hwf Hoff. unfold phase1.
  apply (foldl_invariant (off_inv employee_names total_days (st_shifts st))).
  - apply (foldl_invariant
             (λ os, off_inv employee_names total_days (st_shifts st) (os_st os))).
    + apply (foldl_invariant
               (λ os, off_inv employee_names total_days (st_shifts st) (os_st os))).
      * split; [done|]. split; [apply fills_refl|done].
      * intros os day Hday Hos. apply elem_of_range in Hday.
        apply (foldl_invariant
                 (λ os, off_inv employee_names total_days (st_shifts st) (os_st os)));
          [done|].
        intros os' e He. apply streak_step_inv; [done..|lia].
    + intros os week _. by apply weekly_off_week_inv.
  - intros st' day Hday. apply elem_of_range in Hday.
    apply ensure_off_step_inv; [done|lia].
Qed.

Lemma phase1_nights_placed (employee_names : list string) (total_days : nat)
    (st : gen_state) :
  NoDup employee_names →
  nights_placed employee_names total_days (st_shifts st) (st_offs st) →
  let st' := phase1 employee_names total_days st in
  nights_placed employee_names total_days (st_shifts st') (st_offs st').
Proof.
  intros Hnd (Hwf & Hno & Hone & Hfol & Hpair & Hoff).
  destruct (phase1_inv employee_names total_days st Hnd Hwf Hoff)
    as (Hwf' & Hf & Hoff').
  simpl. split; [done|].
  split.
  { intros e x He. destruct (Hf e x) as [->|(_ & _ & c & -> & ->)]; [|tauto].
    by apply Hno. }
  split.
  { intros x Hx.
    pose proof (λ H, fills_holders employee_names _ _ _ x 3 H Hf) as HH.
    simpl in HH. rewrite HH by done. by apply Hone. }
  split; [eapply fills_night_followed; [|exact Hf|done]; simpl; lia|].
  split; [eapply fills_nights_paired; [|exact Hf|done]; simpl; lia|].
  done.
Qed.

(** ** The removals of phase 2 find their element *)

Lemma list_remove_perm (x : string) (l : list string) :
  x ∈ l → l ≡ₚ x :: list_remove x l.
Proof.
  induction l as [|y l IH]; intros Hin; simpl.
  - by apply elem_of_nil in Hin.
  - case_bool_decide as Hxy; [by subst|].
    apply elem_of_cons in Hin as [->|Hin]; [done|].
    rewrite (IH Hin) at 1. apply Permutation_swap.
Qed.

Lemma submseteq_removals_present (l avail : list string) :
  l ⊆+ avail → removals_present l avail.
Proof.
  revert avail. induction l as [|x l IH]; intros avail Hsub; simpl; [done|].
  assert (Hin : x ∈ avail).
  { apply singleton_submseteq_l. etransitivity; [|exact Hsub].
    apply (submseteq_skip x [] l), submseteq_nil_l. }
  split; [done|]. apply IH.
  rewrite (list_remove_perm x avail Hin) in Hsub.
  by apply (submseteq_app_inv_l _ _ [x]).
Qed.

(** The employees [fill_deficit] takes out of [available_today] are
    in it, each as often as it is taken. *)
Lemma fill_deficit_removes_present (st : gen_state) (total_days day : nat)
    (code : Z) (needed : nat) (available_today : list string) :
  removals_present
    (take needed
       (sort_by_key (λ x, [cnt_get (st_counts st) x code])
          (filter (λ emp, is_shift_viable (st_shifts st) emp day (Some code)
                                          total_days = true)
                  available_today)))
    available_today.
Proof.
  apply submseteq_removals_present.
  etransitivity; [apply sublist_submseteq, sublist_take|].
  unfold sort_by_key. rewrite sort_by_perm.
  apply sublist_submseteq, sublist_filter.
Qed.

(** ** Viability of Evening and Morning in an unset cell *)

Lemma preceded_by_lookup (row : list (option Z)) (day : nat) (p : list Z)
    (i : nat) (v : Z) :
  (day ≤ length row)%nat → preceded_by row day p → p !! i = Some v →
  (length p ≤ day)%nat ∧ cell_at row (day - length p + i) = Some v.
Proof.
  intros Hday [k Hk] Hi.
  assert (Hlen : length (take day row) = (length k + length p)%nat).
  { rewrite Hk, length_app, length_fmap. done. }
  rewrite length_take in Hlen. split; [lia|].
  assert (Hl : take day row !! (length k + i)%nat = Some (Some v)).
  { rewrite Hk, lookup_app_r by lia.
    replace (length k + i - length k)%nat with i by lia.
    by rewrite list_lookup_fmap, Hi. }
  apply lookup_take_Some in Hl as [Hl _].
  unfold cell_at. replace (day - length p)%nat with (length k) by lia.
  by rewrite Hl.
Qed.

(** Evening and Morning are viable on a day that no Night precedes
    and before which no Night was followed by an Evening. *)
Lemma viable_rested (es : schedule) (emp : string) (d : nat) (c : Z)
    (total_days : nat) :
  c = 1 ∨ c = 2 → (d < length (row_of es emp))%nat →
  (∀ x, (x + 1)%nat = d → get_shift es emp x ≠ Some 3) →
  (∀ x, (x + 1 < d)%nat → get_shift es emp x = Some 3 →
        get_shift es emp (x + 1) ≠ Some 2) →
  is_shift_viable es emp d (Some c) total_days = true.
Proof.
  intros Hc Hd Hprev Hne. apply is_shift_viable_iff. right.
  split; [done|]. unfold get_shift in *.
  set (row := row_of es emp) in *.
  assert (Hle : (d ≤ length row)%nat) by lia.
  split.
  { intros Hp.
    destruct (preceded_by_lookup row d [3; 3] 1 3 Hle Hp eq_refl) as [Hl H1].
    simpl in *. apply (Hprev (d - 2 + 1)%nat); [lia|done]. }
  intros _.
  split.
  { intros Hp.
    destruct (preceded_by_lookup row d [3] 0 3 Hle Hp eq_refl) as [Hl H1].
    simpl in *. apply (Hprev (d - 1 + 0)%nat); [lia|done]. }
  split.
  { intros Hp.
    destruct (preceded_by_lookup row d [3; 2] 0 3 Hle Hp eq_refl) as [Hl H1].
    destruct (preceded_by_lookup row d [3; 2] 1 2 Hle Hp eq_refl) as [_ H2].
    simpl in *. apply (Hne (d - 2 + 0)%nat); [lia|done|].
    by replace (d - 2 + 0 + 1)%nat with (d - 2 + 1)%nat by lia. }
  split.
  { intros Hp.
    destruct (preceded_by_lookup row d [3; 2; 2] 0 3 Hle Hp eq_refl) as [Hl H1].
    destruct (preceded_by_lookup row d [3; 2; 2] 1 2 Hle Hp eq_refl) as [_ H2].
    simpl in *. apply (Hne (d - 3 + 0)%nat); [lia|done|].
    by replace (d - 3 + 0 + 1)%nat with (d - 3 + 1)%nat by lia. }
  split.
  { intros Hp.
    destruct (preceded_by_lookup row d [3; 2; 3; 2] 0 3 Hle Hp eq_refl) as [Hl H1].
    destruct (preceded_by_lookup row d [3; 2; 3; 2] 1 2 Hle Hp eq_refl) as [_ H2].
    simpl in *. apply (Hne (d - 4 + 0)%nat); [lia|done|].
    by replace (d - 4 + 0 + 1)%nat with (d - 4 + 1)%nat by lia. }
  intros Hp.
  destruct (preceded_by_lookup row d [2; 3; 2; 2] 1 3 Hle Hp eq_refl) as [Hl H1].
  destruct (preceded_by_lookup row d [2; 3; 2; 2] 2 2 Hle Hp eq_refl) as [_ H2].
  simpl in *. apply (Hne (d - 4 + 1)%nat); [lia|done|].
  by replace (d - 4 + 1 + 1)%nat with (d - 4 + 2)%nat by lia.
Qed.

(** While every Night is followed by a Night or by Off, an unset cell
    takes Evening and Morning. *)
Lemma viable_unset (employee_names : list string) (total_days : nat)
    (es : schedule) (emp : string) (d : nat) (c : Z) :
  c = 1 ∨ c = 2 → emp ∈ employee_names → (d < total_days)%nat →
  rows_wf employee_names total_days es →
  night_followed employee_names total_days es →
  get_shift es emp d = None →
  is_shift_viable es emp d (Some c) total_days = true.
Proof.
  intros Hc Hemp Hd Hwf Hfol Hnone. apply viable_rested; [done| | |].
  - by rewrite (Hwf emp Hemp).
  - intros x Hx HN. subst d.
    destruct (Hfol emp x Hemp Hd HN) as [H|H]; congruence.
  - intros x Hx HN HE.
    destruct (Hfol emp x Hemp ltac:(lia) HN) as [H|H]; congruence.
Qed.

(** Evening is refused only after two Nights, and then Night is refused
    as well. *)
Lemma evening_refused (es : schedule) (emp : string) (d : nat)
    (total_days : nat) :
  (d < length (row_of es emp))%nat →
  is_shift_viable es emp d (Some 2) total_days = false →
  (2 ≤ d)%nat ∧ get_shift es emp (d - 2) = Some 3
  ∧ get_shift es emp (d - 1) = Some 3.
Proof.
  intros Hd Hv.
  destruct (decide ((2 ≤ d)%nat ∧ get_shift es emp (d - 2) = Some 3
                    ∧ get_shift es emp (d - 1) = Some 3)) as [|Hn]; [done|].
  exfalso. apply not_true_iff_false in Hv. apply Hv.
  apply is_shift_viable_iff. right. split; [done|]. split; [|done].
  intros Hp. apply Hn.
  assert (Hle : (d ≤ length (row_of es emp))%nat) by lia.
  destruct (preceded_by_lookup _ d [3; 3] 0 3 Hle Hp eq_refl) as [Hl H1].
  destruct (preceded_by_lookup _ d [3; 3] 1 3 Hle Hp eq_refl) as [_ H2].
  simpl in *. unfold get_shift.
  replace (d - 2 + 0)%nat with (d - 2)%nat in H1 by lia.
  replace (d - 2 + 1)%nat with (d - 1)%nat in H2 by lia. done.
Qed.

Lemma night_viable_evening (es : schedule) (emp : string) (d : nat)
    (total_days : nat) :
  is_shift_viable es emp d (Some 3) total_days = true →
  is_shift_viable es emp d (Some 2) total_days = true.
Proof.
  rewrite !is_shift_viable_iff. intros [?|(H1 & H2 & _)]; [done|].
  right. split; [done|]. split; [done|]. intros ?. done.
Qed.

(** ** Phase 2: the template days are filled *)

Lemma elem_of_list_remove (x : string) (l : list string) (e : string) :
  NoDup l → e ∈ list_remove x l ↔ e ∈ l ∧ e ≠ x.
Proof.
  induction l as [|y l IH]; intros Hnd; simpl.
  - split; [intros H; by apply elem_of_nil in H|intros [H _]; by apply elem_of_nil in H].
  - apply NoDup_cons in Hnd as [Hy Hnd]. case_bool_decide as Hxy.
    + subst y. rewrite elem_of_cons. split.
      * intros H. split; [by right|]. by intros ->.
      * intros [[->|H] Hne]; done.
    + rewrite !elem_of_cons, IH by done. split.
      * intros [->|[H Hne]]; [split; [by left|done]|]. split; [by right|done].
      * intros [[->|H] Hne]; [by left|]. right. done.
Qed.

Lemma NoDup_list_remove (x : string) (l : list string) :
  NoDup l → NoDup (list_remove x l).
Proof.
  induction l as [|y l IH]; intros Hnd; simpl; [done|].
  pose proof Hnd as Hnd'. apply NoDup_cons in Hnd as [Hy Hnd].
  case_bool_decide; [done|]. apply NoDup_cons. split; [|by apply IH].
  rewrite elem_of_list_remove by done. tauto.
Qed.

Lemma length_list_remove (x : string) (l : list string) :
  x ∈ l → (length (list_remove x l) + 1 = length l)%nat.
Proof.
  induction l as [|y l IH]; intros Hin; simpl.
  - by apply elem_of_nil in Hin.
  - case_bool_decide as Hxy; [lia|]. simpl.
    apply elem_of_cons in Hin as [->|Hin]; [done|]. specialize (IH Hin). lia.
Qed.

(** The employees of [l], all available, receive [code] on day [d]. *)
Lemma assign_all_spec (employee_names : list string) (total_days d : nat)
    (es_in : schedule) (code : Z) (l : list string)
    (acc : gen_state * list string) :
  NoDup employee_names → (d < total_days)%nat →
  day_writes total_days d d code →
  NoDup l → (∀ e, e ∈ l → e ∈ snd acc) →
  day_inv employee_names total_days d es_in acc →
  let r := foldl (λ '(st, available_today) emp,
                    (assign_shift st emp d code, list_remove emp available_today))
                 acc l in
  day_inv employee_names total_days d es_in r
  ∧ (length (snd r) + length l = length (snd acc))%nat
  ∧ ∀ c', length (holders (st_shifts (fst r)) employee_names d (λ c, cell_is c c'))
          = (length (holders (st_shifts (fst acc)) employee_names d (λ c, cell_is c c'))
             + if bool_decide (c' = code) then length l else 0)%nat.
Proof.
  intros Hnd Hd Hw. revert acc.
  induction l as [|emp l IH]; intros [st avail] Hl Hsub Hinv; simpl.
  { split; [done|]. split; [lia|]. intros c'. case_bool_decide; lia. }
  apply NoDup_cons in Hl as [Hemp Hl].
  destruct Hinv as (Hwf & Hf & Hav & Hmem). simpl in *.
  assert (Hin : emp ∈ avail) by (apply Hsub; left).
  destruct (proj1 (Hmem emp) Hin) as [Hname Hnone].
  assert (Hinv' : day_inv employee_names total_days d es_in
                    (assign_shift st emp d code, list_remove emp avail)).
  { split; [by apply rows_wf_set_shift|]. simpl.
    split; [eapply fills_trans; [exact Hf|]; by apply fills_set_shift|].
    split; [by apply NoDup_list_remove|].
    intros e. rewrite elem_of_list_remove by done.
    rewrite (get_set_wf employee_names total_days) by done. rewrite Hmem.
    case_bool_decide as Hk.
    - destruct Hk as [<- _]. split; [intros [_ ?]; done|intros [_ ?]; done].
    - split; [tauto|]. intros [? ?]. split; [done|]. intros ->. by apply Hk. }
  specialize (IH (assign_shift st emp d code, list_remove emp avail) Hl).
  destruct IH as (IH1 & IH2 & IH3); [|done|].
  { intros e He. simpl. rewrite elem_of_list_remove by done.
    split; [apply Hsub; by right|]. intros ->. done. }
  split; [done|]. simpl in *.
  split. { pose proof (length_list_remove emp avail Hin). lia. }
  intros c'. rewrite IH3.
  destruct (decide (c' = code)) as [->|Hne].
  - rewrite !bool_decide_eq_true_2 by done.
    rewrite (holders_set_gain employee_names total_days); try done.
    + lia.
    + by rewrite Hnone.
    + simpl. apply Z.eqb_refl.
  - rewrite !bool_decide_eq_false_2 by done.
    rewrite holders_set_same; [lia|]. rewrite Hnone. simpl.
    apply Z.eqb_neq. intros ->. done.
Qed.

Lemma filter_all {A} (P : A → Prop) `{∀ x, Decision (P x)} (l : list A) :
  (∀ y, y ∈ l → P y) → filter P l = l.
Proof.
  induction l as [|y l IH]; intros H0; [done|].
  rewrite filter_cons. rewrite decide_True by (apply H0; left).
  rewrite IH; [done|]. intros z Hz. apply H0. by right.
Qed.

Lemma length_filter_or {A} (Q P1 P2 : A → Prop) `{∀ x, Decision (Q x)}
    `{∀ x, Decision (P1 x)} `{∀ x, Decision (P2 x)} (l : list A) :
  (∀ y, y ∈ l → Q y → P1 y ∨ P2 y) →
  (length (filter Q l) ≤ length (filter P1 l) + length (filter P2 l))%nat.
Proof.
  induction l as [|y l IH]; intros Hq; [done|].
  rewrite !filter_cons.
  specialize (IH (λ z Hz, Hq z (proj2 (elem_of_cons _ _ _) (or_intror Hz)))).
  pose proof (Hq y ltac:(left)) as Hy.
  repeat case_decide; simpl; try lia. exfalso. tauto.
Qed.

Lemma NoDup_take {A} (n : nat) (l : list A) : NoDup l → NoDup (take n l).
Proof.
  intros H. rewrite <- (take_drop n l) in H. by apply NoDup_app in H as [? _].
Qed.

Lemma elem_of_take_inv {A} (n : nat) (l : list A) (x : A) : x ∈ take n l → x ∈ l.
Proof. intros H. rewrite <- (take_drop n l). apply elem_of_app. by left. Qed.

Lemma count_day_holders (es : schedule) (employee_names : list string)
    (day : nat) (s : Z) :
  count_day es employee_names day s
  = Z.of_nat (length (holders es employee_names day (λ c, cell_is c s))).
Proof. done. Qed.

Lemma day_writes_night_followed (employee_names : list string)
    (total_days d : nat) (es es' : schedule) :
  fills employee_names (day_writes total_days d) es es' →
  night_followed employee_names total_days es →
  night_followed employee_names total_days es'.
Proof.
  intros Hf. eapply fills_night_followed; [|exact Hf].
  intros x (-> & [?|[?|[_ Hp]]]); try done.
  pose proof (paired_days_bounds total_days). unfold paired_days in *. lia.
Qed.

(** One of the three fills of a day of phase 2.  [k] employees receive
    [code]; for Morning and Evening, every available employee is a
    candidate. *)
Lemma fill_deficit_spec (employee_names : list string) (total_days d : nat)
    (es_in : schedule) (code : Z) (acc : gen_state * list string) :
  NoDup employee_names → (d < total_days)%nat →
  (code = 1 ∨ code = 2
   ∨ (code = 3
      ∧ (holders (st_shifts (fst acc)) employee_names d (λ c, cell_is c 3) = []
         → (paired_days total_days ≤ d)%nat))) →
  day_inv employee_names total_days d es_in acc →
  let r := fill_deficit employee_names total_days d code acc in
  let needed :=
    Z.to_nat (Z.max 0 (target_of code
                       - count_day (st_shifts (fst acc)) employee_names d code)) in
  day_inv employee_names total_days d es_in r
  ∧ ∃ k : nat,
      (length (snd r) + k = length (snd acc))%nat
      ∧ (∀ c', length (holders (st_shifts (fst r)) employee_names d
                               (λ c, cell_is c c'))
               = (length (holders (st_shifts (fst acc)) employee_names d
                                  (λ c, cell_is c c'))
                  + if bool_decide (c' = code) then k else 0)%nat)
      ∧ (k ≤ needed)%nat
      ∧ ((code = 1 ∨ code = 2) →
         night_followed employee_names total_days (st_shifts (fst acc)) →
         k = Nat.min needed (length (snd acc))).
Proof.
  intros Hnd Hd Hcode Hinv. destruct acc as [st avail]. unfold fill_deficit.
  cbn [fst snd] in *. cbv zeta.
  set (needed := Z.max 0 _).
  destruct (Z.ltb_spec 0 needed) as [Hpos|Hz].
  - set (candidates := sort_by_key _ (filter _ avail)).
    pose proof Hinv as (Hwf & Hf & Hav & Hmem). cbn [fst snd] in *.
    assert (Hcn : NoDup candidates).
    { apply NoDup_sort_by. by apply NoDup_filter. }
    assert (Hcs : ∀ e, e ∈ candidates → e ∈ avail).
    { intros e He. apply elem_of_sort_by_key, list_elem_of_filter in He. tauto. }
    assert (Hw : day_writes total_days d d code).
    { split; [done|]. destruct Hcode as [?|[?|[-> Hp]]]; auto.
      right; right. split; [done|]. apply Hp.
      destruct (holders _ _ _ _) eqn:E; [done|].
      subst needed. rewrite count_day_holders, E in Hpos.
      change (target_of 3) with 1 in Hpos. simpl length in Hpos. exfalso. lia. }
    pose proof (assign_all_spec employee_names total_days d es_in code
                  (take (Z.to_nat needed) candidates) (st, avail) Hnd Hd Hw
                  (NoDup_take _ _ Hcn)
                  (λ e He, Hcs e (elem_of_take_inv _ _ _ He)) Hinv)
      as (H1 & H2 & H3).
    split; [exact H1|].
    exists (length (take (Z.to_nat needed) candidates)).
    split; [exact H2|]. split; [exact H3|].
    rewrite length_take. split; [lia|].
    intros Hc Hfol. f_equal. subst candidates. unfold sort_by_key.
    rewrite length_sort_by. rewrite filter_all; [done|].
    intros e He. apply Hmem in He as [He Hnone].
    by apply (viable_unset employee_names).
  - split; [done|]. exists 0%nat. cbn [fst snd]. split; [lia|].
    split; [intros c'; case_bool_decide; lia|].
    split; [lia|]. intros _ _. lia.
Qed.

Lemma first_viable_Some (es : schedule) (emp : string) (day total_days : nat)
    (codes : list Z) (c : Z) :
  first_viable es emp day total_days codes = Some c → c ∈ codes.
Proof.
  induction codes as [|x codes IH]; simpl; [done|].
  destruct (is_shift_viable es emp day (Some x) total_days).
  - intros [= ->]. left.
  - intros H. right. by apply IH.
Qed.

Lemma first_viable_None (es : schedule) (emp : string) (day total_days : nat)
    (codes : list Z) (c : Z) :
  first_viable es emp day total_days codes = None → c ∈ codes →
  is_shift_viable es emp day (Some c) total_days = false.
Proof.
  induction codes as [|x codes IH]; simpl; intros Hn Hc.
  - by apply elem_of_nil in Hc.
  - destruct (is_shift_viable es emp day (Some x) total_days) eqn:E; [done|].
    apply elem_of_cons in Hc as [->|Hc]; [done|]. by apply IH.
Qed.

(** The fallback of phase 2: every employee still available receives a
    shift, and the Evenings stay two once they are two. *)
Lemma fallback_spec (employee_names : list string) (total_days d : nat)
    (l : list string) (st : gen_state) :
  NoDup employee_names → (d < total_days)%nat → NoDup l →
  (∀ e, e ∈ l → e ∈ employee_names ∧ get_shift (st_shifts st) e d = None) →
  rows_wf employee_names total_days (st_shifts st) →
  night_followed employee_names total_days (st_shifts st) →
  ((d < paired_days total_days)%nat →
   holders (st_shifts st) employee_names d (λ c, cell_is c 3) ≠ []) →
  let st' := foldl (fallback_step employee_names total_days d) st l in
  rows_wf employee_names total_days (st_shifts st')
  ∧ fills employee_names (day_writes total_days d) (st_shifts st) (st_shifts st')
  ∧ (∀ e, e ∈ l → get_shift (st_shifts st') e d ≠ None)
  ∧ (length (holders (st_shifts st) employee_names d (λ c, cell_is c 2)) = 2%nat →
     length (holders (st_shifts st') employee_names d (λ c, cell_is c 2)) = 2%nat).
Proof.
  intros Hnd Hd. revert st.
  induction l as [|emp l IH]; intros st Hl Hnone Hwf Hfol HN; simpl.
  { split; [done|]. split; [apply fills_refl|]. split; [|done].
    intros e He. by apply elem_of_nil in He. }
  apply NoDup_cons in Hl as [Hemp Hl].
  destruct (Hnone emp ltac:(left)) as [Hname Hcell].
  set (es := st_shifts st) in *.
  set (st1 := fallback_step employee_names total_days d st emp).
  assert (Hstep : ∃ c, day_writes total_days d d c
                       ∧ st_shifts st1 = set_shift es emp d (Some c)
                       ∧ (length (holders es employee_names d (λ c, cell_is c 2))
                          = 2%nat → c = 1)).
  { subst st1. unfold fallback_step. fold es.
    set (preferred_order := _ ++ _ ++ _).
    assert (HM : is_shift_viable es emp d (Some 1) total_days = true).
    { apply (viable_unset employee_names); auto. }
    destruct (first_viable es emp d total_days preferred_order) as [c|] eqn:E.
    - exists c. split; [|split; [done|]].
      + split; [done|]. apply first_viable_Some in E.
        subst preferred_order. rewrite !elem_of_app in E.
        destruct E as [E|[E|E]].
        * destruct (_ <? _); [|by apply elem_of_nil in E].
          apply list_elem_of_singleton in E. auto.
        * apply list_elem_of_singleton in E. auto.
        * destruct (Z.ltb_spec (count_day es employee_names d 3) (target_of 3))
            as [Hlt|]; [|by apply elem_of_nil in E].
          apply list_elem_of_singleton in E. right; right. split; [done|].
          destruct (decide (d < paired_days total_days)%nat) as [Hp|]; [|lia].
          exfalso. apply (HN Hp).
          rewrite count_day_holders in Hlt. change (target_of 3) with 1 in Hlt.
          destruct (holders es employee_names d _); [done|]. simpl in Hlt. lia.
      + intros H2. subst preferred_order.
        rewrite count_day_holders, H2 in E. change (target_of 2) with 2 in E.
        simpl in E. rewrite HM in E. by injection E.
    - exfalso. apply (first_viable_None _ _ _ _ _ 1) in E; [congruence|].
      subst preferred_order. rewrite !elem_of_app. right; left. left. }
  destruct Hstep as (c & Hw & Hes1 & Hc).
  assert (Hf1 : fills employee_names (day_writes total_days d) es (st_shifts st1)).
  { rewrite Hes1. by apply fills_set_shift. }
  specialize (IH st1 Hl).
  destruct IH as (IH1 & IH2 & IH3 & IH4).
  { intros e He. destruct (Hnone e ltac:(by right)) as [? Hn]. split; [done|].
    rewrite Hes1, (get_set_wf employee_names total_days) by done.
    rewrite bool_decide_eq_false_2; [done|]. intros [<- _]. done. }
  { rewrite Hes1. by apply rows_wf_set_shift. }
  { by apply (day_writes_night_followed _ _ d es). }
  { intros Hp. specialize (HN Hp).
    destruct (holders es employee_names d (λ c, cell_is c 3)) as [|e0 l0] eqn:E;
      [done|].
    assert (He0 : e0 ∈ holders es employee_names d (λ c, cell_is c 3))
      by (rewrite E; left).
    apply elem_of_holders in He0 as [He0 Hin0]. apply cell_is_Some in He0.
    intros Hnil.
    assert (Hin : e0 ∈ holders (st_shifts st1) employee_names d (λ c, cell_is c 3)).
    { apply elem_of_holders. split; [|done]. apply cell_is_Some.
      by apply (fills_Some _ _ _ _ _ _ _ Hf1). }
    rewrite Hnil in Hin. by apply elem_of_nil in Hin. }
  split; [done|].
  split; [by eapply fills_trans|].
  split.
  { intros e He. apply elem_of_cons in He as [->|He]; [|by apply IH3].
    assert (H1 : get_shift (st_shifts st1) emp d = Some c).
    { rewrite Hes1, (get_set_wf employee_names total_days) by done.
      by rewrite bool_decide_eq_true_2. }
    rewrite (fills_Some _ _ _ _ _ _ _ IH2 H1). done. }
  intros H2. apply IH4. rewrite Hes1, (Hc H2).
  rewrite holders_set_same; [done|]. fold es. rewrite Hcell. done.
Qed.

Lemma holders_length_pos (es : schedule) (employee_names : list string)
    (day : nat) (v : Z) :
  holders es employee_names day (λ c, cell_is c v) ≠ [] →
  ∃ e, e ∈ employee_names ∧ get_shift es e day = Some v.
Proof.
  destruct (holders es employee_names day _) as [|e l] eqn:E; [done|]. intros _.
  assert (He : e ∈ holders es employee_names day (λ c, cell_is c v))
    by (rewrite E; left).
  apply elem_of_holders in He as [He Hin]. apply cell_is_Some in He. eauto.
Qed.

(** One day of phase 2, started on a column that holds only the
    Nights and the Offs of phases 0 and 1. *)
Lemma phase2_day_spec (employee_names : list string) (total_days d : nat)
    (st : gen_state) :
  NoDup employee_names → (6 ≤ length employee_names)%nat →
  (d < total_days)%nat →
  rows_wf employee_names total_days (st_shifts st) →
  night_followed employee_names total_days (st_shifts st) →
  (∀ e, e ∈ employee_names →
        get_shift (st_shifts st) e d = None
        ∨ get_shift (st_shifts st) e d = Some 3
        ∨ get_shift (st_shifts st) e d = Some 0) →
  (length (holders (st_shifts st) employee_names d (λ c, cell_is c 0)) ≤ 1)%nat →
  ((d < paired_days total_days)%nat →
   length (holders (st_shifts st) employee_names d (λ c, cell_is c 3)) = 1%nat) →
  let st' := phase2_day employee_names total_days st d in
  rows_wf employee_names total_days (st_shifts st')
  ∧ fills employee_names (day_writes total_days d) (st_shifts st) (st_shifts st')
  ∧ (∀ e, e ∈ employee_names → get_shift (st_shifts st') e d ≠ None)
  ∧ ((d < paired_days total_days)%nat →
     length (holders (st_shifts st') employee_names d (λ c, cell_is c 2)) = 2%nat
     ∧ ∃ e, e ∈ employee_names ∧ get_shift (st_shifts st') e d = Some 1).
Proof.
  intros Hnd Hlen Hd Hwf Hfol Hcol Hoff HN. unfold phase2_day.
  set (es := st_shifts st) in *.
  set (avail0 := filter (λ emp, is_None_b (get_shift es emp d) = true)
                        employee_names).
  assert (Hmem0 : ∀ e, e ∈ avail0 ↔ e ∈ employee_names ∧ get_shift es e d = None).
  { intros e. subst avail0. rewrite list_elem_of_filter, is_None_b_true. tauto. }
  assert (Hcount : (d < paired_days total_days)%nat → (4 ≤ length avail0)%nat).
  { intros Hp. specialize (HN Hp).
    pose proof (length_filter_split (λ emp, is_None_b (get_shift es emp d))
                                    employee_names) as Hs.
    pose proof (length_filter_or
                  (λ emp, is_None_b (get_shift es emp d) = false)
                  (λ emp, cell_is (get_shift es emp d) 3 = true)
                  (λ emp, cell_is (get_shift es emp d) 0 = true)
                  employee_names) as Ho.
    cbv beta in Hs, Ho. unfold holders in HN, Hoff. fold avail0 in Hs.
    assert (Hle : (length (filter (λ emp, is_None_b (get_shift es emp d) = false)
                                  employee_names) ≤ 2)%nat).
    { etransitivity; [apply Ho|lia].
      intros e He Hx. destruct (Hcol e He) as [H|[H|H]]; rewrite H in *; auto. }
    lia. }
  assert (HE0 : ∀ v, v = 1 ∨ v = 2 →
                holders es employee_names d (λ c, cell_is c v) = []).
  { intros v Hv. apply holders_nil. intros e He.
    destruct (Hcol e He) as [H|[H|H]]; rewrite H; [done| |];
      unfold cell_is; apply Z.eqb_neq; lia. }
  assert (Hinv0 : day_inv employee_names total_days d es (st, avail0)).
  { split; [done|]. split; [apply fills_refl|].
    split; [by apply NoDup_filter|done]. }
  assert (Hbody :
    let acc1 := fill_deficit employee_names total_days d 2 (st, avail0) in
    let acc2 := fill_deficit employee_names total_days d 1 acc1 in
    let acc3 := fill_deficit employee_names total_days d 3 acc2 in
    let st' := foldl (fallback_step employee_names total_days d)
                     (fst acc3) (snd acc3) in
    rows_wf employee_names total_days (st_shifts st')
    ∧ fills employee_names (day_writes total_days d) es (st_shifts st')
    ∧ (∀ e, e ∈ employee_names → get_shift (st_shifts st') e d ≠ None)
    ∧ ((d < paired_days total_days)%nat →
       length (holders (st_shifts st') employee_names d (λ c, cell_is c 2)) = 2%nat
       ∧ ∃ e, e ∈ employee_names ∧ get_shift (st_shifts st') e d = Some 1)).
  { intros acc1 acc2 acc3 st'.
    destruct (fill_deficit_spec employee_names total_days d es 2 (st, avail0)
                Hnd Hd ltac:(auto) Hinv0) as (Hinv1 & k1 & Hl1 & Hh1 & Hk1 & Hm1).
    fold acc1 in Hinv1, Hl1, Hh1. cbn [fst snd] in Hl1, Hh1, Hk1, Hm1.
    fold es in Hh1, Hk1, Hm1.
    destruct (fill_deficit_spec employee_names total_days d es 1 acc1
                Hnd Hd ltac:(auto) Hinv1) as (Hinv2 & k2 & Hl2 & Hh2 & Hk2 & Hm2).
    fold acc2 in Hinv2, Hl2, Hh2.
    assert (HN2 : ∀ es', fills employee_names (day_writes total_days d) es es' →
              (d < paired_days total_days)%nat →
              length (holders es' employee_names d (λ c, cell_is c 3)) = 1%nat).
    { intros es' Hf' Hp.
      pose proof (λ H, fills_holders employee_names _ _ _ d 3 H Hf') as HH.
      rewrite HH; [by apply HN|].
      intros (_ & [?|[?|[_ ?]]]); try done. lia. }
    assert (Hc3 : 3 = 1 ∨ 3 = 2
              ∨ (3 = 3
                 ∧ (holders (st_shifts (fst acc2)) employee_names d
                            (λ c, cell_is c 3) = []
                    → (paired_days total_days ≤ d)%nat))).
    { right; right. split; [done|]. intros Hnil.
      destruct (decide (d < paired_days total_days)%nat) as [Hp|]; [|lia].
      destruct Hinv2 as (_ & Hf2 & _). apply (f_equal length) in Hnil.
      rewrite (HN2 _ Hf2 Hp) in Hnil. done. }
    destruct (fill_deficit_spec employee_names total_days d es 3 acc2 Hnd Hd
                Hc3 Hinv2) as (Hinv3 & k3 & Hl3 & Hh3 & Hk3 & _).
    fold acc3 in Hinv3, Hl3, Hh3.
    pose proof Hinv1 as (_ & Hf1 & _). pose proof Hinv2 as (_ & Hf2 & _).
    destruct Hinv3 as (Hwf3 & Hf3 & Hav3 & Hmem3).
    destruct (fallback_spec employee_names total_days d (snd acc3) (fst acc3)
                Hnd Hd Hav3) as (Hwf4 & Hf4 & Hset4 & HE4); try done.
    { intros e He. by apply Hmem3. }
    { by apply (day_writes_night_followed _ _ d es). }
    { intros Hp Hnil. apply (f_equal length) in Hnil.
      rewrite (HN2 _ Hf3 Hp) in Hnil. done. }
    fold st' in Hwf4, Hf4, Hset4, HE4.
    split; [done|].
    split; [exact (fills_trans _ _ _ _ _ Hf3 Hf4)|].
    split.
    { intros e He. destruct (get_shift (st_shifts (fst acc3)) e d) as [v|] eqn:E.
      - by rewrite (fills_Some _ _ _ _ _ _ _ Hf4 E).
      - apply Hset4. apply Hmem3. done. }
    intros Hp. specialize (Hcount Hp).
    rewrite count_day_holders in Hk1, Hm1. rewrite (HE0 2) in Hk1, Hm1 by auto.
    change (target_of 2) with 2 in Hk1, Hm1.
    change (Z.to_nat (Z.max 0 (2 - Z.of_nat (length (@nil string))))) with 2%nat
      in Hk1, Hm1.
    specialize (Hm1 ltac:(auto) Hfol).
    assert (k1 = 2%nat) as -> by lia.
    rewrite count_day_holders, (Hh1 1) in Hk2, Hm2.
    rewrite (HE0 1) in Hk2, Hm2 by auto.
    rewrite bool_decide_eq_false_2 in Hk2, Hm2 by done.
    change (target_of 1) with 2 in Hk2, Hm2.
    change (Z.to_nat (Z.max 0 (2 - Z.of_nat (length (@nil string) + 0)))) with 2%nat
      in Hk2, Hm2.
    specialize (Hm2 ltac:(auto)
                  (day_writes_night_followed _ _ d es _ Hf1 Hfol)).
    assert (k2 = 2%nat) as -> by lia.
    assert (HE3 : length (holders (st_shifts (fst acc3)) employee_names d
                                  (λ c, cell_is c 2)) = 2%nat).
    { rewrite Hh3, Hh2, Hh1, (HE0 2) by auto.
      repeat case_bool_decide; try done; simpl; lia. }
    split; [by apply HE4|].
    assert (HM3 : holders (st_shifts (fst acc3)) employee_names d
                          (λ c, cell_is c 1) ≠ []).
    { intros Hnil. apply (f_equal length) in Hnil.
      rewrite Hh3, Hh2, Hh1, (HE0 1) in Hnil by auto.
      repeat case_bool_decide; try done; simpl in Hnil; lia. }
    apply holders_length_pos in HM3 as (e & He & HeM). exists e. split; [done|].
    by apply (fills_Some _ _ _ _ _ _ _ Hf4). }
  clearbody avail0. destruct avail0 as [|c l].
  - split; [done|]. split; [apply fills_refl|].
    split.
    { intros e He Hn. assert (Hin : e ∈ @nil string) by (by apply Hmem0).
      by apply elem_of_nil in Hin. }
    intros Hp. specialize (Hcount Hp). simpl in Hcount. lia.
  - cbv zeta in Hbody |- *.
    destruct (fill_deficit employee_names total_days d 3 _) as [st3 av3].
    exact Hbody.
Qed.

Lemma template_writes_night_followed (employee_names : list string)
    (total_days : nat) (es es' : schedule) :
  fills employee_names (template_writes total_days) es es' →
  night_followed employee_names total_days es →
  night_followed employee_names total_days es'.
Proof.
  intros Hf. eapply fills_night_followed; [|exact Hf].
  intros x (_ & [?|[?|[_ Hp]]]); try done.
  pose proof (paired_days_bounds total_days). unfold paired_days in *. lia.
Qed.

Lemma phase2_day_inv (employee_names : list string) (total_days : nat)
    (es1 : schedule) (dwo : gmap nat Z) (k : nat) (st : gen_state) :
  NoDup employee_names → (6 ≤ length employee_names)%nat →
  nights_placed employee_names total_days es1 dwo →
  (k < Nat.min 28 total_days)%nat →
  phase2_inv employee_names total_days es1 k st →
  phase2_inv employee_names total_days es1 (S k)
             (phase2_day employee_names total_days st k).
Proof.
  intros Hnd Hlen (Hwf1 & Hno1 & Hone1 & Hfol1 & Hpair1 & Hoff1) Hk
    (Hwf & Hf & Hfull & Hbal & Hrest).
  assert (Hcol : ∀ v, holders (st_shifts st) employee_names k (λ c, cell_is c v)
                      = holders es1 employee_names k (λ c, cell_is c v)).
  { intros v. apply holders_same. intros e _. by rewrite Hrest. }
  destruct (phase2_day_spec employee_names total_days k st Hnd Hlen)
    as (Hwf' & Hf' & Hfull' & Hbal'); try done.
  { lia. }
  { by apply (template_writes_night_followed _ _ es1). }
  { intros e He. rewrite Hrest by done. by apply Hno1. }
  { rewrite Hcol. apply Hoff1. }
  { intros Hp. rewrite Hcol. by apply Hone1. }
  set (st' := phase2_day employee_names total_days st k) in *.
  assert (Hout : ∀ e x, x ≠ k →
            get_shift (st_shifts st') e x = get_shift (st_shifts st) e x).
  { intros e x Hx. apply (fills_outside _ _ _ _ _ _ Hf').
    intros c [? _]. done. }
  split; [done|].
  split.
  { eapply fills_trans; [exact Hf|]. eapply fills_weaken; [|exact Hf'].
    intros x c [-> Hc]. split; [done|]. done. }
  split.
  { intros e x He Hx. destruct (decide (x = k)) as [->|Hne]; [by apply Hfull'|].
    rewrite Hout by done. apply Hfull; [done|lia]. }
  split.
  { intros x Hx Hp. destruct (decide (x = k)) as [->|Hne].
    - destruct (Hbal' Hp) as [HE HM]. split; [|done].
      pose proof (λ H, fills_holders employee_names _ _ _ k 3 H Hf') as HH.
      rewrite HH, Hcol; [by apply Hone1|].
      intros (_ & [?|[?|[_ ?]]]); try done. lia.
    - destruct (Hbal x ltac:(lia) Hp) as (H3 & H2 & e & He & HM).
      unfold balanced_day.
      rewrite !(holders_same (st_shifts st) (st_shifts st'))
        by (intros e' _; by rewrite Hout).
      split; [done|]. split; [done|]. exists e. split; [done|]. by rewrite Hout. }
  intros e x Hx. rewrite Hout by lia. apply Hrest. lia.
Qed.

(** Phase 2 fills every cell of the template days, and balances the
    paired ones. *)
Lemma phase2_post (employee_names : list string) (total_days : nat)
    (dwo : gmap nat Z) (st : gen_state) :
  NoDup employee_names → (6 ≤ length employee_names)%nat →
  nights_placed employee_names total_days (st_shifts st) dwo →
  phase2_inv employee_names total_days (st_shifts st) (Nat.min 28 total_days)
             (phase2 employee_names total_days st).
Proof.
  intros Hnd Hlen Hpl. unfold phase2.
  apply (foldl_range _ (phase2_inv employee_names total_days (st_shifts st)));
    [lia| |].
  - destruct Hpl as (Hwf & _). split; [done|]. split; [apply fills_refl|].
    split; [intros e x _ Hx; lia|]. split; [intros x Hx; lia|]. done.
  - intros x s Hx. apply (phase2_day_inv _ _ _ dwo); try done. lia.
Qed.

(** ** Phase 3: a cell left unset comes after two Nights *)

Lemma fills_names_weaken (l l' : list string) (W : nat → Z → Prop)
    (es es' : schedule) :
  (∀ e, e ∈ l → e ∈ l') → fills l W es es' → fills l' W es es'.
Proof.
  intros Hl H emp x.
  destruct (H emp x) as [?|(He & Hn & c & Hc & Hs)]; [by left|].
  right. eauto 10.
Qed.

Lemma fills_not_in (l : list string) (W : nat → Z → Prop) (es es' : schedule)
    (e : string) (x : nat) :
  fills l W es es' → e ∉ l → get_shift es' e x = get_shift es e x.
Proof. intros H He. destruct (H e x) as [?|(? & _)]; done. Qed.

Lemma phase3_cell_spec (employee_names : list string) (total_days d : nat)
    (st : gen_state) (emp : string) :
  rows_wf employee_names total_days (st_shifts st) → emp ∈ employee_names →
  (d < total_days)%nat →
  get_shift (st_shifts st) emp (d mod 28) ≠ None →
  let st1 := phase3_cell total_days d st emp in
  (st_shifts st1 = st_shifts st
   ∧ (get_shift (st_shifts st) emp d = None →
      get_shift (st_shifts st) emp (d - 1) = Some 3))
  ∨ (∃ c, st_shifts st1 = set_shift (st_shifts st) emp d (Some c)
          ∧ get_shift (st_shifts st) emp d = None
          ∧ (c = 3 → get_shift (st_shifts st) emp (d mod 28) = Some 3)).
Proof.
  intros Hwf Hemp Hd Htpl. unfold phase3_cell.
  set (es := st_shifts st) in *.
  destruct (get_shift es emp d) as [v|] eqn:Ecell; cbn [is_None_b].
  { left. split; [done|]. done. }
  destruct (get_shift es emp (d mod 28)) as [pattern_shift|] eqn:Ep; [|congruence].
  destruct (is_shift_viable es emp d (Some pattern_shift) total_days) eqn:Ev.
  { right. exists pattern_shift. split; [reflexivity|]. split; [done|].
    by intros ->. }
  destruct (first_viable es emp d total_days [2; 1; 3]) as [alt_shift|] eqn:Ef.
  - right. exists alt_shift. split; [reflexivity|]. split; [done|]. intros ->.
    exfalso. simpl in Ef.
    destruct (is_shift_viable es emp d (Some 2) total_days) eqn:E2; [done|].
    destruct (is_shift_viable es emp d (Some 1) total_days) eqn:E1; [done|].
    destruct (is_shift_viable es emp d (Some 3) total_days) eqn:E3; [|done].
    apply night_viable_evening in E3. congruence.
  - left. split; [done|]. intros _.
    apply (first_viable_None _ _ _ _ _ 2) in Ef; [|left].
    apply evening_refused in Ef; [tauto|]. by rewrite (Hwf emp Hemp).
Qed.

(** One day of phase 3. *)
Lemma phase3_day_spec (employee_names : list string) (total_days d : nat)
    (l : list string) (st : gen_state) :
  NoDup l → (∀ e, e ∈ l → e ∈ employee_names) →
  (28 ≤ d < total_days)%nat →
  rows_wf employee_names total_days (st_shifts st) →
  (∀ e, e ∈ employee_names → get_shift (st_shifts st) e (d mod 28) ≠ None) →
  let st' := foldl (phase3_cell total_days d) st l in
  rows_wf employee_names total_days (st_shifts st')
  ∧ fills l (λ x _, x = d) (st_shifts st) (st_shifts st')
  ∧ (∀ e, e ∈ l → get_shift (st_shifts st') e d = None →
          get_shift (st_shifts st') e (d - 1) = Some 3)
  ∧ (∀ e x, get_shift (st_shifts st') e x = Some 3 →
            get_shift (st_shifts st) e x = Some 3
            ∨ get_shift (st_shifts st) e (d mod 28) = Some 3).
Proof.
  intros Hl Hsub Hd. revert st Hl Hsub.
  induction l as [|emp l IH]; intros st Hl Hsub Hwf Htpl; simpl.
  { split; [done|]. split; [apply fills_refl|].
    split; [intros e He; by apply elem_of_nil in He|]. intros e x ?. by left. }
  apply NoDup_cons in Hl as [Hemp Hl].
  assert (Hin : emp ∈ employee_names) by (apply Hsub; left).
  assert (Hmod : (d mod 28 < 28)%nat) by (apply Nat.mod_upper_bound; lia).
  set (st1 := phase3_cell total_days d st emp).
  pose proof (phase3_cell_spec employee_names total_days d st emp Hwf Hin
                ltac:(lia) (Htpl emp Hin)) as Hcell.
  fold st1 in Hcell. cbv zeta in Hcell.
  assert (Hwf1 : rows_wf employee_names total_days (st_shifts st1)).
  { destruct Hcell as [[-> _]|(c & -> & _)]; [done|]. by apply rows_wf_set_shift. }
  assert (Hf1 : fills [emp] (λ x _, x = d) (st_shifts st) (st_shifts st1)).
  { destruct Hcell as [[-> _]|(c & -> & Hn & _)]; [apply fills_refl|].
    apply fills_set_shift; [left|done|done]. }
  assert (Hout1 : ∀ e x, x ≠ d →
            get_shift (st_shifts st1) e x = get_shift (st_shifts st) e x).
  { intros e x Hx. apply (fills_outside _ _ _ _ _ _ Hf1). by intros _. }
  destruct (IH st1 Hl) as (Hwf' & Hf' & Hleft' & Horig'); try done.
  { intros e He. apply Hsub. by right. }
  { intros e He. rewrite Hout1 by lia. by apply Htpl. }
  set (st' := foldl (phase3_cell total_days d) st1 l) in *.
  assert (Hout' : ∀ e x, x ≠ d →
            get_shift (st_shifts st') e x = get_shift (st_shifts st1) e x).
  { intros e x Hx. apply (fills_outside _ _ _ _ _ _ Hf'). by intros _. }
  split; [done|].
  split.
  { eapply fills_trans.
    - eapply fills_names_weaken; [|exact Hf1]. intros e He.
      apply list_elem_of_singleton in He as ->. left.
    - eapply fills_names_weaken; [|exact Hf']. intros e He. by right. }
  split.
  { intros e He Hn. apply elem_of_cons in He as [->|He]; [|by apply Hleft'].
    rewrite (fills_not_in _ _ _ _ _ _ Hf' Hemp) in Hn.
    rewrite Hout', Hout1 by lia.
    destruct Hcell as [[Heq Hc]|(c & Heq & _)].
    - apply Hc. by rewrite <- Heq.
    - rewrite Heq, (get_set_wf employee_names total_days) in Hn by (done || lia).
      by rewrite bool_decide_eq_true_2 in Hn. }
  intros e x Hx. destruct (Horig' e x Hx) as [H|H].
  - destruct Hcell as [[Heq _]|(c & Heq & _ & Hc)]; [left; by rewrite <- Heq|].
    rewrite Heq, (get_set_wf employee_names total_days) in H by (done || lia).
    case_bool_decide as Hk; [|by left].
    destruct Hk as [<- <-]. right. apply Hc. by injection H.
  - right. by rewrite <- Hout1 by lia.
Qed.

Lemma phase3_step_inv (employee_names : list string) (total_days : nat)
    (es2 : schedule) (k : nat) (st : gen_state) :
  NoDup employee_names → (28 ≤ k < total_days)%nat →
  (∀ e x, e ∈ employee_names → (x < 28)%nat → get_shift es2 e x ≠ None) →
  phase3_inv employee_names total_days es2 k st →
  phase3_inv employee_names total_days es2 (S k)
             (foldl (phase3_cell total_days k) st employee_names).
Proof.
  intros Hnd Hk Hfull (Hwf & Hf & Horig & Hleft & Hrest).
  assert (Hmod : (k mod 28 < 28)%nat) by (apply Nat.mod_upper_bound; lia).
  assert (Htpl : ∀ e x, (x < 28)%nat →
            get_shift (st_shifts st) e x = get_shift es2 e x).
  { intros e x Hx. apply (fills_outside _ _ _ _ _ _ Hf). intros _. lia. }
  destruct (phase3_day_spec employee_names total_days k employee_names st)
    as (Hwf' & Hf' & Hleft' & Horig'); try done.
  { intros e He. rewrite Htpl by done. by apply Hfull. }
  set (st' := foldl (phase3_cell total_days k) st employee_names) in *.
  assert (Hout : ∀ e x, x ≠ k →
            get_shift (st_shifts st') e x = get_shift (st_shifts st) e x).
  { intros e x Hx. apply (fills_outside _ _ _ _ _ _ Hf'). by intros _. }
  split; [done|].
  split.
  { eapply fills_trans; [exact Hf|]. eapply fills_weaken; [|exact Hf'].
    intros x c ->. simpl. lia. }
  split.
  { intros e x He Hx. destruct (Horig' e x Hx) as [H|H].
    - by apply Horig.
    - right. exists (k mod 28)%nat. split; [done|]. by rewrite <- Htpl. }
  split.
  { intros e x He Hx Hn. destruct (decide (x = k)) as [->|Hne].
    - by apply Hleft'.
    - rewrite Hout in Hn by done. rewrite Hout by lia. apply Hleft; [done|lia|done]. }
  intros e x Hx. rewrite Hout by lia. apply Hrest. lia.
Qed.

Lemma phase3_post (employee_names : list string) (total_days : nat)
    (st : gen_state) :
  NoDup employee_names →
  rows_wf employee_names total_days (st_shifts st) →
  (∀ e x, e ∈ employee_names → (x < Nat.min 28 total_days)%nat →
          get_shift (st_shifts st) e x ≠ None) →
  phase3_inv employee_names total_days (st_shifts st) (Nat.max 28 total_days)
             (phase3 employee_names total_days st).
Proof.
  intros Hnd Hwf Hfull. unfold phase3.
  assert (Hinit : phase3_inv employee_names total_days (st_shifts st) 28 st).
  { split; [done|]. split; [apply fills_refl|]. split; [intros e x _ ?; by left|].
    split; [intros e x _ ?; lia|]. done. }
  destruct (decide (total_days ≤ 28)%nat) as [Hle|Hgt].
  - replace (range 28 total_days) with (@nil nat).
    + simpl. by replace (Nat.max 28 total_days) with 28%nat by lia.
    + unfold range. by replace (total_days - 28)%nat with 0%nat by lia.
  - replace (Nat.max 28 total_days) with total_days by lia.
    apply (foldl_range _ (phase3_inv employee_names total_days (st_shifts st)));
      [lia|done|].
    intros x s Hx. apply phase3_step_inv; try done.
    intros e y He Hy. apply Hfull; [done|lia].
Qed.

Lemma even_pair (y : nat) : ∃ j, y = (2 * j)%nat ∨ y = (2 * j + 1)%nat.
Proof. destruct (even_or_odd y) as [[q ->]|[q ->]]; exists q; auto. Qed.

(** Phases 0 to 3 on the empty matrix. *)
Lemma phases_0_to_3_post (employee_names : list string) (total_days : nat)
    (rng : list nat) :
  NoDup employee_names → (6 ≤ length employee_names)%nat →
  let st3 :=
    phase3 employee_names total_days
      (phase2 employee_names total_days
         (phase1 employee_names total_days
            (assign_night_shift_pairs employee_names total_days
               (initial_state employee_names total_days rng)))) in
  rows_wf employee_names total_days (st_shifts st3)
  ∧ block_or_full employee_names total_days (st_shifts st3)
  ∧ ((28 ≤ total_days)%nat →
     ∀ x, (x < 28)%nat → balanced_day employee_names (st_shifts st3) x).
Proof.
  intros Hnd Hlen.
  set (st0 := assign_night_shift_pairs _ _ _).
  pose proof (assign_night_shift_pairs_post employee_names total_days rng Hnd Hlen)
    as H0. fold st0 in H0. cbv zeta in H0.
  pose proof (phase1_nights_placed employee_names total_days st0 Hnd H0) as H1.
  cbv zeta in H1. set (st1 := phase1 employee_names total_days st0) in *.
  pose proof (phase2_post employee_names total_days (st_offs st1) st1 Hnd Hlen H1)
    as (Hwf2 & Hf2 & Hfull2 & Hbal2 & _).
  set (st2 := phase2 employee_names total_days st1) in *.
  destruct H1 as (Hwf1 & Hno1 & Hone1 & Hfol1 & Hpair1 & Hoff1).
  assert (Hfol2 : night_followed employee_names total_days (st_shifts st2)).
  { by apply (template_writes_night_followed _ _ (st_shifts st1)). }
  assert (Hpair2 : nights_paired employee_names (paired_days total_days)
                                 (st_shifts st2)).
  { eapply fills_nights_paired; [|exact Hf2|done]. intros x (_ & [?|[?|[_ ?]]]); done. }
  pose proof (phase3_post employee_names total_days st2 Hnd Hwf2
                ltac:(intros e x He Hx; by apply Hfull2))
    as (Hwf3 & Hf3 & Horig3 & Hleft3 & _).
  set (st3 := phase3 employee_names total_days st2) in *.
  pose proof (paired_days_bounds total_days) as Hb. fold (paired_days total_days) in Hb.
  assert (Hpe : ∃ q, paired_days total_days = (2 * q)%nat)
    by (by exists (total_days / 2)%nat).
  assert (Htpl : ∀ e x, (x < 28)%nat →
            get_shift (st_shifts st3) e x = get_shift (st_shifts st2) e x).
  { intros e x Hx. apply (fills_outside _ _ _ _ _ _ Hf3). intros _. lia. }
  split; [done|].
  split.
  - intros e He.
    destruct (decide (total_days < 28)%nat) as [Hlt|Hge].
    { right. intros x Hx. rewrite Htpl by lia. apply Hfull2; [done|lia]. }
    destruct (decide (Exists (λ y, get_shift (st_shifts st2) e y = Some 3)
                             (seq 0 28))) as [Hex|Hnex].
    + left. apply Exists_exists in Hex as (y & Hy & HyN).
      apply elem_of_seq in Hy. destruct (even_pair y) as [j Hj].
      exists j. destruct Hpe as [q Hq].
      assert (Hj28 : (2 * j + 1 < 28)%nat) by lia.
      split; [done|]. split; [lia|].
      rewrite !Htpl by lia.
      pose proof (Hpair2 e j He ltac:(lia)) as Hp.
      destruct Hj as [->| ->]; tauto.
    + right. intros x Hx Hn.
      destruct (decide (x < 28)%nat) as [Hx28|Hx28].
      { rewrite Htpl in Hn by done. revert Hn. apply Hfull2; [done|lia]. }
      pose proof (Hleft3 e x He ltac:(lia) Hn) as HN3.
      destruct (Horig3 e (x - 1)%nat He HN3) as [HN2|(y & Hy & HyN)].
      * destruct (Hfol2 e (x - 1)%nat He ltac:(lia) HN2) as [H|H];
          replace (x - 1 + 1)%nat with x in H by lia;
          rewrite (fills_Some _ _ _ _ _ _ _ Hf3 H) in Hn; done.
      * apply Hnex. apply Exists_exists. exists y. split; [|done].
        apply elem_of_seq. lia.
  - intros HT x Hx. destruct Hpe as [q Hq].
    destruct (Hbal2 x ltac:(lia) ltac:(lia)) as (H3 & H2 & e & He & HM).
    unfold balanced_day.
    rewrite !(holders_same (st_shifts st2) (st_shifts st3))
      by (intros e' _; by rewrite Htpl).
    split; [done|]. split; [done|]. exists e. split; [done|]. by rewrite Htpl.
Qed.

(** ** Phases 4 and 4.5: cells are overwritten, never unset *)

Lemma rewrites_refl (K : nat) (es : schedule) : rewrites K es es.
Proof. intros e x. by left. Qed.

Lemma rewrites_trans (K : nat) (es1 es2 es3 : schedule) :
  rewrites K es1 es2 → rewrites K es2 es3 → rewrites K es1 es3.
Proof.
  intros H12 H23 e x. destruct (H23 e x) as [->|H]; [apply H12|by right].
Qed.

Lemma rewrites_set_shift (K : nat) (es : schedule) (emp : string) (day : nat)
    (c : Z) :
  (K ≤ day)%nat → rewrites K es (set_shift es emp day (Some c)).
Proof.
  intros HK e x. rewrite get_shift_set_shift. case_bool_decide as Hk; [|by left].
  destruct Hk as (_ & <- & _). right. eauto.
Qed.

Lemma move_up_to_rewrites (K total_days day : nat) (origin dest : Z)
    (quota : nat) (st : gen_state) (candidates : list string) :
  (K ≤ day)%nat →
  rewrites K (st_shifts st)
           (st_shifts (fst (move_up_to total_days day origin dest quota st
                                       candidates))).
Proof.
  intros HK. revert quota st.
  induction candidates as [|x candidates IH]; intros quota st; simpl;
    [apply rewrites_refl|].
  destruct quota as [|quota]; [apply rewrites_refl|].
  destruct (is_shift_viable (st_shifts st) x day (Some dest) total_days); simpl;
    [|apply IH].
  eapply rewrites_trans; [|apply IH]. simpl. by apply rewrites_set_shift.
Qed.

Lemma balance_iteration_rewrites (K : nat) (employee_names : list string)
    (total_days day : nat) (st : gen_state) :
  (K ≤ day)%nat →
  rewrites K (st_shifts st)
           (st_shifts (fst (balance_iteration employee_names total_days day st))).
Proof.
  intros HK. unfold balance_iteration.
  destruct (balance_evening _ _ _ _) as [st1 ce] eqn:E1.
  destruct (balance_night _ _ _ _) as [st2 cn] eqn:E2. simpl.
  assert (H1 : rewrites K (st_shifts st) (st_shifts st1)).
  { revert E1. unfold balance_evening.
    destruct (_ <? _).
    - intros E. apply (f_equal fst) in E. simpl in E. rewrite <- E.
      by apply move_up_to_rewrites.
    - destruct (_ <? _).
      + intros E. apply (f_equal fst) in E. simpl in E. rewrite <- E.
        by apply move_up_to_rewrites.
      + intros [= <- _]. apply rewrites_refl. }
  eapply rewrites_trans; [exact H1|].
  revert E2. unfold balance_night. destruct (_ <? _).
  - intros E. apply (f_equal fst) in E. simpl in E. rewrite <- E.
    by apply move_up_to_rewrites.
  - intros [= <- _]. apply rewrites_refl.
Qed.

Lemma balance_day_rewrites (K iterations : nat) (employee_names : list string)
    (total_days day : nat) (st : gen_state) :
  (K ≤ day)%nat →
  rewrites K (st_shifts st)
           (st_shifts (balance_day iterations employee_names total_days day st)).
Proof.
  intros HK. revert st.
  induction iterations as [|n IH]; intros st; simpl; [apply rewrites_refl|].
  pose proof (balance_iteration_rewrites K employee_names total_days day st HK) as H.
  destruct (balance_iteration _ _ _ _) as [st' made]. simpl in H.
  destruct made; [|done]. eapply rewrites_trans; [exact H|apply IH].
Qed.

Lemma dict_keys_NoDup (seen l : list string) :
  NoDup l → (∀ x, x ∈ l → x ∉ seen) → dict_keys seen l = l.
Proof.
  revert seen. induction l as [|x l IH]; intros seen Hnd Hs; simpl; [done|].
  apply NoDup_cons in Hnd as [Hx Hnd].
  rewrite bool_decide_eq_false_2 by (apply Hs; left).
  f_equal. apply IH; [done|]. intros y Hy Hin.
  apply elem_of_cons in Hin as [->|Hin]; [done|]. apply (Hs y); [by right|done].
Qed.

Lemma assigned_employees_holders (es : schedule) (employee_names : list string)
    (day : nat) (s : Z) :
  NoDup employee_names →
  assigned_employees es employee_names day s
  = holders es employee_names day (λ c, cell_is c s).
Proof.
  intros Hnd. unfold assigned_employees, holders.
  rewrite dict_keys_NoDup; [done|done|]. intros x _ H. by apply elem_of_nil in H.
Qed.

(** On a balanced day the balancer changes nothing. *)
Lemma balance_day_balanced (iterations : nat) (employee_names : list string)
    (total_days day : nat) (st : gen_state) :
  NoDup employee_names → balanced_day employee_names (st_shifts st) day →
  balance_day iterations employee_names total_days day st = st.
Proof.
  intros Hnd (H3 & H2 & _). destruct iterations as [|n]; simpl; [done|].
  unfold balance_iteration, balance_evening, balance_night.
  rewrite !assigned_employees_holders by done. rewrite H2, H3.
  change (target_of 2) with 2. change (target_of 3) with 1. simpl. done.
Qed.

Lemma balanced_day_rewrites (K : nat) (employee_names : list string)
    (es es' : schedule) (x : nat) :
  rewrites K es es' → (x < K)%nat →
  balanced_day employee_names es x → balanced_day employee_names es' x.
Proof.
  intros Hr Hx (H3 & H2 & e & He & HM).
  assert (Hsame : ∀ e', get_shift es' e' x = get_shift es e' x).
  { intros e'. destruct (Hr e' x) as [?|[? _]]; [done|lia]. }
  unfold balanced_day.
  rewrite !(holders_same es es') by (intros e' _; by rewrite Hsame).
  split; [done|]. split; [done|]. exists e. split; [done|]. by rewrite Hsame.
Qed.

(** Phase 4 leaves the balanced days below [K] alone, and overwrites
    cells elsewhere. *)
Lemma phase4_rewrites (K : nat) (employee_names : list string)
    (total_days : nat) (st : gen_state) :
  NoDup employee_names →
  (∀ x, (x < K)%nat → balanced_day employee_names (st_shifts st) x) →
  rewrites K (st_shifts st) (st_shifts (phase4 employee_names total_days st)).
Proof.
  intros Hnd Hbal. unfold phase4.
  set (st0 := {| st_shifts := st_shifts st; st_counts := _;
                 st_offs := st_offs st; st_rng := st_rng st |}).
  apply (foldl_invariant (λ s, rewrites K (st_shifts st) (st_shifts s))).
  - apply rewrites_refl.
  - intros s day _ Hs. destruct (decide (day < K)%nat) as [Hlt|Hge].
    + rewrite balance_day_balanced; [done|done|].
      apply (balanced_day_rewrites K _ (st_shifts st)); auto.
    + eapply rewrites_trans; [exact Hs|]. apply balance_day_rewrites. lia.
Qed.

Lemma presence_fix_rewrites (K : nat) (employee_names : list string)
    (total_days day : nat) (dest src1 src2 tie : Z) (st st' : gen_state) :
  (K ≤ day)%nat →
  presence_fix employee_names total_days day dest src1 src2 tie st = Some st' →
  rewrites K (st_shifts st) (st_shifts st').
Proof.
  intros HK. unfold presence_fix.
  destruct (filter _ (sort_by_key _ _)) as [|[emp origin] rest]; [done|].
  intros [= <-]. simpl. by apply rewrites_set_shift.
Qed.

Lemma presence_iteration_rewrites (K : nat) (employee_names : list string)
    (total_days day : nat) (st : gen_state) :
  (K ≤ day)%nat →
  rewrites K (st_shifts st)
           (st_shifts (fst (presence_iteration employee_names total_days day st))).
Proof.
  intros HK. unfold presence_iteration.
  destruct (_ =? 0); [apply rewrites_refl|].
  destruct (if _ =? 0 then presence_fix _ _ _ 2 _ _ _ _ else None) as [st1|] eqn:E1.
  { simpl. destruct (_ =? 0); [|done].
    by apply (presence_fix_rewrites K) in E1. }
  destruct (if _ =? 0 then presence_fix _ _ _ 1 _ _ _ _ else None) as [st2|] eqn:E2.
  { simpl. destruct (count_day _ _ _ 1 =? 0); [|done].
    by apply (presence_fix_rewrites K) in E2. }
  destruct (if _ =? 0 then presence_fix _ _ _ 3 _ _ _ _ else None) as [st3|] eqn:E3.
  { simpl. destruct (count_day _ _ _ 3 =? 0); [|done].
    by apply (presence_fix_rewrites K) in E3. }
  apply rewrites_refl.
Qed.

Lemma presence_day_rewrites (K iterations : nat) (employee_names : list string)
    (total_days day : nat) (st : gen_state) :
  (K ≤ day)%nat →
  rewrites K (st_shifts st)
           (st_shifts (presence_day iterations employee_names total_days day st)).
Proof.
  intros HK. revert st.
  induction iterations as [|n IH]; intros st; simpl; [apply rewrites_refl|].
  pose proof (presence_iteration_rewrites K employee_names total_days day st HK)
    as H.
  destruct (presence_iteration _ _ _ _) as [st' needs]. simpl in H.
  destruct needs; [|done]. eapply rewrites_trans; [exact H|apply IH].
Qed.

(** On a balanced day every shift is present, and phase 4.5 changes
    nothing. *)
Lemma presence_day_balanced (iterations : nat) (employee_names : list string)
    (total_days day : nat) (st : gen_state) :
  balanced_day employee_names (st_shifts st) day →
  presence_day iterations employee_names total_days day st = st.
Proof.
  intros (H3 & H2 & e & He & HM). destruct iterations as [|n]; simpl; [done|].
  unfold presence_iteration. rewrite !count_day_holders, H2, H3.
  assert (H1 : (0 < length (holders (st_shifts st) employee_names day
                                    (λ c, cell_is c 1)))%nat).
  { assert (Hin : e ∈ holders (st_shifts st) employee_names day (λ c, cell_is c 1)).
    { apply elem_of_holders. split; [|done]. by apply cell_is_Some. }
    destruct (holders (st_shifts st) employee_names day (λ c, cell_is c 1));
      [by apply elem_of_nil in Hin|simpl; lia]. }
  destruct (Z.eqb_spec (Z.of_nat (length (holders (st_shifts st) employee_names day
                                                  (λ c, cell_is c 1)))
                        + Z.of_nat 2 + Z.of_nat 1) 0) as [|_]; [lia|].
  change (Z.of_nat 2 =? 0) with false. change (Z.of_nat 1 =? 0) with false.
  destruct (Z.eqb_spec (Z.of_nat (length (holders (st_shifts st) employee_names day
                                                  (λ c, cell_is c 1)))) 0)
    as [|_]; [lia|].
  done.
Qed.

Lemma phase45_rewrites (K : nat) (employee_names : list string)
    (total_days : nat) (st : gen_state) :
  (∀ x, (x < K)%nat → balanced_day employee_names (st_shifts st) x) →
  rewrites K (st_shifts st) (st_shifts (phase45 employee_names total_days st)).
Proof.
  intros Hbal. unfold phase45.
  apply (foldl_invariant (λ s, rewrites K (st_shifts st) (st_shifts s))).
  - apply rewrites_refl.
  - intros s day _ Hs. destruct (decide (day < K)%nat) as [Hlt|Hge].
    + rewrite presence_day_balanced; [done|].
      apply (balanced_day_rewrites K _ (st_shifts st)); auto.
    + eapply rewrites_trans; [exact Hs|]. apply presence_day_rewrites. lia.
Qed.

Lemma block_or_full_rewrites (K : nat) (employee_names : list string)
    (total_days : nat) (es es' : schedule) :
  rewrites K es es' → ((28 ≤ total_days)%nat → (28 ≤ K)%nat) →
  block_or_full employee_names total_days es →
  block_or_full employee_names total_days es'.
Proof.
  intros Hr HK Hb e He. destruct (Hb e He) as [(j & Hj & HT & H0 & H1)|Hfull].
  - left. exists j. specialize (HK HT).
    assert (Hsame : ∀ x, (x < 28)%nat → get_shift es' e x = get_shift es e x).
    { intros x Hx. destruct (Hr e x) as [?|[? _]]; [done|lia]. }
    rewrite !Hsame by lia. done.
  - right. intros x Hx. destruct (Hr e x) as [->|(_ & c & ->)]; [by apply Hfull|done].
Qed.

(** ** Phase 4.6 raises nothing *)

Lemma has_nn_block (es : schedule) (e : string) (total_days d : nat) :
  (d + 1 < total_days)%nat →
  get_shift es e d = Some 3 → get_shift es e (d + 1) = Some 3 →
  has_nn (row_of es e) total_days = true.
Proof.
  intros Hd H0 H1. unfold has_nn. apply existsb_exists. exists d. split.
  - unfold range. apply in_seq. lia.
  - unfold get_shift in *. by rewrite H0, H1.
Qed.

Lemma block_or_full_row_ok (employee_names : list string) (total_days : nat)
    (es : schedule) (e : string) :
  block_or_full employee_names total_days es → e ∈ employee_names →
  row_ok total_days es e.
Proof.
  intros Hb He. destruct (Hb e He) as [(j & Hj & HT & H0 & H1)|Hfull].
  - left. apply (has_nn_block es e total_days (2 * j)); [lia|done|done].
  - by right.
Qed.

(** An employee whose row is in order is handled without an error, and
    the rows stay in order. *)
Lemma phase46_emp_ok (total_days : nat) (st : gen_state) (emp : string) :
  row_ok total_days (st_shifts st) emp →
  ∃ st', phase46_emp total_days st emp = inr st'
         ∧ ∀ e, row_ok total_days (st_shifts st) e →
                row_ok total_days (st_shifts st') e.
Proof.
  intros Hok. unfold phase46_emp.
  destruct (has_nn (row_of (st_shifts st) emp) total_days) eqn:Enn; [by eexists|].
  destruct Hok as [Hnn|Hfull]; [congruence|].
  destruct (find _ _) as [day|] eqn:Ef; [|by eexists].
  apply find_seq_first in Ef as (Hday & _ & _).
  destruct (get_shift (st_shifts st) emp day) as [o1|] eqn:E1;
    [|by destruct (Hfull day ltac:(lia))].
  destruct (get_shift (st_shifts st) emp (day + 1)) as [o2|] eqn:E2;
    [|by destruct (Hfull (day + 1)%nat ltac:(lia))].
  simpl. eexists. split; [done|]. simpl. intros e He.
  destruct (decide (e = emp)) as [->|Hne].
  - right. intros x Hx. rewrite !get_shift_set_shift.
    repeat case_bool_decide; try done. by apply Hfull.
  - unfold row_ok, get_shift in *.
    by rewrite !row_of_set_shift_ne by done.
Qed.

Lemma phase46_ok (total_days : nat) (l : list string) (st : gen_state) :
  (∀ e, e ∈ l → row_ok total_days (st_shifts st) e) →
  ∃ st', phase46 total_days st l = inr st'.
Proof.
  revert st. induction l as [|emp l IH]; intros st Hok; simpl; [by eexists|].
  destruct (phase46_emp_ok total_days st emp (Hok emp ltac:(left)))
    as (st' & -> & Hkeep).
  apply IH. intros e He. apply Hkeep, Hok. by right.
Qed.

(** Phases 0 to 4.5 on the empty matrix leave every row in order. *)
Lemma phases_0_to_45_rows_ok (employee_names : list string) (total_days : nat)
    (rng : list nat) :
  NoDup employee_names → (6 ≤ length employee_names)%nat →
  ∀ e, e ∈ employee_names →
    row_ok total_days
           (st_shifts (phases_0_to_45 employee_names total_days rng)) e.
Proof.
  intros Hnd Hlen e He. unfold phases_0_to_45. cbv zeta.
  pose proof (phases_0_to_3_post employee_names total_days rng Hnd Hlen)
    as (Hwf3 & Hb3 & Hbal3).
  set (st3 := phase3 _ _ _) in *.
  set (K := if decide (28 ≤ total_days)%nat then 28%nat else 0%nat).
  assert (HbalK : ∀ x, (x < K)%nat → balanced_day employee_names (st_shifts st3) x).
  { intros x Hx. subst K. destruct (decide (28 ≤ total_days)%nat); [|lia].
    by apply Hbal3. }
  assert (HK : (28 ≤ total_days)%nat → (28 ≤ K)%nat).
  { intros HT. subst K. by rewrite decide_True. }
  pose proof (phase4_rewrites K employee_names total_days st3 Hnd HbalK) as H4.
  set (st4 := phase4 employee_names total_days st3) in *.
  assert (HbalK4 : ∀ x, (x < K)%nat →
            balanced_day employee_names (st_shifts st4) x).
  { intros x Hx. apply (balanced_day_rewrites K _ (st_shifts st3)); auto. }
  pose proof (phase45_rewrites K employee_names total_days st4 HbalK4) as H45.
  apply (block_or_full_row_ok employee_names); [|done].
  apply (block_or_full_rewrites K _ _ (st_shifts st4)); [done|done|].
  by apply (block_or_full_rewrites K _ _ (st_shifts st3)).
Qed.

(** C5. For every roster of at least six distinct employee names and
    every [total_days >= 1], [generate_optimized_shifts] returns
    normally, whatever the random draws: neither the [ValueError] of
    its first statement nor the [KeyError] of
    [shift_counts[emp][None]] in phase 4.6 is raised.  When phase 4.6
    converts a window of an employee, that row holds no unset cell:
    the employees whose rows keep unset cells have a pair of Nights
    in the first 28 days, and phase 4.6 skips them. *)
Theorem generate_returns_normally (employee_names : list string)
    (total_days : nat) (rng : list nat) :
  NoDup employee_names → (6 ≤ length employee_names)%nat →
  (1 ≤ total_days)%nat →
  ∃ es, generate_optimized_shifts employee_names total_days rng = inr es.
Proof.
  intros Hnd Hlen _. unfold generate_optimized_shifts, phases_0_to_5.
  destruct (Z.ltb_spec (Z.of_nat (length employee_names)) min_required_employees)
    as [Hlt|_].
  { change min_required_employees with 6 in Hlt. lia. }
  destruct (phase46_ok total_days employee_names
              (phases_0_to_45 employee_names total_days rng)
              (phases_0_to_45_rows_ok employee_names total_days rng Hnd Hlen))
    as [st' ->].
  by eexists.
Qed.

Lemma generate_returns_normally_witness :
  ∃ es, generate_optimized_shifts roster6 30 [3; 1; 4]%nat = inr es.
Proof.
  apply generate_returns_normally.
  - by apply (bool_decide_unpack _).
  - simpl. lia.
  - lia.
Defined.

(** * Further properties of the engine *)

(** ** The phases of the generation, one by one *)

Lemma initial_state_wf (employee_names : list string) (total_days : nat)
    (rng : list nat) :
  rows_wf employee_names total_days
          (st_shifts (initial_state employee_names total_days rng))
  ∧ offs_ok employee_names
            (st_shifts (initial_state employee_names total_days rng))
            (st_offs (initial_state employee_names total_days rng)).
Proof.
  pose proof (pairs_inv_initial employee_names total_days rng) as H.
  cbv zeta in H. unfold pairs_inv in H.
  cbn [ps_shifts ps_offs ps_last_pair_end ps_night_assigned] in H. tauto.
Qed.

(** X1.  Phase 0 on the empty matrix of a roster of six distinct names
    or more: every day of the period, but the last day when the period
    has an odd number of days, has exactly one employee on Night; the
    Nights of an employee are the pairs of days (2j, 2j+1); a Night is
    followed, inside the period, by a Night or by Off; and the cells
    hold Night, Off or nothing. *)
Theorem phase0_night_coverage (employee_names : list string)
    (total_days : nat) (rng : list nat) :
  NoDup employee_names → (6 ≤ length employee_names)%nat →
  let es :=
    st_shifts (assign_night_shift_pairs employee_names total_days
                 (initial_state employee_names total_days rng)) in
  (∀ x, (x < paired_days total_days)%nat →
        length (holders es employee_names x (λ c, cell_is c 3)) = 1%nat)
  ∧ nights_paired employee_names (paired_days total_days) es
  ∧ night_followed employee_names total_days es
  ∧ night_off_only employee_names es.
Proof.
  intros Hnd Hlen.
  pose proof (assign_night_shift_pairs_post employee_names total_days rng Hnd Hlen)
    as (_ & Hno & Hone & Hfol & Hpair & _).
  done.
Qed.

Lemma phase0_night_coverage_witness :
  let es :=
    st_shifts (assign_night_shift_pairs roster6 7 (initial_state roster6 7 [])) in
  (∀ x, (x < paired_days 7)%nat →
        length (holders es roster6 x (λ c, cell_is c 3)) = 1%nat)
  ∧ nights_paired roster6 (paired_days 7) es
  ∧ night_followed roster6 7 es
  ∧ night_off_only roster6 es.
Proof.
  apply phase0_night_coverage.
  - by apply (bool_decide_unpack _).
  - simpl. lia.
Defined.

(** X2.  Phase 1 writes nothing but Off, and only into unset cells;
    started on a matrix where no day has two employees Off and where a
    day counted without Off has none, it leaves no day with two
    employees Off. *)
Theorem phase1_only_adds_off (employee_names : list string)
    (total_days : nat) (st : gen_state) :
  NoDup employee_names →
  rows_wf employee_names total_days (st_shifts st) →
  offs_ok employee_names (st_shifts st) (st_offs st) →
  let st' := phase1 employee_names total_days st in
  fills employee_names (λ _ c, c = 0) (st_shifts st) (st_shifts st')
  ∧ (∀ x, (length (holders (st_shifts st') employee_names x
                           (λ c, cell_is c 0)) ≤ 1)%nat)
  ∧ rows_wf employee_names total_days (st_shifts st').
Proof.
  intros Hnd Hwf Hoff.
  destruct (phase1_inv employee_names total_days st Hnd Hwf Hoff)
    as (Hwf' & Hf & Hoff').
  split; [done|]. split; [|done]. intros x. apply Hoff'.
Qed.

Lemma phase1_only_adds_off_witness :
  let st := initial_state roster6 9 [4; 1]%nat in
  let st' := phase1 roster6 9 st in
  fills roster6 (λ _ c, c = 0) (st_shifts st) (st_shifts st')
  ∧ (∀ x, (length (holders (st_shifts st') roster6 x (λ c, cell_is c 0)) ≤ 1)%nat)
  ∧ rows_wf roster6 9 (st_shifts st').
Proof.
  apply phase1_only_adds_off.
  - by apply (bool_decide_unpack _).
  - apply initial_state_wf.
  - apply initial_state_wf.
Defined.

(** X3.  After phases 0, 1 and 2 on a roster of six distinct names or
    more, no cell of the first 28 days (of the whole period when it is
    shorter) is unset, and each of those days that holds a Night pair
    has exactly one Night, exactly two Evenings and at least one
    Morning. *)
Theorem phase2_fills_template (employee_names : list string)
    (total_days : nat) (rng : list nat) :
  NoDup employee_names → (6 ≤ length employee_names)%nat →
  let es :=
    st_shifts (phase2 employee_names total_days
                 (phase1 employee_names total_days
                    (assign_night_shift_pairs employee_names total_days
                       (initial_state employee_names total_days rng)))) in
  (∀ e x, e ∈ employee_names → (x < Nat.min 28 total_days)%nat →
          get_shift es e x ≠ None)
  ∧ (∀ x, (x < Nat.min 28 total_days)%nat → (x < paired_days total_days)%nat →
          balanced_day employee_names es x).
Proof.
  intros Hnd Hlen.
  pose proof (assign_night_shift_pairs_post employee_names total_days rng Hnd Hlen)
    as H0. cbv zeta in H0.
  pose proof (phase1_nights_placed employee_names total_days _ Hnd H0) as H1.
  cbv zeta in H1.
  pose proof (phase2_post employee_names total_days _ _ Hnd Hlen H1)
    as (_ & _ & Hfull & Hbal & _).
  done.
Qed.

Lemma phase2_fills_template_witness :
  let es :=
    st_shifts (phase2 roster6 30
                 (phase1 roster6 30
                    (assign_night_shift_pairs roster6 30
                       (initial_state roster6 30 [2; 7; 1]%nat)))) in
  (∀ e x, e ∈ roster6 → (x < Nat.min 28 30)%nat → get_shift es e x ≠ None)
  ∧ (∀ x, (x < Nat.min 28 30)%nat → (x < paired_days 30)%nat →
          balanced_day roster6 es x).
Proof.
  apply phase2_fills_template.
  - by apply (bool_decide_unpack _).
  - simpl. lia.
Defined.

(** What phases 0 to 2 hand over to phase 3. *)
Lemma phases_0_to_2_template (employee_names : list string) (total_days : nat)
    (rng : list nat) :
  NoDup employee_names → (6 ≤ length employee_names)%nat →
  let es :=
    st_shifts (phase2 employee_names total_days
                 (phase1 employee_names total_days
                    (assign_night_shift_pairs employee_names total_days
                       (initial_state employee_names total_days rng)))) in
  rows_wf employee_names total_days es
  ∧ ∀ e x, e ∈ employee_names → (x < Nat.min 28 total_days)%nat →
           get_shift es e x ≠ None.
Proof.
  intros Hnd Hlen.
  pose proof (assign_night_shift_pairs_post employee_names total_days rng Hnd Hlen)
    as H0. cbv zeta in H0.
  pose proof (phase1_nights_placed employee_names total_days _ Hnd H0) as H1.
  cbv zeta in H1.
  pose proof (phase2_post employee_names total_days _ _ Hnd Hlen H1)
    as (Hwf & _ & Hfull & _).
  done.
Qed.

(** A cell that [phase3_cell] leaves unset comes after two Nights. *)
Lemma phase3_cell_left_unset (employee_names : list string) (total_days d : nat)
    (st : gen_state) (emp : string) :
  rows_wf employee_names total_days (st_shifts st) → emp ∈ employee_names →
  (d < total_days)%nat →
  get_shift (st_shifts st) emp (d mod 28) ≠ None →
  get_shift (st_shifts (phase3_cell total_days d st emp)) emp d = None →
  st_shifts (phase3_cell total_days d st emp) = st_shifts st
  ∧ (2 ≤ d)%nat
  ∧ get_shift (st_shifts st) emp (d - 2) = Some 3
  ∧ get_shift (st_shifts st) emp (d - 1) = Some 3.
Proof.
  intros Hwf Hemp Hd Htpl. unfold phase3_cell.
  assert (Hset : ∀ c, get_shift (st_shifts (assign_shift st emp d c)) emp d ≠ None).
  { intros c. simpl. rewrite (get_set_wf employee_names total_days) by done.
    by rewrite bool_decide_eq_true_2. }
  destruct (get_shift (st_shifts st) emp d) as [v|] eqn:Ecell; cbn [is_None_b].
  { intros H. congruence. }
  destruct (get_shift (st_shifts st) emp (d mod 28)) as [pattern_shift|] eqn:Ep;
    [|congruence].
  destruct (is_shift_viable (st_shifts st) emp d (Some pattern_shift) total_days).
  { intros H. by apply Hset in H. }
  destruct (first_viable (st_shifts st) emp d total_days [2; 1; 3])
    as [alt_shift|] eqn:Ef.
  { intros H. by apply Hset in H. }
  intros _. split; [done|].
  apply (first_viable_None _ _ _ _ _ 2) in Ef; [|left].
  apply evening_refused in Ef; [done|]. by rewrite (Hwf emp Hemp).
Qed.

Lemma phase3_day_left_unset (employee_names : list string) (total_days d : nat)
    (l : list string) (st : gen_state) :
  NoDup l → (∀ e, e ∈ l → e ∈ employee_names) →
  (28 ≤ d < total_days)%nat →
  rows_wf employee_names total_days (st_shifts st) →
  (∀ e, e ∈ employee_names → get_shift (st_shifts st) e (d mod 28) ≠ None) →
  let es' := st_shifts (foldl (phase3_cell total_days d) st l) in
  ∀ e, e ∈ l → get_shift es' e d = None →
       get_shift es' e (d - 2) = Some 3 ∧ get_shift es' e (d - 1) = Some 3.
Proof.
  intros Hl Hsub Hd. revert st Hl Hsub.
  induction l as [|emp l IH]; intros st Hl Hsub Hwf Htpl; simpl.
  { intros e He. by apply elem_of_nil in He. }
  apply NoDup_cons in Hl as [Hemp Hl].
  assert (Hin : emp ∈ employee_names) by (apply Hsub; left).
  assert (Hmod : (d mod 28 < 28)%nat) by (apply Nat.mod_upper_bound; lia).
  set (st1 := phase3_cell total_days d st emp).
  pose proof (phase3_day_spec employee_names total_days d [emp] st
                ltac:(apply NoDup_singleton)
                ltac:(intros e He; by apply list_elem_of_singleton in He as ->)
                Hd Hwf Htpl) as (Hwf1 & Hf1 & _).
  cbn [foldl] in Hwf1, Hf1. fold st1 in Hwf1, Hf1.
  assert (Htpl1 : ∀ e, e ∈ employee_names →
            get_shift (st_shifts st1) e (d mod 28) ≠ None).
  { intros e He. rewrite (fills_outside _ _ _ _ _ _ Hf1) by (intros _; lia).
    by apply Htpl. }
  pose proof (phase3_day_spec employee_names total_days d l st1 Hl
                ltac:(intros e He; apply Hsub; by right) Hd Hwf1 Htpl1)
    as (_ & Hf' & _).
  intros e He Hn. apply elem_of_cons in He as [->|He].
  - rewrite (fills_not_in _ _ _ _ _ _ Hf' Hemp) in Hn.
    destruct (phase3_cell_left_unset employee_names total_days d st emp
                Hwf Hin ltac:(lia) (Htpl emp Hin) Hn) as (Heq & _ & H2 & H1).
    rewrite !(fills_outside _ _ _ _ _ _ Hf') by (intros _; lia).
    fold st1 in Heq. rewrite Heq. done.
  - apply (IH st1); try done. intros e' He'. apply Hsub. by right.
Qed.

(** X4.  Phase 3, started on a matrix whose first 28 days are filled,
    changes no cell of those days and only fills unset cells; a cell of
    the later days that it leaves unset comes right after two Nights
    of the employee; and an employee who holds a Night afterwards held
    it before or has a Night in the first 28 days. *)
Theorem phase3_extends_pattern (employee_names : list string)
    (total_days : nat) (st : gen_state) :
  NoDup employee_names →
  rows_wf employee_names total_days (st_shifts st) →
  (∀ e x, e ∈ employee_names → (x < Nat.min 28 total_days)%nat →
          get_shift (st_shifts st) e x ≠ None) →
  let es' := st_shifts (phase3 employee_names total_days st) in
  fills employee_names (λ x _, (28 ≤ x)%nat) (st_shifts st) es'
  ∧ (∀ e x, e ∈ employee_names → (28 ≤ x < total_days)%nat →
            get_shift es' e x = None →
            get_shift es' e (x - 2) = Some 3 ∧ get_shift es' e (x - 1) = Some 3)
  ∧ night_origin employee_names (st_shifts st) es'.
Proof.
  intros Hnd Hwf Hfull.
  pose proof (phase3_post employee_names total_days st Hnd Hwf Hfull)
    as (_ & Hf & Horig & _).
  split; [done|]. split; [|done]. clear Hf Horig.
  destruct (decide (total_days ≤ 28)%nat) as [Hle|Hgt]; [intros e x _ Hx; lia|].
  unfold phase3.
  pose proof (foldl_range _
    (λ k s, phase3_inv employee_names total_days (st_shifts st) k s
            ∧ ∀ e x, e ∈ employee_names → (28 ≤ x < k)%nat →
                get_shift (st_shifts s) e x = None →
                get_shift (st_shifts s) e (x - 2) = Some 3
                ∧ get_shift (st_shifts s) e (x - 1) = Some 3)
    (λ s day, foldl (phase3_cell total_days day) s employee_names)
    28 total_days st ltac:(lia)) as H.
  destruct H as [_ H].
  - split; [|intros e x _ Hx; lia].
    split; [done|]. split; [apply fills_refl|]. split; [intros e x _ ?; by left|].
    split; [intros e x _ ?; lia|]. done.
  - intros k s Hk [Hinv Hleft].
    assert (Hfull28 : ∀ e x, e ∈ employee_names → (x < 28)%nat →
              get_shift (st_shifts st) e x ≠ None).
    { intros e x He Hx. apply Hfull; [done|lia]. }
    split; [by apply phase3_step_inv|].
    destruct Hinv as (Hwfs & Hfs & _).
    assert (Htpl : ∀ e, e ∈ employee_names →
              get_shift (st_shifts s) e (k mod 28) ≠ None).
    { intros e He.
      assert (Hmod : (k mod 28 < 28)%nat) by (apply Nat.mod_upper_bound; lia).
      rewrite (fills_outside _ _ _ _ _ _ Hfs) by (intros _; lia).
      by apply Hfull28. }
    pose proof (phase3_day_spec employee_names total_days k employee_names s
                  Hnd ltac:(done) Hk Hwfs Htpl) as (_ & Hfk & _).
    pose proof (phase3_day_left_unset employee_names total_days k employee_names s
                  Hnd ltac:(done) Hk Hwfs Htpl) as Hnew.
    cbv zeta in Hnew.
    intros e x He Hx Hn. destruct (decide (x = k)) as [->|Hne]; [by apply Hnew|].
    rewrite (fills_outside _ _ _ _ _ _ Hfk) in Hn by (by intros _).
    rewrite !(fills_outside _ _ _ _ _ _ Hfk) by (intros _; lia).
    apply Hleft; [done|lia|done].
  - exact H.
Qed.

Lemma phase3_extends_pattern_witness :
  let st := thirty_days_before_phase3 in
  let es' := st_shifts (phase3 roster6 30 st) in
  fills roster6 (λ x _, (28 ≤ x)%nat) (st_shifts st) es'
  ∧ (∀ e x, e ∈ roster6 → (28 ≤ x < 30)%nat →
            get_shift es' e x = None →
            get_shift es' e (x - 2) = Some 3 ∧ get_shift es' e (x - 1) = Some 3)
  ∧ night_origin roster6 (st_shifts st) es'.
Proof.
  assert (Hnd : NoDup roster6) by (by apply (bool_decide_unpack _)).
  assert (Hlen : (6 ≤ length roster6)%nat) by (simpl; lia).
  apply phase3_extends_pattern.
  - exact Hnd.
  - apply (phases_0_to_2_template roster6 30 [2; 7; 1]%nat Hnd Hlen).
  - apply (phases_0_to_2_template roster6 30 [2; 7; 1]%nat Hnd Hlen).
Defined.

(** X5.  A day that holds exactly one Night, exactly two Evenings and
    at least one Morning is left as it is by the balancer of phase 4
    and by the presence check of phase 4.5, whatever the number of
    passes allowed. *)
Theorem balanced_day_untouched (employee_names : list string)
    (total_days day : nat) (st : gen_state) (passes checks : nat) :
  NoDup employee_names →
  balanced_day employee_names (st_shifts st) day →
  balance_day passes employee_names total_days day st = st
  ∧ presence_day checks employee_names total_days day st = st.
Proof.
  intros Hnd Hbal. split.
  - by apply balance_day_balanced.
  - by apply presence_day_balanced.
Qed.

Lemma balanced_one_day_balanced :
  balanced_day roster6 (st_shifts balanced_one_day) 0.
Proof.
  split; [vm_compute; reflexivity|]. split; [vm_compute; reflexivity|].
  exists "d"%string. split; [|vm_compute; reflexivity].
  apply (bool_decide_unpack _). vm_compute. exact I.
Qed.

Lemma balanced_day_untouched_witness :
  balance_day MAX_BALANCE_ITERATIONS roster6 1 0 balanced_one_day = balanced_one_day
  ∧ presence_day max_check_iterations roster6 1 0 balanced_one_day
    = balanced_one_day.
Proof.
  apply balanced_day_untouched.
  - by apply (bool_decide_unpack _).
  - apply balanced_one_day_balanced.
Defined.

(** ** The two constraint checkers *)

(** Inside the row, a slice lists the cells of its days. *)
Lemma slice_cells (row : list (option Z)) (a b : nat) :
  (b ≤ length row)%nat →
  slice row a b = cell_at row <$> seq a (b - a).
Proof.
  intros Hb. unfold slice. apply list_eq. intros i.
  rewrite list_lookup_fmap.
  destruct (decide (i < b - a)%nat) as [Hi|Hi].
  - rewrite lookup_take_lt, lookup_drop by done.
    rewrite lookup_seq_lt by done. simpl. unfold cell_at.
    destruct (row !! (a + i)%nat) as [c|] eqn:E; [done|].
    apply lookup_ge_None in E. lia.
  - rewrite lookup_take_ge by lia. rewrite lookup_seq_ge by lia. done.
Qed.

Lemma is_shift_viable_window (es es' : schedule) (name name' : string)
    (day : nat) (shift : option Z) (total_days total_days' : nat) :
  ((day < length (row_of es name))%nat ↔ (day < length (row_of es' name'))%nat) →
  (∀ x, (x < day)%nat → (day ≤ x + 4)%nat →
        get_shift es name x = get_shift es' name' x) →
  is_shift_viable es name day shift total_days
  = is_shift_viable es' name' day shift total_days'.
Proof.
  intros Hlen Hcells. unfold is_shift_viable, get_shift in *.
  destruct shift as [shift|]; [|done].
  destruct (shift =? 0); [done|].
  set (row := row_of es name) in *. set (row' := row_of es' name') in *.
  destruct (Nat.leb_spec (length row) day) as [H1|H1],
           (Nat.leb_spec (length row') day) as [H2|H2]; try done; try lia.
  assert (Hs : ∀ k, (k ≤ 4)%nat → (k ≤ day)%nat →
            slice row (day - k) day = slice row' (day - k) day).
  { intros k Hk Hkd. rewrite !slice_cells by lia.
    apply list_fmap_ext. intros i x Hx.
    apply lookup_seq in Hx as [-> Hi]. apply Hcells; lia. }
  assert (Hp : (if (0 <? day)%nat then cell_at row (day - 1) else None)
               = (if (0 <? day)%nat then cell_at row' (day - 1) else None)).
  { destruct (Nat.ltb_spec 0 day); [|done]. apply Hcells; lia. }
  assert (Hpp : (if (1 <? day)%nat then cell_at row (day - 2) else None)
                = (if (1 <? day)%nat then cell_at row' (day - 2) else None)).
  { destruct (Nat.ltb_spec 1 day); [|done]. apply Hcells; lia. }
  rewrite Hp, Hpp.
  destruct (Nat.leb_spec 3 day) as [H3|H3].
  - rewrite (Hs 3%nat) by lia.
    destruct (Nat.leb_spec 4 day) as [H4|H4].
    + by rewrite (Hs 4%nat) by lia.
    + by rewrite !andb_false_r.
  - destruct (Nat.leb_spec 4 day) as [H4|H4]; [lia|].
    by rewrite !andb_false_r.
Qed.

(** X6.  [is_shift_viable] reads nothing but the cells of the four
    days before [day] in the employee's row, and whether [day] is
    inside the row: two matrices that agree there give the same
    answer, whatever the cells of [day] and of the later days, the
    other rows and [total_days]. *)
Theorem is_shift_viable_looks_back_four_days (es es' : schedule)
    (name : string) (day : nat) (shift : option Z) (total_days total_days' : nat) :
  ((day < length (row_of es name))%nat ↔ (day < length (row_of es' name))%nat) →
  (∀ x, (x < day)%nat → (day ≤ x + 4)%nat →
        get_shift es name x = get_shift es' name x) →
  is_shift_viable es name day shift total_days
  = is_shift_viable es' name day shift total_days'.
Proof. apply is_shift_viable_window. Qed.

Lemma is_shift_viable_looks_back_four_days_witness :
  is_shift_viable (st_shifts all_work) "a" 2 (Some 1) 4
  = is_shift_viable (set_shift (st_shifts all_work) "a" 3 (Some 3)) "a" 2 (Some 1) 9.
Proof.
  apply is_shift_viable_looks_back_four_days.
  - rewrite length_row_of_set_shift. tauto.
  - intros x Hx _. rewrite get_shift_set_shift.
    rewrite bool_decide_eq_false_2; [done|]. intros (_ & ? & _). lia.
Defined.

(** X7.  Night is viable exactly when Evening is: the rule "max two
    consecutive nights" refuses nothing that "mandatory Off after N-N"
    does not refuse already.  And Evening is viable whenever Morning
    is. *)
Theorem night_viable_iff_evening (es : schedule) (name : string) (day : nat)
    (total_days : nat) :
  is_shift_viable es name day (Some 3) total_days
  = is_shift_viable es name day (Some 2) total_days
  ∧ (is_shift_viable es name day (Some 1) total_days = true →
     is_shift_viable es name day (Some 2) total_days = true).
Proof.
  split.
  - apply eq_true_iff_eq. rewrite !is_shift_viable_iff. unfold viable_in_row.
    split; (intros [?|(H1 & H2 & _)]; [done|]);
      right; (split; [done|]); (split; [done|]); intros ?; done.
  - rewrite !is_shift_viable_iff. intros [?|(H1 & H2 & _)]; [done|].
    right. split; [done|]. split; [done|]. intros ?. done.
Qed.

Lemma check_future_row (es : schedule) (name : string) (day total_days : nat)
    (b : bool) :
  check_future_m_after_n es name day total_days = Some b →
  b = false ↔ ((day + 1 < total_days)%nat
               ∧ row_of es name !! day = Some (Some 3)
               ∧ row_of es name !! (day + 1)%nat = Some (Some 1)).
Proof.
  unfold check_future_m_after_n, row_of.
  destruct (es !! name) as [row|]; simpl.
  2:{ intros [= <-]. split; [done|]. intros (_ & H & _).
      by rewrite lookup_nil in H. }
  destruct (Nat.leb_spec total_days (day + 1)) as [Hle|Hlt].
  { intros [= <-]. split; [done|]. intros (? & _). lia. }
  destruct (row !! day) as [cur|]; [|done].
  destruct (row !! (day + 1)%nat) as [next|]; [|done].
  destruct (cell_is cur 3 && cell_is next 1) eqn:E; intros [= <-].
  - apply andb_true_iff in E as [E1 E2].
    apply cell_is_Some in E1 as ->. apply cell_is_Some in E2 as ->. done.
  - split; [done|]. intros (_ & [= ->] & [= ->]). done.
Qed.

(** X8.  [check_future_m_after_n] raises nothing on a row that has a
    cell for every day of the period (or for an unknown name), it
    answers [False] exactly when the row holds Night on [day] and
    Morning on [day + 1] inside the period, and [is_shift_viable] then
    refuses that Morning. *)
Theorem check_future_m_after_n_agrees (es : schedule) (name : string)
    (day total_days : nat) :
  (total_days ≤ length (row_of es name))%nat ∨ es !! name = None →
  ∃ b, check_future_m_after_n es name day total_days = Some b
       ∧ (b = false ↔ ((day + 1 < total_days)%nat
                       ∧ get_shift es name day = Some 3
                       ∧ get_shift es name (day + 1) = Some 1))
       ∧ (b = false →
          is_shift_viable es name (day + 1) (Some 1) total_days = false).
Proof.
  intros Hrow.
  assert (Hdef : ∃ b, check_future_m_after_n es name day total_days = Some b).
  { unfold check_future_m_after_n, row_of in *.
    destruct (es !! name) as [row|]; [|by eexists]. simpl in Hrow.
    destruct Hrow as [Hrow|?]; [|done].
    destruct (Nat.leb_spec total_days (day + 1)) as [Hle|Hlt]; [by eexists|].
    destruct (lookup_lt_is_Some_2 row day ltac:(lia)) as [cur ->].
    destruct (lookup_lt_is_Some_2 row (day + 1) ltac:(lia)) as [next ->].
    destruct (_ && _); by eexists. }
  destruct Hdef as [b Hb]. exists b. split; [done|].
  pose proof (check_future_row es name day total_days b Hb) as Hiff.
  assert (Hget : ∀ x v, get_shift es name x = Some v
                        ↔ row_of es name !! x = Some (Some v)).
  { intros x v. unfold get_shift. rewrite <- cell_is_true. apply symmetry, cell_is_Some. }
  split.
  - rewrite Hiff, !Hget. done.
  - intros Hf. apply Hiff in Hf as (Hd & H0 & H1).
    apply not_true_iff_false. rewrite is_shift_viable_iff.
    intros [?|(Hlt & _ & Hm)]; [done|].
    destruct (Hm eq_refl) as (Hn & _). apply Hn.
    apply preceded_by_1; [lia|]. split; [lia|].
    by replace (day + 1 - 1)%nat with day by lia.
Qed.

Lemma check_future_m_after_n_agrees_witness :
  ∃ b, check_future_m_after_n (st_shifts all_work) "a" 1 4 = Some b
       ∧ (b = false ↔ ((1 + 1 < 4)%nat
                       ∧ get_shift (st_shifts all_work) "a" 1 = Some 3
                       ∧ get_shift (st_shifts all_work) "a" (1 + 1) = Some 1))
       ∧ (b = false →
          is_shift_viable (st_shifts all_work) "a" (1 + 1) (Some 1) 4 = false).
Proof.
  apply check_future_m_after_n_agrees.
  left. vm_compute. lia.
Defined.

(** ** The matrix that a generation returns *)

Lemma recoded_refl (es : schedule) : recoded es es.
Proof. split; [done|]. intros e x c H. right. eauto. Qed.

Lemma recoded_trans (es1 es2 es3 : schedule) :
  recoded es1 es2 → recoded es2 es3 → recoded es1 es3.
Proof.
  intros [L12 C12] [L23 C23]. split.
  - intros e. by rewrite L23.
  - intros e x c H. destruct (C23 e x c H) as [?|(e' & x' & H')]; [by left|].
    by apply (C12 e' x').
Qed.

Lemma recoded_set_shift (es : schedule) (emp : string) (day : nat) (c : Z) :
  (0 ≤ c ≤ 3) ∨ (∃ e' x', get_shift es e' x' = Some c) →
  recoded es (set_shift es emp day (Some c)).
Proof.
  intros Hc. split.
  - intros e. apply length_row_of_set_shift.
  - intros e x c'. rewrite get_shift_set_shift. case_bool_decide.
    + intros [= <-]. done.
    + intros H'. right. eauto.
Qed.

Lemma recoded_foldl {B} (f : gen_state → B → gen_state) (l : list B)
    (st : gen_state) :
  (∀ s b, recoded (st_shifts s) (st_shifts (f s b))) →
  recoded (st_shifts st) (st_shifts (foldl f st l)).
Proof.
  intros Hf. apply (foldl_invariant (λ s, recoded (st_shifts st) (st_shifts s))).
  - apply recoded_refl.
  - intros s b _ Hs. eapply recoded_trans; [exact Hs|apply Hf].
Qed.

Ltac recoded_write :=
  first
    [ apply recoded_refl
    | apply recoded_set_shift; left; lia
    | eapply recoded_trans; [|apply recoded_set_shift; left; lia]; recoded_write ].

Lemma assign_night_shift_pairs_recoded (employee_names : list string)
    (total_days : nat) (st : gen_state) :
  recoded (st_shifts st)
          (st_shifts (assign_night_shift_pairs employee_names total_days st)).
Proof.
  unfold assign_night_shift_pairs.
  set (ps0 := {| ps_shifts := st_shifts st; ps_offs := _;
                 ps_last_pair_end := _; ps_night_assigned := _ |}).
  assert (H1 : recoded (st_shifts st)
                 (ps_shifts (foldl (pairs_step employee_names total_days) ps0
                                   (range 0 (total_days - 1))))).
  { apply (foldl_invariant (λ ps, recoded (st_shifts st) (ps_shifts ps)));
      [apply recoded_refl|].
    intros ps day _ Hps. eapply recoded_trans; [exact Hps|].
    unfold pairs_step. destruct (_ || _); [apply recoded_refl|].
    destruct (filter _ _); [apply recoded_refl|].
    unfold assign_pair. destruct (_ <? _)%nat; simpl; recoded_write. }
  set (ps := foldl (pairs_step employee_names total_days) ps0 _) in *.
  assert (H2 : recoded (st_shifts st)
                 (fst (foldl (single_night_step employee_names total_days
                                                (ps_night_assigned ps))
                             (ps_shifts ps, st_rng st) (range 0 total_days)))).
  { apply (foldl_invariant (λ acc, recoded (st_shifts st) (fst acc))); [done|].
    intros [es rng] day _ Hacc. simpl in Hacc. unfold single_night_step.
    destruct (night_assigned_at _ _); [done|].
    destruct (filter _ _); [done|].
    destruct (random_choice _ _ _) as [emp rng']. simpl.
    eapply recoded_trans; [exact Hacc|]. recoded_write. }
  destruct (foldl (single_night_step _ _ _) _ _) as [es rng]. done.
Qed.

Lemma phase1_recoded (employee_names : list string) (total_days : nat)
    (st : gen_state) :
  recoded (st_shifts st) (st_shifts (phase1 employee_names total_days st)).
Proof.
  unfold phase1.
  assert (Hgive : ∀ os e d,
            recoded (st_shifts (os_st os)) (st_shifts (os_st (give_off os e d)))).
  { intros os e d. simpl. recoded_write. }
  eapply recoded_trans; [|apply recoded_foldl].
  2:{ intros s day. unfold ensure_off_step. destruct (_ =? 0); [|apply recoded_refl].
      destruct (filter _ _); [apply recoded_refl|].
      destruct (random_choice _ _ _) as [emp rng']. simpl. recoded_write. }
  apply (foldl_invariant (λ os, recoded (st_shifts st) (st_shifts (os_st os)))).
  - apply (foldl_invariant (λ os, recoded (st_shifts st) (st_shifts (os_st os))));
      [apply recoded_refl|].
    intros os day _ Hos.
    apply (foldl_invariant (λ os, recoded (st_shifts st) (st_shifts (os_st os))));
      [done|].
    intros os' e _ Hos'. eapply recoded_trans; [exact Hos'|].
    unfold streak_step. destruct (_ <=? _)%nat; [|apply recoded_refl].
    destruct (streak_scan _ _ _ _) as [ws cw].
    destruct (ws && _); [|apply recoded_refl].
    destruct (_ && _ && _); [apply Hgive|apply recoded_refl].
  - intros os week _ Hos. unfold weekly_off_week.
    destruct (random_shuffle _ _) as [shuffled rng'].
    apply (foldl_invariant (λ os, recoded (st_shifts st) (st_shifts (os_st os))));
      [done|].
    intros os' e _ Hos'. eapply recoded_trans; [exact Hos'|].
    unfold weekly_off_employee. destruct (_ <=? _); [apply recoded_refl|].
    destruct (existsb _ _); [apply recoded_refl|].
    destruct (sort_by _ _); [apply recoded_refl|apply Hgive].
Qed.

Lemma phase2_recoded (employee_names : list string) (total_days : nat)
    (st : gen_state) :
  recoded (st_shifts st) (st_shifts (phase2 employee_names total_days st)).
Proof.
  unfold phase2. apply recoded_foldl. intros s day. unfold phase2_day.
  assert (Hfill : ∀ code acc, 1 ≤ code ≤ 3 →
            recoded (st_shifts (fst acc))
                    (st_shifts (fst (fill_deficit employee_names total_days day
                                                  code acc)))).
  { intros code [s0 avail] Hcode. unfold fill_deficit.
    destruct (0 <? _); [|apply recoded_refl]. simpl.
    apply (foldl_invariant
             (λ acc : gen_state * list string,
                recoded (st_shifts s0) (st_shifts (fst acc))));
      [apply recoded_refl|].
    intros [s1 av] emp _ Hacc. simpl in *.
    eapply recoded_trans; [exact Hacc|]. recoded_write. }
  destruct (filter _ employee_names) as [|c l]; [apply recoded_refl|].
  set (acc1 := fill_deficit _ _ _ 2 _).
  set (acc2 := fill_deficit _ _ _ 1 acc1).
  pose proof (Hfill 2 (s, c :: l) ltac:(lia)) as H1. fold acc1 in H1.
  pose proof (Hfill 1 acc1 ltac:(lia)) as H2. fold acc2 in H2.
  pose proof (Hfill 3 acc2 ltac:(lia)) as H3.
  destruct (fill_deficit _ _ _ 3 acc2) as [s3 av3]. simpl in *.
  eapply recoded_trans; [exact H1|]. eapply recoded_trans; [exact H2|].
  eapply recoded_trans; [exact H3|].
  apply recoded_foldl. intros s' emp. unfold fallback_step.
  destruct (first_viable _ _ _ _ _) as [code|] eqn:E; [|apply recoded_refl].
  apply first_viable_Some in E. simpl.
  assert (1 ≤ code ≤ 3).
  { rewrite !elem_of_app in E. destruct E as [E|[E|E]].
    - destruct (count_day (st_shifts s') employee_names day 2 <? target_of 2);
        [|by apply elem_of_nil in E].
      apply list_elem_of_singleton in E. lia.
    - apply list_elem_of_singleton in E. lia.
    - destruct (count_day (st_shifts s') employee_names day 3 <? target_of 3);
        [|by apply elem_of_nil in E].
      apply list_elem_of_singleton in E. lia. }
  recoded_write.
Qed.

Lemma phase3_recoded (employee_names : list string) (total_days : nat)
    (st : gen_state) :
  recoded (st_shifts st) (st_shifts (phase3 employee_names total_days st)).
Proof.
  unfold phase3. apply recoded_foldl. intros s day.
  apply recoded_foldl. intros s' emp. unfold phase3_cell.
  destruct (is_None_b _); [|apply recoded_refl].
  destruct (get_shift (st_shifts s') emp (day mod 28)) as [p|] eqn:Ep;
    [|apply recoded_refl].
  destruct (is_shift_viable _ _ _ (Some p) _).
  { simpl. apply recoded_set_shift. right. eauto. }
  destruct (first_viable _ _ _ _ _) as [alt|] eqn:E; [|apply recoded_refl].
  apply first_viable_Some in E. simpl. apply recoded_set_shift. left.
  rewrite !elem_of_cons in E. destruct E as [->|[->|[->|E]]]; try lia.
  by apply elem_of_nil in E.
Qed.

Lemma move_up_to_recoded (total_days day : nat) (origin dest : Z) (quota : nat)
    (st : gen_state) (candidates : list string) :
  0 ≤ dest ≤ 3 →
  recoded (st_shifts st)
          (st_shifts (fst (move_up_to total_days day origin dest quota st
                                      candidates))).
Proof.
  intros Hd. revert quota st.
  induction candidates as [|x candidates IH]; intros quota st; simpl;
    [apply recoded_refl|].
  destruct quota as [|quota]; [apply recoded_refl|].
  destruct (is_shift_viable _ _ _ _ _); simpl; [|apply IH].
  eapply recoded_trans; [|apply IH]. simpl. recoded_write.
Qed.

Lemma balance_evening_recoded (employee_names : list string)
    (total_days day : nat) (st : gen_state) :
  recoded (st_shifts st)
          (st_shifts (fst (balance_evening employee_names total_days day st))).
Proof.
  unfold balance_evening.
  destruct (target_of 2 <? _); [apply move_up_to_recoded; lia|].
  destruct (_ <? target_of 2); [apply move_up_to_recoded; lia|apply recoded_refl].
Qed.

Lemma balance_night_recoded (total_days day : nat) (night : list string)
    (st : gen_state) :
  recoded (st_shifts st)
          (st_shifts (fst (balance_night total_days day night st))).
Proof.
  unfold balance_night.
  destruct (target_of 3 <? _); [apply move_up_to_recoded; lia|apply recoded_refl].
Qed.

Lemma phase4_recoded (employee_names : list string) (total_days : nat)
    (st : gen_state) :
  recoded (st_shifts st) (st_shifts (phase4 employee_names total_days st)).
Proof.
  unfold phase4.
  set (st0 := {| st_shifts := st_shifts st; st_counts := _;
                 st_offs := st_offs st; st_rng := st_rng st |}).
  change (st_shifts st) with (st_shifts st0).
  apply recoded_foldl. intros s day.
  generalize MAX_BALANCE_ITERATIONS. intros n. revert s.
  induction n as [|n IH]; intros s; simpl; [apply recoded_refl|].
  assert (Hit : recoded (st_shifts s)
                  (st_shifts (fst (balance_iteration employee_names total_days
                                                     day s)))).
  { unfold balance_iteration.
    pose proof (balance_evening_recoded employee_names total_days day s) as H1.
    destruct (balance_evening _ _ _ _) as [st1 ce].
    pose proof (balance_night_recoded total_days day
                  (assigned_employees (st_shifts s) employee_names day 3) st1)
      as H2.
    destruct (balance_night _ _ _ _) as [st2 cn]. simpl in *.
    by eapply recoded_trans. }
  destruct (balance_iteration _ _ _ _) as [s' made]. simpl in Hit.
  destruct made; [|done]. eapply recoded_trans; [exact Hit|apply IH].
Qed.

Lemma phase45_recoded (employee_names : list string) (total_days : nat)
    (st : gen_state) :
  recoded (st_shifts st) (st_shifts (phase45 employee_names total_days st)).
Proof.
  unfold phase45. apply recoded_foldl. intros s day.
  generalize max_check_iterations. intros n. revert s.
  induction n as [|n IH]; intros s; simpl; [apply recoded_refl|].
  assert (Hfix : ∀ dest src1 src2 tie s',
            0 ≤ dest ≤ 3 →
            presence_fix employee_names total_days day dest src1 src2 tie s
            = Some s' →
            recoded (st_shifts s) (st_shifts s')).
  { intros dest src1 src2 tie s' Hd. unfold presence_fix.
    destruct (filter _ (sort_by_key _ _)) as [|[emp origin] rest]; [done|].
    intros [= <-]. simpl. recoded_write. }
  assert (Hit : recoded (st_shifts s)
                  (st_shifts (fst (presence_iteration employee_names total_days
                                                      day s)))).
  { unfold presence_iteration. destruct (_ =? 0); [apply recoded_refl|].
    destruct (if _ =? 0 then presence_fix _ _ _ 2 _ _ _ _ else None)
      as [s1|] eqn:E1.
    { simpl. destruct (_ =? 0); [|done]. apply Hfix in E1; [done|lia]. }
    destruct (if _ =? 0 then presence_fix _ _ _ 1 _ _ _ _ else None)
      as [s2|] eqn:E2.
    { simpl. destruct (count_day _ _ _ 1 =? 0); [|done].
      apply Hfix in E2; [done|lia]. }
    destruct (if _ =? 0 then presence_fix _ _ _ 3 _ _ _ _ else None)
      as [s3|] eqn:E3.
    { simpl. destruct (count_day _ _ _ 3 =? 0); [|done].
      apply Hfix in E3; [done|lia]. }
    apply recoded_refl. }
  destruct (presence_iteration _ _ _ _) as [s' needs]. simpl in Hit.
  destruct needs; [|done]. eapply recoded_trans; [exact Hit|apply IH].
Qed.

Lemma phase46_recoded (total_days : nat) (l : list string) (st st' : gen_state) :
  phase46 total_days st l = inr st' →
  recoded (st_shifts st) (st_shifts st').
Proof.
  revert st. induction l as [|emp l IH]; intros st; simpl.
  { intros [= <-]. apply recoded_refl. }
  destruct (phase46_emp total_days st emp) as [e|st1] eqn:E; [done|].
  intros H. apply IH in H. eapply recoded_trans; [|exact H].
  revert E. unfold phase46_emp.
  destruct (has_nn _ _); [intros [= <-]; apply recoded_refl|].
  destruct (find _ _) as [day|]; [|intros [= <-]; apply recoded_refl].
  destruct (cnt_sub_cell _ _ _) as [?|sc1]; [done|].
  destruct (cnt_sub_cell sc1 _ _) as [?|sc2]; [done|].
  intros [= <-]. simpl. recoded_write.
Qed.

Lemma phase5_recoded (employee_names : list string) (total_days : nat)
    (st : gen_state) :
  recoded (st_shifts st) (st_shifts (phase5 employee_names total_days st)).
Proof.
  unfold phase5. apply recoded_foldl. intros s emp.
  apply recoded_foldl. intros s' day. unfold phase5_cell.
  destruct (_ && _); [|apply recoded_refl].
  destruct (is_shift_viable _ _ _ (Some 2) _).
  - destruct (_ && _); [|simpl; recoded_write].
    destruct (filter _ (sort_by_key _ _)); simpl; recoded_write.
  - destruct (_ && _); [simpl; recoded_write|apply recoded_refl].
Qed.

Lemma recoded_two_writes (es : schedule) (e1 e2 : string) (d1 d2 : nat)
    (c1 c2 : Z) :
  (0 ≤ c1 ≤ 3) ∨ (∃ e' x', get_shift es e' x' = Some c1) →
  (0 ≤ c2 ≤ 3) ∨ (∃ e' x', get_shift es e' x' = Some c2) →
  recoded es (set_shift (set_shift es e1 d1 (Some c1)) e2 d2 (Some c2)).
Proof.
  intros H1 H2. split.
  - intros e. by rewrite !length_row_of_set_shift.
  - intros e x c. rewrite !get_shift_set_shift.
    repeat case_bool_decide.
    + intros [= <-]. done.
    + intros [= <-]. done.
    + intros Hc. right. eauto.
Qed.

Lemma phase6_recoded (employee_names : list string) (total_days : nat)
    (st : gen_state) :
  recoded (st_shifts st) (st_shifts (phase6 employee_names total_days st)).
Proof.
  unfold phase6. apply recoded_foldl. intros s emp. unfold phase6_emp.
  eapply recoded_trans; [|apply recoded_foldl].
  - apply recoded_foldl. intros s' day. unfold phase6_nn_cell.
    destruct (get_shift (st_shifts s') emp day) as [orig|] eqn:Eo;
      [|apply recoded_refl].
    destruct (_ && _ && _); [|apply recoded_refl].
    destruct (match TARGET_SHIFTS_PER_DAY orig with Some _ => _ | None => _ end);
      [|simpl; recoded_write].
    destruct (sort_by_key _ _) as [|swap_emp rest]; [simpl; recoded_write|].
    simpl. apply recoded_two_writes; [left; lia|right; eauto].
  - intros s' day. unfold phase6_pattern_cell.
    destruct (cell_is _ 1); [|apply recoded_refl].
    destruct (_ || _ || _ || _); [|apply recoded_refl].
    destruct (_ <? _); [|simpl; recoded_write].
    destruct (sort_by_key _ _) as [|swap_emp rest]; [simpl; recoded_write|].
    simpl. apply recoded_two_writes; left; lia.
Qed.

Lemma initial_rows (employee_names : list string) (total_days : nat)
    (rng : list nat) (e : string) :
  row_of (st_shifts (initial_state employee_names total_days rng)) e
  = if bool_decide (e ∈ employee_names) then replicate total_days None else [].
Proof.
  case_bool_decide as He; [by apply row_of_initial|].
  unfold initial_state, row_of. simpl.
  induction employee_names as [|x l IH]; simpl; [done|].
  rewrite lookup_insert_ne; [apply IH|]; set_solver.
Qed.

(** X9.  Whatever [generate_optimized_shifts] returns is a well-formed
    matrix: every name of the roster has a row of [total_days] cells,
    no other name has a cell, and every cell that is set holds one of
    the codes 0, 1, 2, 3 of [SHIFT_NAMES]. *)
Theorem generated_matrix_well_formed (employee_names : list string)
    (total_days : nat) (rng : list nat) :
  match generate_optimized_shifts employee_names total_days rng with
  | inr es =>
    (∀ e, e ∈ employee_names → length (row_of es e) = total_days)
    ∧ (∀ e, e ∉ employee_names → row_of es e = [])
    ∧ (∀ e x c, get_shift es e x = Some c → 0 ≤ c ≤ 3)
  | inl _ => True
  end.
Proof.
  unfold generate_optimized_shifts, phases_0_to_5, phases_0_to_45.
  destruct (_ <? _); [done|]. cbv zeta.
  set (st0 := initial_state employee_names total_days rng).
  set (st45 := phase45 _ _ _).
  assert (H45 : recoded (st_shifts st0) (st_shifts st45)).
  { subst st45.
    eapply recoded_trans; [|apply phase45_recoded].
    eapply recoded_trans; [|apply phase4_recoded].
    eapply recoded_trans; [|apply phase3_recoded].
    eapply recoded_trans; [|apply phase2_recoded].
    eapply recoded_trans; [|apply phase1_recoded].
    apply assign_night_shift_pairs_recoded. }
  destruct (phase46 total_days st45 employee_names) as [e|st46] eqn:E46; [done|].
  assert (H : recoded (st_shifts st0)
                (st_shifts (phase6 employee_names total_days
                              (phase5 employee_names total_days st46)))).
  { eapply recoded_trans; [|apply phase6_recoded].
    eapply recoded_trans; [|apply phase5_recoded].
    eapply recoded_trans; [exact H45|]. by apply phase46_recoded in E46. }
  destruct H as [Hlen Hcodes].
  assert (Hrow := initial_rows employee_names total_days rng). fold st0 in Hrow.
  split.
  { intros e He. rewrite Hlen, Hrow, bool_decide_eq_true_2 by done.
    apply length_replicate. }
  split.
  { intros e He. apply nil_length_inv.
    by rewrite Hlen, Hrow, bool_decide_eq_false_2. }
  intros e x c Hc. destruct (Hcodes e x c Hc) as [?|(e' & x' & H')]; [done|].
  exfalso. unfold get_shift, cell_at in H'. rewrite Hrow in H'.
  case_bool_decide.
  - destruct (replicate total_days None !! x') as [o|] eqn:El; [|done].
    apply lookup_replicate in El as [-> _]. done.
  - by rewrite lookup_nil in H'.
Qed.

(** ** Phases 4 and 4.5 move employees between working shifts *)

Lemma reshuffled_refl (es : schedule) : reshuffled es es.
Proof. intros e x. by left. Qed.

Lemma reshuffled_trans (es1 es2 es3 : schedule) :
  reshuffled es1 es2 → reshuffled es2 es3 → reshuffled es1 es3.
Proof.
  intros H12 H23 e x.
  destruct (H23 e x) as [->|[Hw2 Hw3]]; [apply H12|].
  destruct (H12 e x) as [<-|[Hw1 _]]; right; done.
Qed.

Lemma NoDup_dict_keys (seen l : list string) :
  NoDup (dict_keys seen l) ∧ ∀ x, x ∈ dict_keys seen l → x ∉ seen.
Proof.
  revert seen. induction l as [|y l IH]; intros seen; simpl.
  { split; [constructor|]. intros x Hx. by apply elem_of_nil in Hx. }
  case_bool_decide as Hy; [apply IH|].
  destruct (IH (y :: seen)) as [Hnd Hout]. split.
  - apply NoDup_cons. split; [|done]. intros Hin. apply Hout in Hin.
    apply Hin. left.
  - intros x Hx. apply elem_of_cons in Hx as [->|Hx]; [done|].
    apply Hout in Hx. intros Hs. apply Hx. by right.
Qed.

Lemma assigned_employees_spec (es : schedule) (employee_names : list string)
    (day : nat) (s : Z) :
  NoDup (assigned_employees es employee_names day s)
  ∧ ∀ e, e ∈ assigned_employees es employee_names day s →
         get_shift es e day = Some s.
Proof.
  unfold assigned_employees. split.
  - apply NoDup_filter, NoDup_dict_keys.
  - intros e He. apply list_elem_of_filter in He as [He _].
    by apply cell_is_Some.
Qed.

(** The loop of the balancer changes the cells of its candidates on
    [day], from [origin] to [dest], and nothing else. *)
Lemma move_up_to_changes (total_days day : nat) (origin dest : Z) (quota : nat)
    (st : gen_state) (candidates : list string) :
  NoDup candidates →
  (∀ e, e ∈ candidates → get_shift (st_shifts st) e day = Some origin) →
  ∀ e x,
    get_shift (st_shifts (fst (move_up_to total_days day origin dest quota st
                                          candidates))) e x
    = get_shift (st_shifts st) e x
    ∨ (e ∈ candidates ∧ x = day
       ∧ get_shift (st_shifts st) e x = Some origin
       ∧ get_shift (st_shifts (fst (move_up_to total_days day origin dest quota
                                               st candidates))) e x
         = Some dest).
Proof.
  revert quota st.
  induction candidates as [|y candidates IH]; intros quota st Hnd Hcells e x;
    simpl; [by left|].
  apply NoDup_cons in Hnd as [Hy Hnd].
  destruct quota as [|quota]; [by left|].
  destruct (is_shift_viable (st_shifts st) y day (Some dest) total_days); simpl.
  - set (st1 := move_shift st y day origin dest).
    assert (H1 : ∀ e' x', get_shift (st_shifts st1) e' x'
                 = if bool_decide (y = e' ∧ day = x'
                                   ∧ (day < length (row_of (st_shifts st) y))%nat)
                   then Some dest else get_shift (st_shifts st) e' x').
    { intros e' x'. simpl. apply get_shift_set_shift. }
    destruct (IH quota st1 Hnd) with (e := e) (x := x) as [Heq|(Hin & -> & Ho & Hd)].
    + intros e' He'. rewrite H1. rewrite bool_decide_eq_false_2.
      * apply Hcells. by right.
      * intros (<- & _). done.
    + rewrite Heq, H1. case_bool_decide as Hk; [|by left].
      destruct Hk as (<- & <- & _). right.
      split; [left|]. split; [done|]. split; [apply Hcells; left|done].
    + right. split; [by right|]. split; [done|]. split; [|done].
      rewrite H1 in Ho. rewrite bool_decide_eq_false_2 in Ho; [done|].
      intros (<- & _). done.
  - destruct (IH (S quota) st Hnd) with (e := e) (x := x)
      as [Heq|(Hin & -> & Ho & Hd)].
    + intros e' He'. apply Hcells. by right.
    + by left.
    + right. split; [by right|]. done.
Qed.

Lemma sorted_candidates (key : string → list Z) (l : list string) (day : nat)
    (es : schedule) (s : Z) :
  NoDup l → (∀ e, e ∈ l → get_shift es e day = Some s) →
  NoDup (sort_by_key key l)
  ∧ ∀ e, e ∈ sort_by_key key l → get_shift es e day = Some s.
Proof.
  intros Hnd Hc. split; [by apply NoDup_sort_by|].
  intros e He. apply Hc. by apply elem_of_sort_by_key in He.
Qed.

Lemma balance_iteration_reshuffled (employee_names : list string)
    (total_days day : nat) (st : gen_state) :
  reshuffled (st_shifts st)
             (st_shifts (fst (balance_iteration employee_names total_days day st))).
Proof.
  unfold balance_iteration.
  destruct (assigned_employees_spec (st_shifts st) employee_names day 1)
    as [Hnd1 Hc1].
  destruct (assigned_employees_spec (st_shifts st) employee_names day 2)
    as [Hnd2 Hc2].
  destruct (assigned_employees_spec (st_shifts st) employee_names day 3)
    as [Hnd3 Hc3].
  set (night := assigned_employees (st_shifts st) employee_names day 3) in *.
  assert (He : ∀ e x,
            get_shift (st_shifts (fst (balance_evening employee_names total_days
                                                       day st))) e x
            = get_shift (st_shifts st) e x
            ∨ ((get_shift (st_shifts st) e x = Some 1
                ∨ get_shift (st_shifts st) e x = Some 2)
               ∧ working (get_shift (st_shifts (fst (balance_evening
                            employee_names total_days day st))) e x))).
  { intros e x. unfold balance_evening.
    destruct (target_of 2 <? _).
    - edestruct (sorted_candidates (λ x, [- cnt_get (st_counts st) x 2]))
        as [Hn Hc]; [exact Hnd2|exact Hc2|].
      destruct (move_up_to_changes total_days day 2 1
                  (Z.to_nat (Z.of_nat (length (assigned_employees (st_shifts st)
                     employee_names day 2)) - target_of 2)) st _ Hn Hc e x)
        as [Heq|(_ & _ & Ho & Hd)]; [by left|].
      right. rewrite Hd. split; [by right|]. by left.
    - destruct (_ <? target_of 2); [|by left].
      set (donors := if target_of 1 <? _ then _ else _).
      assert (Hd : NoDup donors
                   ∧ ∀ e, e ∈ donors → get_shift (st_shifts st) e day = Some 1).
      { subst donors. destruct (target_of 1 <? _); [done|].
        split; [constructor|]. intros e' He'. by apply elem_of_nil in He'. }
      destruct Hd as [Hdn Hdc].
      edestruct (sorted_candidates
                   (λ x, [Zb (negb (is_shift_viable (st_shifts st) x day
                                                    (Some 2) total_days));
                          cnt_get (st_counts st) x 2]))
        as [Hn Hc]; [exact Hdn|exact Hdc|].
      destruct (move_up_to_changes total_days day 1 2
                  (Z.to_nat (target_of 2 - Z.of_nat (length (assigned_employees
                     (st_shifts st) employee_names day 2)))) st _ Hn Hc e x)
        as [Heq|(_ & _ & Ho & Hd)]; [by left|].
      right. rewrite Hd. split; [by left|]. right; by left. }
  destruct (balance_evening employee_names total_days day st) as [st1 ce].
  simpl in He.
  assert (Hn : ∀ e x,
            get_shift (st_shifts (fst (balance_night total_days day night st1)))
                      e x
            = get_shift (st_shifts st1) e x
            ∨ (working (get_shift (st_shifts st1) e x)
               ∧ working (get_shift (st_shifts (fst (balance_night total_days day
                                                       night st1))) e x))).
  { intros e x. unfold balance_night. destruct (target_of 3 <? _); [|by left].
    edestruct (sorted_candidates (λ x, [- cnt_get (st_counts st1) x 3]) night day
                 (st_shifts st1) 3) as [Hn Hc]; [exact Hnd3| |].
    { intros e' He'. specialize (Hc3 e' He').
      destruct (He e' day) as [->|[[H|H] _]]; congruence. }
    destruct (move_up_to_changes total_days day 3 1
                (Z.to_nat (Z.of_nat (length night) - target_of 3)) st1 _ Hn Hc e x)
      as [Heq|(_ & _ & Ho & Hd)]; [by left|].
    right. rewrite Hd, Ho. split; [right; by right|by left]. }
  destruct (balance_night total_days day night st1) as [st2 cn]. simpl in *.
  apply (reshuffled_trans _ (st_shifts st1)).
  - intros e x. destruct (He e x) as [?|[[H|H] Hw]]; [by left| |];
      right; (split; [|done]); rewrite H; [by left|right; by left].
  - exact Hn.
Qed.

Lemma phase4_reshuffled (employee_names : list string) (total_days : nat)
    (st : gen_state) :
  reshuffled (st_shifts st) (st_shifts (phase4 employee_names total_days st)).
Proof.
  unfold phase4.
  set (st0 := {| st_shifts := st_shifts st; st_counts := _;
                 st_offs := st_offs st; st_rng := st_rng st |}).
  change (st_shifts st) with (st_shifts st0).
  apply (foldl_invariant (λ s, reshuffled (st_shifts st0) (st_shifts s)));
    [apply reshuffled_refl|].
  intros s day _ Hs. eapply reshuffled_trans; [exact Hs|]. clear Hs.
  generalize MAX_BALANCE_ITERATIONS. intros n. revert s.
  induction n as [|n IH]; intros s; simpl; [apply reshuffled_refl|].
  pose proof (balance_iteration_reshuffled employee_names total_days day s) as Hit.
  destruct (balance_iteration _ _ _ _) as [s' made]. simpl in Hit.
  destruct made; [|done]. eapply reshuffled_trans; [exact Hit|apply IH].
Qed.

Lemma presence_fix_reshuffled (employee_names : list string)
    (total_days day : nat) (dest src1 src2 tie : Z) (st st' : gen_state) :
  working (Some dest) → working (Some src1) → working (Some src2) →
  presence_fix employee_names total_days day dest src1 src2 tie st = Some st' →
  reshuffled (st_shifts st) (st_shifts st').
Proof.
  intros Hd H1 H2. unfold presence_fix. cbv zeta.
  pose (workers := λ s : Z,
          (λ e : string, (e, s)) <$>
            filter (λ e, cell_is (get_shift (st_shifts st) e day) s = true)
                   employee_names).
  assert (Hw : ∀ s x, x ∈ workers s →
            get_shift (st_shifts st) x.1 day = Some s ∧ x.2 = s).
  { intros s x Hx. apply list_elem_of_fmap in Hx as (e & -> & He).
    apply list_elem_of_filter in He as [He _]. apply cell_is_Some in He. done. }
  assert (Hpair : ∀ (b1 b2 : bool) x,
            x ∈ (if b1 then workers src1 else []) ++
                (if b2 then workers src2 else []) →
            get_shift (st_shifts st) x.1 day = Some x.2
            ∧ (x.2 = src1 ∨ x.2 = src2)).
  { intros b1 b2 x Hx. apply elem_of_app in Hx as [Hx|Hx].
    - destruct b1; [|by apply elem_of_nil in Hx].
      destruct (Hw _ _ Hx) as [? ->]. auto.
    - destruct b2; [|by apply elem_of_nil in Hx].
      destruct (Hw _ _ Hx) as [? ->]. auto. }
  match goal with
  | |- context [sort_by_key ?k ?c] => set (candidates := c); set (key := k)
  end.
  assert (Hc : ∀ x, x ∈ candidates →
            get_shift (st_shifts st) x.1 day = Some x.2
            ∧ (x.2 = src1 ∨ x.2 = src2)).
  { intros x Hx. subst candidates.
    destruct (_ ++ _) as [|c cs] eqn:E.
    - by apply Hpair in Hx.
    - rewrite <- E in Hx. by apply Hpair in Hx. }
  destruct (filter _ (sort_by_key _ candidates)) as [|[emp origin] rest] eqn:Ef;
    [done|].
  intros [= <-].
  assert (Hin : (emp, origin) ∈ candidates).
  { assert (H : (emp, origin) ∈ filter
                  (λ x, is_shift_viable (st_shifts st) x.1 day (Some dest)
                                        total_days = true)
                  (sort_by_key key candidates))
      by (rewrite Ef; left).
    apply list_elem_of_filter in H as [_ H].
    by apply elem_of_sort_by_key in H. }
  destruct (Hc _ Hin) as [Ho Hs]. simpl in Ho, Hs.
  intros e x. simpl. rewrite get_shift_set_shift.
  case_bool_decide as Hk; [|by left].
  destruct Hk as (<- & <- & _). right. rewrite Ho.
  split; [|done]. destruct Hs as [->| ->]; done.
Qed.

Lemma phase45_reshuffled (employee_names : list string) (total_days : nat)
    (st : gen_state) :
  reshuffled (st_shifts st) (st_shifts (phase45 employee_names total_days st)).
Proof.
  unfold phase45.
  apply (foldl_invariant (λ s, reshuffled (st_shifts st) (st_shifts s)));
    [apply reshuffled_refl|].
  intros s day _ Hs. eapply reshuffled_trans; [exact Hs|]. clear Hs.
  generalize max_check_iterations. intros n. revert s.
  induction n as [|n IH]; intros s; simpl; [apply reshuffled_refl|].
  assert (W1 : working (Some 1)) by (by left).
  assert (W2 : working (Some 2)) by (right; by left).
  assert (W3 : working (Some 3)) by (right; by right).
  assert (Hit : reshuffled (st_shifts s)
                  (st_shifts (fst (presence_iteration employee_names total_days
                                                      day s)))).
  { unfold presence_iteration. destruct (_ =? 0); [apply reshuffled_refl|].
    destruct (if _ =? 0 then presence_fix _ _ _ 2 _ _ _ _ else None)
      as [s1|] eqn:E1.
    { simpl. destruct (_ =? 0); [|done].
      by apply presence_fix_reshuffled in E1. }
    destruct (if _ =? 0 then presence_fix _ _ _ 1 _ _ _ _ else None)
      as [s2|] eqn:E2.
    { simpl. destruct (count_day _ _ _ 1 =? 0); [|done].
      by apply presence_fix_reshuffled in E2. }
    destruct (if _ =? 0 then presence_fix _ _ _ 3 _ _ _ _ else None)
      as [s3|] eqn:E3.
    { simpl. destruct (count_day _ _ _ 3 =? 0); [|done].
      by apply presence_fix_reshuffled in E3. }
    apply reshuffled_refl. }
  destruct (presence_iteration _ _ _ _) as [s' needs]. simpl in Hit.
  destruct needs; [|done]. eapply reshuffled_trans; [exact Hit|apply IH].
Qed.

(** X10.  Phases 4 and 4.5 only move employees from one working shift
    to another: a cell that they change held Morning, Evening or Night
    and holds Morning, Evening or Night afterwards.  Who is Off and
    who is unassigned on a day is the same before and after. *)
Theorem balancing_only_moves_workers (employee_names : list string)
    (total_days : nat) (st : gen_state) :
  let es' :=
    st_shifts (phase45 employee_names total_days
                 (phase4 employee_names total_days st)) in
  reshuffled (st_shifts st) es'
  ∧ ∀ e x, (get_shift es' e x = Some 0 ↔ get_shift (st_shifts st) e x = Some 0)
           ∧ (get_shift es' e x = None ↔ get_shift (st_shifts st) e x = None).
Proof.
  assert (H : reshuffled (st_shifts st)
                (st_shifts (phase45 employee_names total_days
                              (phase4 employee_names total_days st)))).
  { eapply reshuffled_trans; [apply phase4_reshuffled|apply phase45_reshuffled]. }
  split; [exact H|]. intros e x.
  destruct (H e x) as [->|[Hw Hw']]; [done|].
  unfold working in *. split; split; intros Heq; rewrite Heq in *;
    intuition congruence.
Qed.

(** ** Phase 5: what is left of Morning after Night *)

Lemma morning_viable_prev (es : schedule) (e : string) (day total_days : nat) :
  is_shift_viable es e day (Some 1) total_days = true → (0 < day)%nat →
  get_shift es e (day - 1) ≠ Some 3.
Proof.
  intros Hv Hday Hc. apply cell_is_Some in Hc. unfold get_shift in Hc.
  unfold is_shift_viable in Hv.
  change (1 =? 0) with false in Hv. change (1 =? 1) with true in Hv.
  cbn [negb andb] in Hv.
  destruct (length (row_of es e) <=? day)%nat; [done|].
  destruct (Nat.ltb_spec 0 day) as [_|?]; [|lia].
  rewrite Hc in Hv. rewrite !andb_true_r in Hv.
  destruct ((2 <=? day)%nat && cell_is _ 3); done.
Qed.

Lemma evening_not_viable (es : schedule) (e : string) (day total_days : nat) :
  is_shift_viable es e day (Some 2) total_days = false →
  (day < length (row_of es e))%nat →
  (2 ≤ day)%nat ∧ get_shift es e (day - 2) = Some 3
  ∧ get_shift es e (day - 1) = Some 3.
Proof.
  intros Hv Hlt. unfold is_shift_viable in Hv.
  change (2 =? 0) with false in Hv. change (2 =? 1) with false in Hv.
  change (2 =? 3) with false in Hv. cbn [negb andb] in Hv.
  destruct (Nat.leb_spec (length (row_of es e)) day) as [?|_]; [lia|].
  rewrite andb_true_r in Hv.
  destruct (Nat.leb_spec 2 day) as [H2|?]; [|done].
  destruct (Nat.ltb_spec 0 day) as [_|?]; [|lia].
  destruct (Nat.ltb_spec 1 day) as [_|?]; [|lia].
  cbn [andb] in Hv. unfold get_shift.
  destruct (cell_is (cell_at (row_of es e) (day - 2)) 3) eqn:E2; [|done].
  destruct (cell_is (cell_at (row_of es e) (day - 1)) 3) eqn:E1; [|done].
  apply cell_is_Some in E1, E2. done.
Qed.

Lemma no_new_refl (es : schedule) : no_new_morning_after_night es es.
Proof. split; [done|]. by intros e d H. Qed.

Lemma no_new_trans (es1 es2 es3 : schedule) :
  no_new_morning_after_night es1 es2 → no_new_morning_after_night es2 es3 →
  no_new_morning_after_night es1 es3.
Proof.
  intros [Hn1 Hm1] [Hn2 Hm2]. split.
  - intros e x. by rewrite Hn2, Hn1.
  - intros e d H. by apply Hm1, Hm2.
Qed.

(** A Morning or an Evening rewritten as Evening or Off. *)
Lemma no_new_rest (es : schedule) (emp : string) (day : nat) (old c : Z) :
  get_shift es emp day = Some old → old ≠ 3 → c ≠ 3 → c ≠ 1 →
  no_new_morning_after_night es (set_shift es emp day (Some c)).
Proof.
  intros Hold Ho Hc3 Hc1.
  assert (Hg : ∀ e x, get_shift (set_shift es emp day (Some c)) e x = Some 3
                      ↔ get_shift es e x = Some 3).
  { intros e x. rewrite get_shift_set_shift. case_bool_decide as Hk; [|done].
    destruct Hk as (<- & <- & _). rewrite Hold. split; congruence. }
  split; [exact Hg|]. intros e d [H3 H1]. split; [by apply Hg|].
  rewrite get_shift_set_shift in H1. case_bool_decide; [congruence|done].
Qed.

(** An Evening rewritten as a Morning that [is_shift_viable] accepts. *)
Lemma no_new_morning (es : schedule) (emp : string) (day total_days : nat)
    (old : Z) :
  get_shift es emp day = Some old → old ≠ 3 → (0 < day)%nat →
  is_shift_viable es emp day (Some 1) total_days = true →
  no_new_morning_after_night es (set_shift es emp day (Some 1)).
Proof.
  intros Hold Ho Hday Hv.
  assert (Hg : ∀ e x, get_shift (set_shift es emp day (Some 1)) e x = Some 3
                      ↔ get_shift es e x = Some 3).
  { intros e x. rewrite get_shift_set_shift. case_bool_decide as Hk; [|done].
    destruct Hk as (<- & <- & _). rewrite Hold. split; congruence. }
  split; [exact Hg|]. intros e d [H3 H1].
  apply Hg in H3. split; [done|].
  rewrite get_shift_set_shift in H1. case_bool_decide as Hk; [|done].
  destruct Hk as (<- & Hd & _). exfalso.
  apply (morning_viable_prev _ _ _ _ Hv Hday).
  by replace (day - 1)%nat with d by lia.
Qed.

Lemma phase5_cell_no_new (employee_names : list string) (total_days : nat)
    (emp : string) (st : gen_state) (day : nat) :
  (0 < day)%nat →
  no_new_morning_after_night (st_shifts st)
    (st_shifts (phase5_cell employee_names total_days emp st day)).
Proof.
  intros Hday. unfold phase5_cell.
  destruct (cell_is (get_shift (st_shifts st) emp day) 1) eqn:Ec;
    [|apply no_new_refl].
  destruct (cell_is (get_shift (st_shifts st) emp (day - 1)) 3);
    [|apply no_new_refl].
  apply cell_is_Some in Ec. cbn [andb].
  destruct (is_shift_viable (st_shifts st) emp day (Some 2) total_days).
  - assert (H1 : no_new_morning_after_night (st_shifts st)
                   (st_shifts (move_shift st emp day 1 2))).
    { simpl. by eapply no_new_rest. }
    destruct (_ && _); [|done].
    destruct (filter _ (sort_by_key _ _)) as [|swap_emp rest] eqn:Ef; [done|].
    eapply no_new_trans; [exact H1|].
    assert (Hin : swap_emp ∈ swap_emp :: rest) by left.
    rewrite <- Ef in Hin. apply list_elem_of_filter in Hin as [Hv Hin].
    apply elem_of_sort_by_key, list_elem_of_filter in Hin as [Hc _].
    apply andb_prop in Hc as [Hc _]. apply cell_is_Some in Hc.
    change (st_shifts (move_shift (move_shift st emp day 1 2) swap_emp day 2 1))
      with (set_shift (st_shifts (move_shift st emp day 1 2)) swap_emp day (Some 1)).
    by eapply no_new_morning.
  - destruct (_ && _); [|apply no_new_refl].
    simpl. by eapply no_new_rest.
Qed.

Lemma phase5_no_new (employee_names : list string) (total_days : nat)
    (st : gen_state) :
  no_new_morning_after_night (st_shifts st)
    (st_shifts (phase5 employee_names total_days st)).
Proof.
  unfold phase5.
  apply (foldl_invariant
           (λ s, no_new_morning_after_night (st_shifts st) (st_shifts s)));
    [apply no_new_refl|].
  intros s emp _ Hs. eapply no_new_trans; [exact Hs|]. clear Hs.
  apply (foldl_invariant
           (λ s', no_new_morning_after_night (st_shifts s) (st_shifts s')));
    [apply no_new_refl|].
  intros s' day Hd Hs'. eapply no_new_trans; [exact Hs'|].
  apply phase5_cell_no_new. apply elem_of_range in Hd. lia.
Qed.

(** X11.  Phase 5 writes no Night and removes none, and it creates no
    Morning after a Night: every such pair of its result was in the
    matrix it started from. *)
Theorem phase5_creates_no_morning_after_night (employee_names : list string)
    (total_days : nat) (st : gen_state) :
  let es' := st_shifts (phase5 employee_names total_days st) in
  (∀ e x, get_shift es' e x = Some 3 ↔ get_shift (st_shifts st) e x = Some 3)
  ∧ (∀ e d, get_shift es' e d = Some 3 → get_shift es' e (d + 1) = Some 1 →
            get_shift (st_shifts st) e d = Some 3
            ∧ get_shift (st_shifts st) e (d + 1) = Some 1).
Proof.
  destruct (phase5_no_new employee_names total_days st) as [Hn Hm].
  split; [exact Hn|]. intros e d H3 H1. by apply Hm.
Qed.

(** After Night, Night a Morning stays a Morning under later writes. *)
Lemma after_two_nights_kept (es es' : schedule) (e : string) (d : nat) :
  no_new_morning_after_night es es' →
  (morning_after_night es e d →
   (1 ≤ d)%nat ∧ get_shift es e (d - 1) = Some 3) →
  morning_after_night es' e d →
  (1 ≤ d)%nat ∧ get_shift es' e (d - 1) = Some 3.
Proof.
  intros [Hn Hm] H Hmn. destruct (H (Hm _ _ Hmn)) as [? ?].
  split; [done|]. by apply Hn.
Qed.

Lemma phase5_cell_fixes (employee_names : list string) (total_days : nat)
    (emp : string) (st : gen_state) (day : nat) :
  (0 < day)%nat →
  morning_after_night
    (st_shifts (phase5_cell employee_names total_days emp st day)) emp (day - 1) →
  (2 ≤ day)%nat
  ∧ get_shift (st_shifts (phase5_cell employee_names total_days emp st day))
              emp (day - 2) = Some 3.
Proof.
  intros Hday.
  pose proof (phase5_cell_no_new employee_names total_days emp st day Hday)
    as [Hn Hm].
  intros Hmn.
  assert (Hlater : get_shift (st_shifts (phase5_cell employee_names total_days
                                           emp st day)) emp day = Some 1).
  { destruct Hmn as [_ H]. by replace (day - 1 + 1)%nat with day in H by lia. }
  pose proof (Hm _ _ Hmn) as [H3 H1].
  replace (day - 1 + 1)%nat with day in H1 by lia.
  assert (Hlt : (day < length (row_of (st_shifts st) emp))%nat).
  { unfold get_shift, cell_at in H1.
    destruct (row_of (st_shifts st) emp !! day) eqn:E; [|done].
    by apply lookup_lt_Some in E. }
  revert Hlater. unfold phase5_cell.
  rewrite H1, H3. change (cell_is (Some 1) 1 && cell_is (Some 3) 3) with true.
  cbv iota.
  destruct (is_shift_viable (st_shifts st) emp day (Some 2) total_days) eqn:Ev.
  - assert (H2 : get_shift (st_shifts (move_shift st emp day 1 2)) emp day
                 = Some 2).
    { simpl. rewrite get_shift_set_shift. by rewrite bool_decide_eq_true_2. }
    destruct (_ && _); [|congruence].
    destruct (filter _ (sort_by_key _ _)) as [|swap_emp rest] eqn:Ef;
      [congruence|].
    assert (Hin : swap_emp ∈ swap_emp :: rest) by left.
    rewrite <- Ef in Hin. apply list_elem_of_filter in Hin as [_ Hin].
    apply elem_of_sort_by_key, list_elem_of_filter in Hin as [Hc _].
    apply andb_prop in Hc as [_ Hne]. apply negb_true_iff in Hne.
    apply bool_decide_eq_false in Hne.
    change (st_shifts (move_shift (move_shift st emp day 1 2) swap_emp day 2 1))
      with (set_shift (st_shifts (move_shift st emp day 1 2)) swap_emp day (Some 1)).
    rewrite get_shift_set_shift. rewrite bool_decide_eq_false_2; [congruence|].
    intros (-> & _). done.
  - apply evening_not_viable in Ev as (Hd2 & Hpp & _); [|done].
    destruct (_ && _).
    + simpl. rewrite get_shift_set_shift.
      rewrite bool_decide_eq_true_2 by done. done.
    + intros _. done.
Qed.

Lemma phase5_rest (employee_names : list string) (total_days : nat)
    (st : gen_state) (e : string) (d : nat) :
  e ∈ employee_names → (d + 1 < total_days)%nat →
  morning_after_night (st_shifts (phase5 employee_names total_days st)) e d →
  (1 ≤ d)%nat
  ∧ get_shift (st_shifts (phase5 employee_names total_days st)) e (d - 1) = Some 3.
Proof.
  intros He Hd. unfold phase5.
  set (inner := λ st emp, foldl (phase5_cell employee_names total_days emp) st
                                (range 1 total_days)).
  assert (Hinner_new : ∀ s emp,
            no_new_morning_after_night (st_shifts s) (st_shifts (inner s emp))).
  { intros s emp. unfold inner.
    apply (foldl_invariant
             (λ s', no_new_morning_after_night (st_shifts s) (st_shifts s')));
      [apply no_new_refl|].
    intros s' day Hday Hs'. eapply no_new_trans; [exact Hs'|].
    apply phase5_cell_no_new. apply elem_of_range in Hday. lia. }
  assert (Hinner_fix : ∀ s,
            morning_after_night (st_shifts (inner s e)) e d →
            (1 ≤ d)%nat ∧ get_shift (st_shifts (inner s e)) e (d - 1) = Some 3).
  { intros s. unfold inner.
    pose (I := λ (k : nat) (s' : gen_state),
            (d + 1 < k)%nat →
            morning_after_night (st_shifts s') e d →
            (1 ≤ d)%nat ∧ get_shift (st_shifts s') e (d - 1) = Some 3).
    assert (HI : I total_days (foldl (phase5_cell employee_names total_days e) s
                                      (range 1 total_days))).
    { apply foldl_range; [lia|intros ?; lia|].
      intros x s' Hx HIx Hlt.
      destruct (decide (d + 1 = x)%nat) as [<-|Hne].
      - intros Hmn.
        destruct (phase5_cell_fixes employee_names total_days e s' (d + 1))
          as [H2 Hpp]; [lia|by replace (d + 1 - 1)%nat with d by lia|].
        split; [lia|]. by replace (d - 1)%nat with (d + 1 - 2)%nat by lia.
      - intros Hmn. apply (after_two_nights_kept (st_shifts s')).
        + apply phase5_cell_no_new. lia.
        + apply HIx. lia.
        + exact Hmn. }
    apply HI. lia. }
  pose (J := λ s : gen_state,
          morning_after_night (st_shifts s) e d →
          (1 ≤ d)%nat ∧ get_shift (st_shifts s) e (d - 1) = Some 3).
  assert (Hfrom : ∀ l s, J s → J (foldl inner s l)).
  { induction l as [|emp l IH]; intros s Hs; simpl; [done|].
    apply IH. intros Hmn.
    apply (after_two_nights_kept (st_shifts s)); [apply Hinner_new|exact Hs|].
    exact Hmn. }
  apply list_elem_of_split in He as (l1 & l2 & ->).
  rewrite foldl_app. simpl. apply Hfrom. exact (Hinner_fix _).
Qed.

(** X12.  After phase 5 a Morning that still follows a Night, inside
    the period and in the row of a roster member, follows two Nights:
    the Morning after a single Night has been turned into Evening or
    Off. *)
Theorem phase5_leaves_only_after_two_nights (employee_names : list string)
    (total_days : nat) (st : gen_state) (e : string) (d : nat) :
  e ∈ employee_names → (d + 1 < total_days)%nat →
  get_shift (st_shifts (phase5 employee_names total_days st)) e d = Some 3 →
  get_shift (st_shifts (phase5 employee_names total_days st)) e (d + 1) = Some 1 →
  (1 ≤ d)%nat
  ∧ get_shift (st_shifts (phase5 employee_names total_days st)) e (d - 1) = Some 3.
Proof.
  intros He Hd H3 H1. by apply phase5_rest.
Qed.

Lemma phase5_leaves_only_after_two_nights_witness :
  (1 ≤ 1)%nat
  ∧ get_shift (st_shifts (phase5 ["a"; "b"]%string 3 night_night_morning))
              "a" (1 - 1) = Some 3.
Proof.
  apply (phase5_leaves_only_after_two_nights ["a"; "b"]%string 3
           night_night_morning "a" 1).
  - by apply (bool_decide_unpack _).
  - lia.
  - by vm_compute.
  - by vm_compute.
Defined.

(** ** A successful swap *)

Lemma rows_for_app (l1 l2 : list ShiftAssignment) (e : N) (d : Z) :
  rows_for (l1 ++ l2) e d = rows_for l1 e d ++ rows_for l2 e d.
Proof. apply filter_app. Qed.

Lemma rows_for_cons (a : ShiftAssignment) (l : list ShiftAssignment) (e : N)
    (d : Z) :
  rows_for (a :: l) e d
  = if bool_decide (sa_employee_id a = e ∧ sa_shift_date a = d)
    then a :: rows_for l e d else rows_for l e d.
Proof.
  unfold rows_for. rewrite filter_cons.
  case_bool_decide; by destruct (decide _).
Qed.

(** The row a lookup finds is the first row of its key. *)
Lemma find_assignment_from_split (rows : list ShiftAssignment) (e : N) (d : Z)
    (k i : nat) (a : ShiftAssignment) :
  find_assignment_from k rows e d = Some (i, a) →
  ∃ l1 l2, rows = l1 ++ a :: l2 ∧ (length l1 + k = i)%nat
           ∧ rows_for l1 e d = []
           ∧ sa_employee_id a = e ∧ sa_shift_date a = d.
Proof.
  revert k. induction rows as [|b rows IH]; intros k; simpl; [done|].
  destruct (bool_decide (sa_employee_id b = e) && (sa_shift_date b =? d)) eqn:E.
  - intros [= <- <-]. apply key_matches_true in E as [E1 E2].
    by exists [], rows.
  - intros H. apply IH in H as (l1 & l2 & -> & Hlen & Hnone & He & Hd).
    exists (b :: l1), l2. split; [done|]. split; [simpl; lia|].
    split; [|done]. rewrite rows_for_cons, bool_decide_eq_false_2; [done|].
    intros Hk. apply key_matches_true in Hk. congruence.
Qed.

Lemma find_assignment_from_none (rows : list ShiftAssignment) (e : N) (d : Z)
    (k : nat) :
  find_assignment_from k rows e d = None → rows_for rows e d = [].
Proof.
  revert k. induction rows as [|b rows IH]; intros k; simpl; [done|].
  destruct (bool_decide (sa_employee_id b = e) && (sa_shift_date b =? d)) eqn:E;
    [done|].
  intros H. rewrite rows_for_cons, bool_decide_eq_false_2; [by eapply IH|].
  intros Hk. apply key_matches_true in Hk. congruence.
Qed.

(** What a lookup reads is the shift of the first row of the key. *)
Lemma stored_shift_head (rows : list ShiftAssignment) (e : N) (d : Z) :
  stored_shift rows e d = sa_shift <$> head (rows_for rows e d).
Proof.
  unfold stored_shift, find_assignment.
  destruct (find_assignment_from 0 rows e d) as [[i a]|] eqn:E.
  - apply find_assignment_from_split in E as (l1 & l2 & -> & _ & Hn & He & Hd).
    rewrite rows_for_app, Hn, rows_for_cons, bool_decide_eq_true_2 by done. done.
  - apply find_assignment_from_none in E. by rewrite E.
Qed.

Lemma current_shift_of_head (rows : list ShiftAssignment) (e : N) (d : Z) :
  current_shift_of rows e d = default 0 (sa_shift <$> head (rows_for rows e d)).
Proof.
  rewrite <- stored_shift_head. unfold current_shift_of, stored_shift.
  by destruct (find_assignment rows e d) as [[i a]|].
Qed.

(** One side of the swap on the rows of every key: the first row of
    the key that takes [s] is deleted for Off and rewritten otherwise, a
    key without a row gets one unless it takes Off, and the rows of the
    other keys stay. *)
Lemma give_shift_rows_for (rows : list ShiftAssignment) (e : N) (day d s : Z)
    (e' : N) (d' : Z) :
  rows_for (give_shift rows e day d s) e' d'
  = if bool_decide (e' = e ∧ d' = d) then
      match rows_for rows e d with
      | a :: rest => (if s =? 0 then [] else [with_shift a s]) ++ rest
      | [] =>
        if s =? 0 then []
        else [{| sa_employee_id := e; sa_day := day; sa_shift := s;
                 sa_shift_date := d |}]
      end
    else rows_for rows e' d'.
Proof.
  unfold give_shift, find_assignment.
  destruct (find_assignment_from 0 rows e d) as [[i a]|] eqn:E.
  - apply find_assignment_from_split in E as (l1 & l2 & -> & Hlen & Hn & He & Hd).
    rewrite Nat.add_0_r in Hlen. subst i.
    assert (Hrows : rows_for (l1 ++ a :: l2) e d = a :: rows_for l2 e d).
    { by rewrite rows_for_app, Hn, rows_for_cons, bool_decide_eq_true_2. }
    rewrite Hrows.
    assert (Hother : ¬ (e' = e ∧ d' = d) →
              bool_decide (sa_employee_id a = e' ∧ sa_shift_date a = d') = false).
    { intros Hk. apply bool_decide_eq_false_2. intros [? ?]. apply Hk.
      split; congruence. }
    destruct (decide (e' = e ∧ d' = d)) as [[-> ->]|Hk].
    + rewrite (bool_decide_eq_true_2 (e = e ∧ d = d)) by done.
      destruct (s =? 0).
      * rewrite delete_middle, rows_for_app, Hn. done.
      * rewrite insert_app_r_alt by lia. rewrite Nat.sub_diag. simpl.
        rewrite rows_for_app, Hn, rows_for_cons. simpl.
        by rewrite bool_decide_eq_true_2.
    + rewrite (bool_decide_eq_false_2 (e' = e ∧ d' = d)) by done.
      rewrite rows_for_app, rows_for_cons, (Hother Hk).
      destruct (s =? 0).
      * by rewrite delete_middle, rows_for_app.
      * rewrite insert_app_r_alt by lia. rewrite Nat.sub_diag. simpl.
        rewrite rows_for_app, rows_for_cons. simpl. by rewrite (Hother Hk).
  - apply find_assignment_from_none in E. rewrite E.
    destruct (decide (e' = e ∧ d' = d)) as [[-> ->]|Hk].
    + rewrite (bool_decide_eq_true_2 (e = e ∧ d = d)) by done.
      destruct (s =? 0); [done|].
      rewrite rows_for_app, E, rows_for_cons. simpl.
      by rewrite bool_decide_eq_true_2.
    + rewrite (bool_decide_eq_false_2 (e' = e ∧ d' = d)) by done.
      destruct (s =? 0); [done|].
      rewrite rows_for_app, rows_for_cons. simpl.
      rewrite bool_decide_eq_false_2, app_nil_r; [done|].
      intros [? ?]. apply Hk. split; congruence.
Qed.

(** With at most one row for the key, the key reads [s] afterwards. *)
Lemma give_shift_current (rows : list ShiftAssignment) (e : N) (day d s : Z) :
  (length (rows_for rows e d) ≤ 1)%nat →
  current_shift_of (give_shift rows e day d s) e d = s
  ∧ (length (rows_for (give_shift rows e day d s) e d) ≤ 1)%nat.
Proof.
  intros Hu. rewrite current_shift_of_head, give_shift_rows_for.
  rewrite bool_decide_eq_true_2 by done.
  destruct (rows_for rows e d) as [|a [|b rest]]; [| |simpl in Hu; lia];
    destruct (Z.eqb_spec s 0) as [->|Hs]; simpl; split; done || lia.
Qed.

(** X13.  A swap that succeeds answers with the two codes exchanged
    and, when each of the two employees has at most one row on that
    date, stores them exchanged: afterwards the first employee reads
    the code the second had and the second the code the first had (Off
    when there is no row).  The rows of every other employee and date
    are as before, and one commit is made. *)
Theorem swap_shifts_exchanges (db db' : database) (employee1_id employee2_id : N)
    (day : Z) (m : month) (shift_date new1 new2 : Z) :
  make_date m day = Some shift_date →
  (length (rows_for (db_assignments db) employee1_id shift_date) ≤ 1)%nat →
  (length (rows_for (db_assignments db) employee2_id shift_date) ≤ 1)%nat →
  swap_shifts db employee1_id employee2_id day m = (inr (new1, new2), db') →
  new1 = current_shift_of (db_assignments db) employee2_id shift_date
  ∧ new2 = current_shift_of (db_assignments db) employee1_id shift_date
  ∧ current_shift_of (db_assignments db') employee1_id shift_date = new1
  ∧ current_shift_of (db_assignments db') employee2_id shift_date = new2
  ∧ (∀ e d, ¬ (d = shift_date ∧ (e = employee1_id ∨ e = employee2_id)) →
            rows_for (db_assignments db') e d = rows_for (db_assignments db) e d)
  ∧ db_employees db' = db_employees db
  ∧ db_commits db' = S (db_commits db).
Proof.
  intros Hdate Hu1 Hu2. unfold swap_shifts. rewrite Hdate.
  case_bool_decide as Hne; [done|].
  destruct (db_employees db !! employee1_id); [|done].
  destruct (db_employees db !! employee2_id); [|done].
  set (rows := db_assignments db) in *.
  set (s1 := current_shift_of rows employee1_id shift_date).
  set (s2 := current_shift_of rows employee2_id shift_date).
  destruct (s1 =? s2); [done|].
  repeat (destruct (_ && _); [done|]).
  intros [= <- <- <-]. cbn [db_assignments db_employees db_commits].
  split; [done|]. split; [done|].
  set (rows1 := give_shift rows employee1_id day shift_date s2).
  destruct (give_shift_current rows employee1_id day shift_date s2 Hu1)
    as [Hc1 _]. fold rows1 in Hc1.
  assert (Hu2' : (length (rows_for rows1 employee2_id shift_date) ≤ 1)%nat).
  { unfold rows1. rewrite give_shift_rows_for.
    rewrite bool_decide_eq_false_2; [done|]. intros [? _]. congruence. }
  destruct (give_shift_current rows1 employee2_id day shift_date s1 Hu2')
    as [Hc2 _].
  split.
  - rewrite current_shift_of_head, give_shift_rows_for.
    rewrite bool_decide_eq_false_2 by (intros [? _]; congruence).
    by rewrite <- current_shift_of_head.
  - split; [exact Hc2|]. split; [|done].
    intros e d Hk. rewrite give_shift_rows_for.
    rewrite bool_decide_eq_false_2 by (intros [-> ->]; apply Hk; auto).
    unfold rows1. rewrite give_shift_rows_for.
    rewrite bool_decide_eq_false_2 by (intros [-> ->]; apply Hk; auto).
    done.
Qed.

Lemma swap_shifts_exchanges_witness :
  2 = current_shift_of (db_assignments small_db) 2 1011
  ∧ 1 = current_shift_of (db_assignments small_db) 1 1011
  ∧ current_shift_of (db_assignments (swap_shifts small_db 1 2 12 june).2) 1 1011
    = 2
  ∧ current_shift_of (db_assignments (swap_shifts small_db 1 2 12 june).2) 2 1011
    = 1
  ∧ (∀ e d, ¬ (d = 1011 ∧ (e = 1%N ∨ e = 2%N)) →
            rows_for (db_assignments (swap_shifts small_db 1 2 12 june).2) e d
            = rows_for (db_assignments small_db) e d)
  ∧ db_employees (swap_shifts small_db 1 2 12 june).2 = db_employees small_db
  ∧ db_commits (swap_shifts small_db 1 2 12 june).2 = S (db_commits small_db).
Proof.
  apply (swap_shifts_exchanges small_db _ 1 2 12 june 1011 2 1).
  - reflexivity.
  - vm_compute. lia.
  - vm_compute. lia.
  - reflexivity.
Defined.

(** ** The monthly report *)

Lemma filter_insert_sorted_date (leb : ShiftAssignment → ShiftAssignment → bool)
    (d : Z) (x : ShiftAssignment) (l : list ShiftAssignment) :
  (∀ x y, leb x y = false → sa_shift_date y < sa_shift_date x) →
  filter (λ a, sa_shift_date a = d) (insert_sorted leb x l)
  = filter (λ a, sa_shift_date a = d) (x :: l).
Proof.
  intros Hleb. induction l as [|y l IH]; cbn [insert_sorted]; [done|].
  destruct (leb x y) eqn:E; [done|]. apply Hleb in E.
  rewrite filter_cons, IH, !filter_cons.
  destruct (decide (sa_shift_date y = d)) as [Hy|Hy];
    destruct (decide (sa_shift_date x = d)) as [Hx|Hx]; try done.
  lia.
Qed.

(** Sorting by date keeps the rows of one date in their order. *)
Lemma filter_sort_date (d : Z) (l : list ShiftAssignment) :
  filter (λ a, sa_shift_date a = d) (sort_by_key (λ a, [sa_shift_date a]) l)
  = filter (λ a, sa_shift_date a = d) l.
Proof.
  unfold sort_by_key, sort_by. induction l as [|x l IH]; cbn [foldr]; [done|].
  rewrite filter_insert_sorted_date, !filter_cons, IH; [done|].
  intros a b E. cbn [lex_le] in E. apply orb_false_elim in E as [E1 E2].
  rewrite andb_true_r in E2. apply Z.ltb_ge in E1. apply Z.eqb_neq in E2. lia.
Qed.

Lemma assign_map_lookup (l : list ShiftAssignment) (m0 : gmap Z ShiftAssignment)
    (d : Z) :
  foldl (λ mp a, <[sa_shift_date a := a]> mp) m0 l !! d
  = match last (filter (λ a, sa_shift_date a = d) l) with
    | Some a => Some a
    | None => m0 !! d
    end.
Proof.
  revert m0. induction l as [|x l IH]; intros m0; simpl; [done|].
  rewrite IH, filter_cons.
  destruct (decide (sa_shift_date x = d)) as [Hx|Hx].
  - rewrite last_cons.
    destruct (last (filter _ l)); [done|]. by rewrite Hx, lookup_insert_eq.
  - destruct (last (filter _ l)); [done|]. by rewrite lookup_insert_ne.
Qed.

Lemma foldl_range_S {A} (f : A → nat → A) (a : A) (n : nat) :
  foldl f a (range 0 (S n)) = f (foldl f a (range 0 n)) n.
Proof.
  unfold range. rewrite !Nat.sub_0_r, seq_S, foldl_app. done.
Qed.

Lemma zero_counts_lookup (c : Z) :
  zero_counts !! c = if bool_decide (c ∈ SHIFT_NAMES_keys) then Some 0 else None.
Proof.
  destruct (decide (c = 1)) as [->|H1]; [by vm_compute|].
  destruct (decide (c = 2)) as [->|H2]; [by vm_compute|].
  destruct (decide (c = 3)) as [->|H3]; [by vm_compute|].
  destruct (decide (c = 0)) as [->|H0]; [by vm_compute|].
  unfold zero_counts, SHIFT_NAMES_keys. cbn [foldr].
  rewrite !lookup_insert_ne by done. rewrite lookup_empty.
  rewrite bool_decide_eq_false_2; [done|].
  intros Hin. repeat (apply elem_of_cons in Hin as [?|Hin]; [congruence|]).
  by apply elem_of_nil in Hin.
Qed.

(** The loop of the report: [schedule] has one entry per day, in
    order, and [stats] counts the entries of each key. *)
Lemma schedule_loop (assign_map : gmap Z ShiftAssignment) (start_date : Z)
    (n : nat) :
  ∃ schedule stats weekday_offs,
    foldl (schedule_step assign_map start_date) ([], zero_counts, ∅) (range 0 n)
    = (schedule, stats, weekday_offs)
    ∧ schedule
      = (λ k, {| se_day := Z.of_nat k + 1; se_date := start_date + Z.of_nat k;
                 se_shift_code := code_on assign_map start_date k;
                 se_shift_name :=
                   default "Unknown"%string
                     (SHIFT_NAMES_get (code_on assign_map start_date k)) |})
        <$> seq 0 n
    ∧ ∀ c, stats !! c
           = if bool_decide (c ∈ SHIFT_NAMES_keys)
             then Some (days_with schedule c) else None.
Proof.
  induction n as [|n (schedule & stats & wo & Hfold & Hsch & Hstats)].
  - exists [], zero_counts, ∅. split; [done|]. split; [done|].
    intros c. rewrite zero_counts_lookup. by case_bool_decide.
  - rewrite foldl_range_S, Hfold. unfold schedule_step at 1.
    eexists _, _, _. split; [reflexivity|]. split.
    { rewrite seq_S, fmap_app, <- Hsch. done. }
    intros c. set (code := code_on assign_map start_date n).
    unfold days_with. rewrite filter_app, length_app, filter_cons, filter_nil.
    cbn [se_shift_code].
    pose proof (Hstats code) as Hcode. pose proof (Hstats c) as Hc.
    unfold days_with in Hcode, Hc.
    destruct (stats !! code) as [v|] eqn:Ev.
    + destruct (decide (c = code)) as [->|Hne].
      * rewrite lookup_insert_eq. rewrite Ev in Hc.
        destruct (bool_decide (code ∈ SHIFT_NAMES_keys)); [|done].
        injection Hc as ->. rewrite decide_True by done. simpl.
        f_equal. lia.
      * rewrite lookup_insert_ne by done. rewrite Hc.
        rewrite decide_False by done. simpl. by rewrite Nat.add_0_r.
    + rewrite Hc. destruct (decide (code = c)) as [<-|Hne].
      * rewrite Ev in Hc. destruct (bool_decide (code ∈ SHIFT_NAMES_keys)); done.
      * simpl. by rewrite Nat.add_0_r.
Qed.

(** The code the report shows for a date of the month is the shift of
    the last row of that employee and date. *)
Lemma report_code (rows : list ShiftAssignment) (e : N) (start_date end_date : Z)
    (k : nat) :
  start_date + Z.of_nat k ≤ end_date →
  code_on (assign_map_of
             (sort_by_key (λ a, [sa_shift_date a])
                (filter (λ a, sa_employee_id a = e ∧ start_date ≤ sa_shift_date a
                              ∧ sa_shift_date a ≤ end_date) rows)))
          start_date k
  = default 0 (sa_shift <$> last (rows_for rows e (start_date + Z.of_nat k))).
Proof.
  intros Hk. unfold code_on, assign_map_of.
  rewrite assign_map_lookup, filter_sort_date, lookup_empty.
  rewrite list_filter_filter.
  assert (Heq : filter (λ a, sa_shift_date a = start_date + Z.of_nat k
                             ∧ sa_employee_id a = e
                             ∧ start_date ≤ sa_shift_date a
                             ∧ sa_shift_date a ≤ end_date) rows
                = rows_for rows e (start_date + Z.of_nat k)).
  { unfold rows_for. apply list_filter_iff. intros a. split.
    - intros (? & ? & _). done.
    - intros [? Hd]. rewrite Hd. split; [done|]. split; [done|]. lia. }
  rewrite Heq. by destruct (last _).
Qed.

(** X14.  For a known employee and an existing month the report lists
    every day of the month once, in order: the entry of day [k + 1]
    carries the date of that day and, when the employee has at most one
    stored row on that date, the code that [swap_shifts] reads for it:
    the stored code, Off when there is no row. *)
Theorem get_employee_schedule_days (db : database) (employee_id : N) (m : month)
    (name : string) :
  db_employees db !! employee_id = Some name → 1 ≤ month_len m →
  ∃ report,
    get_employee_schedule db employee_id m = inr report
    ∧ er_employee_name report = name
    ∧ length (er_schedule report) = Z.to_nat (month_len m)
    ∧ ∀ k, (k < Z.to_nat (month_len m))%nat →
        ∃ en, er_schedule report !! k = Some en
          ∧ se_day en = Z.of_nat k + 1
          ∧ se_date en = first_ordinal m + Z.of_nat k
          ∧ ((length (rows_for (db_assignments db) employee_id
                               (first_ordinal m + Z.of_nat k)) ≤ 1)%nat →
             se_shift_code en
             = current_shift_of (db_assignments db) employee_id
                                (first_ordinal m + Z.of_nat k)).
Proof.
  intros Hemp Hlen. unfold get_employee_schedule. rewrite Hemp.
  unfold make_date.
  destruct (Z.leb_spec 1 1) as [_|?]; [|lia].
  destruct (Z.leb_spec 1 (month_len m)) as [_|?]; [|lia].
  cbn [andb]. replace (first_ordinal m + 1 - 1) with (first_ordinal m) by lia.
  set (assign_map := assign_map_of _).
  destruct (schedule_loop assign_map (first_ordinal m) (Z.to_nat (month_len m)))
    as (schedule & stats & wo & -> & Hsch & _).
  eexists. split; [reflexivity|]. cbn [er_employee_name er_schedule].
  split; [done|]. split; [by rewrite Hsch, length_fmap, length_seq|].
  intros k Hk. rewrite Hsch, list_lookup_fmap, lookup_seq_lt by done.
  eexists. split; [reflexivity|]. simpl. split; [done|]. split; [done|].
  intros Hu. unfold assign_map. rewrite report_code by lia.
  rewrite current_shift_of_head.
  destruct (rows_for _ _ _) as [|a [|b rest]]; [done|done|simpl in Hu; lia].
Qed.

Lemma get_employee_schedule_days_witness :
  ∃ report,
    get_employee_schedule small_db 1 june = inr report
    ∧ er_employee_name report = "a"%string
    ∧ length (er_schedule report) = Z.to_nat (month_len june)
    ∧ ∀ k, (k < Z.to_nat (month_len june))%nat →
        ∃ en, er_schedule report !! k = Some en
          ∧ se_day en = Z.of_nat k + 1
          ∧ se_date en = first_ordinal june + Z.of_nat k
          ∧ ((length (rows_for (db_assignments small_db) 1
                               (first_ordinal june + Z.of_nat k)) ≤ 1)%nat →
             se_shift_code en
             = current_shift_of (db_assignments small_db) 1
                                (first_ordinal june + Z.of_nat k)).
Proof.
  apply (get_employee_schedule_days small_db 1 june "a").
  - reflexivity.
  - vm_compute. discriminate.
Defined.

(** X15.  The statistics of the report count its days: for each of
    Morning, Evening, Night and Off the number of listed days with that
    code, a day without a stored row being a day Off.  A day whose
    stored code is none of the four is listed but counted nowhere. *)
Theorem get_employee_schedule_statistics (db : database) (employee_id : N)
    (m : month) :
  match get_employee_schedule db employee_id m with
  | inr report =>
    er_statistics report
    = [("Morning"%string, days_with (er_schedule report) 1);
       ("Evening"%string, days_with (er_schedule report) 2);
       ("Night"%string, days_with (er_schedule report) 3);
       ("Off"%string, days_with (er_schedule report) 0)]
    ∧ (days_with (er_schedule report) 1 + days_with (er_schedule report) 2
       + days_with (er_schedule report) 3 + days_with (er_schedule report) 0
       = Z.of_nat (length (er_schedule report))
       ↔ ∀ en, en ∈ er_schedule report → se_shift_code en ∈ SHIFT_NAMES_keys)
  | inl _ => True
  end.
Proof.
  unfold get_employee_schedule.
  destruct (db_employees db !! employee_id) as [name|]; [|done].
  destruct (make_date m 1) as [start_date|]; [|done].
  set (assign_map := assign_map_of _).
  destruct (schedule_loop assign_map start_date (Z.to_nat (month_len m)))
    as (schedule & stats & wo & -> & _ & Hstats).
  cbn [er_statistics er_schedule]. split.
  - unfold SHIFT_NAMES_keys. simpl. rewrite !Hstats.
    rewrite !bool_decide_eq_true_2
      by (apply (bool_decide_unpack _); reflexivity).
    done.
  - clear Hstats. unfold days_with.
    induction schedule as [|en schedule IH]; simpl.
    { split; [|done]. intros _ en Hen. by apply elem_of_nil in Hen. }
    rewrite !filter_cons.
    assert (Hle : ∀ l : list schedule_entry,
              (Z.of_nat (length (filter (λ en, se_shift_code en = 1) l))
               + Z.of_nat (length (filter (λ en, se_shift_code en = 2) l))
               + Z.of_nat (length (filter (λ en, se_shift_code en = 3) l))
               + Z.of_nat (length (filter (λ en, se_shift_code en = 0) l))
               ≤ Z.of_nat (length l))).
    { induction l as [|x l IHl]; simpl; [lia|]. rewrite !filter_cons.
      repeat case_decide; simpl; lia. }
    pose proof (Hle schedule) as Hs.
    destruct (decide (se_shift_code en ∈ SHIFT_NAMES_keys)) as [Hin|Hout].
    + assert (Hcases : se_shift_code en = 1 ∨ se_shift_code en = 2
                       ∨ se_shift_code en = 3 ∨ se_shift_code en = 0).
      { unfold SHIFT_NAMES_keys in Hin.
        repeat (apply elem_of_cons in Hin as [?|Hin]; [tauto|]).
        by apply elem_of_nil in Hin. }
      split.
      * intros Hsum x Hx. apply elem_of_cons in Hx as [->|Hx]; [done|].
        apply IH; [|done]. repeat case_decide; simpl in Hsum; lia.
      * intros Hall.
        assert (Hrest : ∀ x, x ∈ schedule → se_shift_code x ∈ SHIFT_NAMES_keys).
        { intros x Hx. apply Hall. by right. }
        apply IH in Hrest. repeat case_decide; simpl; lia.
    + split.
      * intros Hsum. exfalso.
        assert (se_shift_code en ≠ 1 ∧ se_shift_code en ≠ 2
                ∧ se_shift_code en ≠ 3 ∧ se_shift_code en ≠ 0) as (?&?&?&?).
        { repeat split; intros Heq; apply Hout; rewrite Heq;
            apply (bool_decide_unpack _); reflexivity. }
        rewrite !decide_False in Hsum by done. lia.
      * intros Hall. exfalso. apply Hout, Hall. left.
Qed.

(** ** Deleting the schedule of a month *)

Lemma rows_split_length (start_date end_date_exclusive : Z)
    (rows : list ShiftAssignment) :
  length rows
  = (length (rows_out_of_range start_date end_date_exclusive rows)
     + length (rows_in_range start_date end_date_exclusive rows))%nat.
Proof.
  unfold rows_out_of_range, rows_in_range.
  induction rows as [|a rows IH]; simpl; [done|].
  rewrite !filter_cons. destruct (decide (_ ∧ _)) as [Hin|Hout].
  - rewrite decide_False by tauto. simpl. lia.
  - rewrite decide_True by done. simpl. lia.
Qed.

Lemma rows_in_out (start_date end_date_exclusive : Z)
    (rows : list ShiftAssignment) :
  rows_in_range start_date end_date_exclusive
    (rows_out_of_range start_date end_date_exclusive rows) = [].
Proof.
  unfold rows_out_of_range, rows_in_range. rewrite list_filter_filter.
  induction rows as [|a rows IH]; [done|].
  rewrite filter_cons, decide_False by tauto. done.
Qed.

Lemma rows_in_range_nil (start_date end_date_exclusive : Z)
    (rows : list ShiftAssignment) :
  rows_in_range start_date end_date_exclusive rows = [] →
  rows_out_of_range start_date end_date_exclusive rows = rows.
Proof.
  unfold rows_out_of_range, rows_in_range.
  induction rows as [|a rows IH]; [done|].
  rewrite !filter_cons. destruct (decide (_ ∧ _)) as [Hin|Hout]; [done|].
  intros H. rewrite decide_True by done. by rewrite IH.
Qed.

(** X16.  A deletion that reports [n] deleted rows removed exactly the
    rows dated inside the target month, [n > 0] of them: the rows
    outside the month are kept in their order, one commit is made, and
    the same request repeated finds nothing and changes nothing. *)
Theorem delete_shift_schedule_clears_month (now_year now_month : Z)
    (year month : option Z) (db db' : database) (n : nat) :
  delete_shift_schedule now_year now_month year month db = (Deleted n, db') →
  ∃ start_date total_days,
    first_of_month (default now_year year) (default now_month month)
      = Some start_date
    ∧ monthrange_days (default now_year year) (default now_month month)
      = Some total_days
    ∧ (0 < n)%nat
    ∧ n = length (rows_in_range start_date (start_date + total_days)
                                (db_assignments db))
    ∧ db_assignments db'
      = rows_out_of_range start_date (start_date + total_days)
                          (db_assignments db)
    ∧ length (db_assignments db) = (length (db_assignments db') + n)%nat
    ∧ db_commits db' = S (db_commits db)
    ∧ delete_shift_schedule now_year now_month year month db'
      = (Delete_nothing_found, db').
Proof.
  unfold delete_shift_schedule.
  destruct (monthrange_days _ _) as [total_days|]; [|done].
  destruct (past_month _ _ _ _); [done|].
  destruct (first_of_month _ _) as [start_date|]; [|done].
  destruct (add_days start_date total_days) as [end_date|] eqn:Eadd; [|done].
  assert (end_date = start_date + total_days) as ->.
  { unfold add_days in Eadd. destruct (_ && _); congruence. }
  destruct (Nat.eqb_spec (length (rows_in_range start_date
                                     (start_date + total_days)
                                     (db_assignments db))) 0) as [|Hpos];
    [done|].
  intros [= <- <-]. exists start_date, total_days.
  cbn [db_assignments db_commits db_employees].
  split; [done|]. split; [done|]. split; [lia|]. split; [done|].
  split; [done|]. split; [apply rows_split_length|]. split; [done|].
  by rewrite rows_in_out.
Qed.

Lemma delete_shift_schedule_clears_month_witness :
  ∃ start_date total_days,
    first_of_month (default 2026 (Some 2026)) (default 11 None) = Some start_date
    ∧ monthrange_days (default 2026 (Some 2026)) (default 11 None)
      = Some total_days
    ∧ (0 < 2)%nat
    ∧ 2%nat = length (rows_in_range start_date (start_date + total_days)
                                    (db_assignments november_db))
    ∧ db_assignments
        (delete_shift_schedule 2026 11 (Some 2026) None november_db).2
      = rows_out_of_range start_date (start_date + total_days)
                          (db_assignments november_db)
    ∧ length (db_assignments november_db)
      = Nat.add (length (db_assignments
                           (delete_shift_schedule 2026 11 (Some 2026) None
                                                  november_db).2)) 2
    ∧ db_commits (delete_shift_schedule 2026 11 (Some 2026) None november_db).2
      = S (db_commits november_db)
    ∧ delete_shift_schedule 2026 11 (Some 2026) None
        (delete_shift_schedule 2026 11 (Some 2026) None november_db).2
      = (Delete_nothing_found,
         (delete_shift_schedule 2026 11 (Some 2026) None november_db).2).
Proof.
  apply (delete_shift_schedule_clears_month 2026 11 (Some 2026) None
           november_db _ 2).
  reflexivity.
Defined.

(** ** Generating and storing the schedule of a month *)

Lemma add_days_Some (ordinal n d : Z) :
  add_days ordinal n = Some d → d = ordinal + n.
Proof. unfold add_days. destruct (_ && _); congruence. Qed.

(** X17.  Without [force], [assign_shifts] deletes no stored row:
    whatever the reply, the table afterwards is the table before,
    followed by the rows that were added, and a reply other than
    success leaves the database as it was. *)
Theorem assign_shifts_without_force_keeps_rows (now_year now_month : Z)
    (year month : option Z) (employee_list : list (N * string))
    (rng : list nat) (db : database) :
  let reply :=
    (assign_shifts now_year now_month year month false employee_list rng db).1 in
  let db' :=
    (assign_shifts now_year now_month year month false employee_list rng db).2 in
  (∃ added, db_assignments db' = db_assignments db ++ added
            ∧ ∀ n, reply = Assigned n → n = length added)
  ∧ ((∀ n, reply ≠ Assigned n) → db' = db).
Proof.
  cbv zeta. unfold assign_shifts.
  assert (Hsame : ∀ r : assign_reply,
            (∀ n, r ≠ Assigned n) →
            (∃ added, db_assignments (r, db).2 = db_assignments db ++ added
                      ∧ ∀ n, (r, db).1 = Assigned n → n = length added)
            ∧ ((∀ n, (r, db).1 ≠ Assigned n) → (r, db).2 = db)).
  { intros r Hr. split; [|done]. exists []. split; [by rewrite app_nil_r|].
    intros n Hn. by apply Hr in Hn. }
  destruct (monthrange_days _ _) as [total_days|]; [|by apply Hsame].
  destruct (past_month _ _ _ _); [by apply Hsame|].
  destruct (_ <? _); [by apply Hsame|].
  destruct (first_of_month _ _) as [start_date|]; [|by apply Hsame].
  destruct (add_days _ _) as [end_date|]; [|by apply Hsame].
  destruct (Nat.ltb_spec 0 (length (rows_in_range start_date end_date
                                      (db_assignments db)))) as [Hpos|Hzero];
    [by apply Hsame|].
  cbn [andb].
  destruct (_ <? _); [by apply Hsame|].
  destruct (generate_optimized_shifts _ _ _) as [[]|es]; [by apply Hsame..|].
  cbn [fst snd db_assignments]. split.
  - eexists. split.
    + rewrite rows_in_range_nil; [done|]. apply nil_length_inv. lia.
    + by intros n [= <-].
  - intros Hn. exfalso. by eapply Hn.
Qed.

Lemma dict_keys_NoDup_id (seen l : list string) :
  NoDup l → (∀ x, x ∈ l → x ∉ seen) → dict_keys seen l = l.
Proof.
  revert seen. induction l as [|x l IH]; intros seen Hnd Hout; simpl; [done|].
  apply NoDup_cons in Hnd as [Hx Hnd].
  rewrite bool_decide_eq_false_2 by (apply Hout; left).
  f_equal. apply IH; [done|]. intros y Hy Hin.
  apply elem_of_cons in Hin as [->|Hin]; [done|].
  by apply (Hout y); [right|].
Qed.

Lemma foldl_id_map_notin (l : list (N * string)) (m0 : gmap string N)
    (name : string) :
  name ∉ snd <$> l →
  foldl (λ mp emp, <[emp.2 := emp.1]> mp) m0 l !! name = m0 !! name.
Proof.
  revert m0. induction l as [|x l IH]; intros m0 Hn; simpl; [done|].
  rewrite IH by (intros H; apply Hn; by right).
  apply lookup_insert_ne. intros Heq. apply Hn. rewrite <- Heq. left.
Qed.

Lemma employee_id_map_lookup (employee_list : list (N * string)) (id : N)
    (name : string) :
  NoDup (snd <$> employee_list) → (id, name) ∈ employee_list →
  employee_id_map employee_list !! name = Some id.
Proof.
  unfold employee_id_map. generalize (∅ : gmap string N).
  induction employee_list as [|x l IH]; intros m0 Hnd Hin; simpl.
  { by apply elem_of_nil in Hin. }
  simpl in Hnd. apply NoDup_cons in Hnd as [Hx Hnd].
  apply elem_of_cons in Hin as [<-|Hin].
  - rewrite foldl_id_map_notin by done. apply lookup_insert_eq.
  - by apply IH.
Qed.

(** With distinct names, the rows to add are the rows of each employee
    of the list in turn. *)
Lemma assignments_to_add_distinct (employee_list : list (N * string))
    (es : schedule) (start_date : Z) :
  NoDup (snd <$> employee_list) →
  assignments_to_add employee_list es start_date
  = mjoin ((λ emp, assignments_of_row emp.1 start_date (row_of es emp.2))
           <$> employee_list).
Proof.
  intros Hnd. unfold assignments_to_add.
  rewrite dict_keys_NoDup_id; [|done|intros x _ H; by apply elem_of_nil in H].
  rewrite <- list_fmap_compose.
  f_equal. apply Forall_fmap_ext_1, Forall_forall. intros [id name] Hin.
  simpl. by rewrite (employee_id_map_lookup _ id name).
Qed.

Lemma elem_of_assignments_of_row (emp_id : N) (start_date : Z)
    (shifts : list (option Z)) (a : ShiftAssignment) :
  a ∈ assignments_of_row emp_id start_date shifts →
  sa_employee_id a = emp_id
  ∧ ∃ k, (k < length shifts)%nat ∧ sa_shift_date a = start_date + Z.of_nat k.
Proof.
  unfold assignments_of_row. intros Ha.
  apply list_elem_of_omap in Ha as ([k c] & Hin & Hsome).
  apply elem_of_zip_l in Hin. apply elem_of_seq in Hin.
  simpl in Hsome. destruct c as [code|]; [|done].
  injection Hsome as <-. simpl. split; [done|]. exists k. split; [lia|done].
Qed.

Lemma filter_none {A} (P : A → Prop) `{∀ x, Decision (P x)} (l : list A) :
  (∀ a, a ∈ l → ¬ P a) → filter P l = [].
Proof.
  intros Hl. induction l as [|a l IH]; [done|].
  rewrite filter_cons, decide_False by (apply Hl; left).
  apply IH. intros b Hb. apply Hl. by right.
Qed.

Lemma rows_for_none (l : list ShiftAssignment) (e : N) (d : Z) :
  (∀ a, a ∈ l → ¬ (sa_employee_id a = e ∧ sa_shift_date a = d)) →
  rows_for l e d = [].
Proof. apply filter_none. Qed.

(** The rows of one matrix row, read back by date. *)
Lemma rows_for_row_from (emp_id : N) (start_date : Z) (shifts : list (option Z))
    (j k : nat) :
  rows_for
    (omap (λ cell : nat * option Z,
             match cell.2 with
             | Some shift_code =>
               Some {| sa_employee_id := emp_id;
                       sa_day := Z.of_nat cell.1 + 1;
                       sa_shift := shift_code;
                       sa_shift_date := start_date + Z.of_nat cell.1 |}
             | None => None
             end)
          (zip (seq j (length shifts)) shifts))
    emp_id (start_date + Z.of_nat k)
  = match (if (j <=? k)%nat then shifts !! (k - j)%nat else None) with
    | Some (Some c) =>
      [{| sa_employee_id := emp_id; sa_day := Z.of_nat k + 1; sa_shift := c;
          sa_shift_date := start_date + Z.of_nat k |}]
    | _ => []
    end.
Proof.
  revert j. induction shifts as [|c shifts IH]; intros j.
  { simpl. by destruct (j <=? k)%nat. }
  cbn [length seq zip zip_with omap list_omap]. cbn [fst snd].
  assert (Hrest : (if (S j <=? k)%nat then shifts !! (k - S j)%nat else None)
                  = if bool_decide (j = k) then None
                    else if (j <=? k)%nat then (c :: shifts) !! (k - j)%nat
                         else None).
  { case_bool_decide as Hjk.
    - subst. by destruct (Nat.leb_spec (S k) k) as [?|_]; [lia|].
    - destruct (Nat.leb_spec (S j) k) as [Hle|Hgt].
      + destruct (Nat.leb_spec j k) as [_|?]; [|lia].
        by replace (k - j)%nat with (S (k - S j)) by lia.
      + by destruct (Nat.leb_spec j k) as [?|_]; [lia|]. }
  destruct c as [code|].
  - rewrite rows_for_cons. cbn [sa_employee_id sa_shift_date].
    rewrite IH, Hrest.
    destruct (decide (j = k)) as [->|Hne].
    + rewrite !bool_decide_eq_true_2 by done.
      destruct (Nat.leb_spec k k) as [_|?]; [|lia].
      by rewrite Nat.sub_diag.
    + rewrite !bool_decide_eq_false_2; [done|done|]. intros [_ ?]. lia.
  - rewrite IH, Hrest. case_bool_decide as Hjk; [|done].
    subst. destruct (Nat.leb_spec k k) as [_|?]; [|lia].
    by rewrite Nat.sub_diag.
Qed.

Lemma rows_for_assignments_of_row (emp_id : N) (start_date : Z)
    (shifts : list (option Z)) (k : nat) :
  rows_for (assignments_of_row emp_id start_date shifts) emp_id
           (start_date + Z.of_nat k)
  = match cell_at shifts k with
    | Some c =>
      [{| sa_employee_id := emp_id; sa_day := Z.of_nat k + 1; sa_shift := c;
          sa_shift_date := start_date + Z.of_nat k |}]
    | None => []
    end.
Proof.
  unfold assignments_of_row. rewrite rows_for_row_from. simpl.
  rewrite Nat.sub_0_r. unfold cell_at. by destruct (shifts !! k) as [[c|]|].
Qed.

Lemma mjoin_cons {A} (x : list A) (l : list (list A)) :
  mjoin (x :: l) = x ++ mjoin l.
Proof. done. Qed.

Lemma rows_for_bind (employee_list : list (N * string)) (es : schedule)
    (start_date : Z) (id : N) (name : string) (d : Z) :
  NoDup (fst <$> employee_list) → (id, name) ∈ employee_list →
  rows_for (mjoin ((λ emp, assignments_of_row emp.1 start_date
                                                (row_of es emp.2))
                   <$> employee_list))
           id d
  = rows_for (assignments_of_row id start_date (row_of es name)) id d.
Proof.
  intros Hnd Hin.
  assert (Hother : ∀ l : list (N * string), id ∉ fst <$> l →
            rows_for (mjoin ((λ emp, assignments_of_row emp.1 start_date
                                                        (row_of es emp.2))
                             <$> l)) id d
            = []).
  { intros l Hl. apply rows_for_none. intros a Ha [He _].
    apply list_elem_of_join in Ha as (blk & Ha & Hblk).
    apply list_elem_of_fmap in Hblk as ([id' name'] & -> & Hl').
    apply elem_of_assignments_of_row in Ha as [Hid _]. simpl in Hid.
    apply Hl. apply list_elem_of_fmap. exists (id', name'). split; [|done].
    simpl. congruence. }
  induction employee_list as [|x l IH]; [by apply elem_of_nil in Hin|].
  rewrite fmap_cons in Hnd. apply NoDup_cons in Hnd as [Hx Hnd].
  rewrite fmap_cons, mjoin_cons, rows_for_app.
  apply elem_of_cons in Hin as [Heq|Hin].
  - subst x. rewrite (Hother l Hx). by rewrite app_nil_r.
  - rewrite IH by done.
    rewrite (rows_for_none (assignments_of_row x.1 _ _)); [done|].
    intros a Ha [He _]. apply elem_of_assignments_of_row in Ha as [Hid _].
    apply Hx. rewrite <- Hid, He. apply list_elem_of_fmap. by exists (id, name).
Qed.

Lemma generated_row_length (employee_names : list string) (total_days : nat)
    (rng : list nat) (es : schedule) (e : string) :
  generate_optimized_shifts employee_names total_days rng = inr es →
  length (row_of es e)
  = if bool_decide (e ∈ employee_names) then total_days else 0%nat.
Proof.
  unfold generate_optimized_shifts, phases_0_to_5, phases_0_to_45.
  destruct (_ <? _); [done|]. cbv zeta.
  set (st0 := initial_state employee_names total_days rng).
  set (st45 := phase45 _ _ _).
  assert (H45 : recoded (st_shifts st0) (st_shifts st45)).
  { subst st45.
    eapply recoded_trans; [|apply phase45_recoded].
    eapply recoded_trans; [|apply phase4_recoded].
    eapply recoded_trans; [|apply phase3_recoded].
    eapply recoded_trans; [|apply phase2_recoded].
    eapply recoded_trans; [|apply phase1_recoded].
    apply assign_night_shift_pairs_recoded. }
  destruct (phase46 total_days st45 employee_names) as [err|st46] eqn:E46;
    [done|].
  intros [= <-].
  assert (H : recoded (st_shifts st0)
                (st_shifts (phase6 employee_names total_days
                              (phase5 employee_names total_days st46)))).
  { eapply recoded_trans; [|apply phase6_recoded].
    eapply recoded_trans; [|apply phase5_recoded].
    eapply recoded_trans; [exact H45|]. by apply phase46_recoded in E46. }
  destruct H as [Hlen _]. rewrite Hlen. unfold st0. rewrite initial_rows.
  case_bool_decide; [apply length_replicate|done].
Qed.

(** X18.  A generation that succeeds stores the matrix it generated,
    and nothing else in that month: with distinct ids and distinct
    names, each employee has on every day of the month exactly the row
    of the cell the engine set for that name and day, and no row where
    the cell is unset.  The rows dated outside the month are as before,
    and two commits are made. *)
Theorem assign_shifts_stores_matrix (now_year now_month : Z)
    (year month : option Z) (force : bool) (employee_list : list (N * string))
    (rng : list nat) (db db' : database) (n : nat) :
  NoDup (fst <$> employee_list) → NoDup (snd <$> employee_list) →
  assign_shifts now_year now_month year month force employee_list rng db
  = (Assigned n, db') →
  ∃ es start_date total_days,
    first_of_month (default now_year year) (default now_month month)
      = Some start_date
    ∧ monthrange_days (default now_year year) (default now_month month)
      = Some total_days
    ∧ generate_optimized_shifts (snd <$> employee_list) (Z.to_nat total_days) rng
      = inr es
    ∧ (∀ id name k, (id, name) ∈ employee_list → (k < Z.to_nat total_days)%nat →
         rows_for (db_assignments db') id (start_date + Z.of_nat k)
         = match get_shift es name k with
           | Some c =>
             [{| sa_employee_id := id; sa_day := Z.of_nat k + 1; sa_shift := c;
                 sa_shift_date := start_date + Z.of_nat k |}]
           | None => []
           end)
    ∧ rows_out_of_range start_date (start_date + total_days) (db_assignments db')
      = rows_out_of_range start_date (start_date + total_days) (db_assignments db)
    ∧ db_commits db' = S (S (db_commits db)).
Proof.
  intros Hids Hnames. unfold assign_shifts.
  destruct (monthrange_days _ _) as [total_days|]; [|done].
  destruct (past_month _ _ _ _); [done|].
  destruct (_ <? _); [done|].
  destruct (first_of_month _ _) as [start_date|]; [|done].
  destruct (add_days _ _) as [end_date|] eqn:Eadd; [|done].
  apply add_days_Some in Eadd as ->.
  destruct (_ && _); [done|].
  destruct (_ <? _); [done|].
  destruct (generate_optimized_shifts _ _ _) as [[]|es] eqn:Egen; [done..|].
  intros [= <- <-]. exists es, start_date, total_days.
  cbn [db_assignments db_commits].
  split; [done|]. split; [done|]. split; [done|].
  rewrite assignments_to_add_distinct by done.
  split; [|split; [|done]].
  - intros id name k Hin Hk. rewrite rows_for_app.
    rewrite (rows_for_none (rows_out_of_range _ _ _)).
    + rewrite (rows_for_bind _ _ _ id name) by done.
      by rewrite rows_for_assignments_of_row.
    + intros a Ha [_ Hd]. unfold rows_out_of_range in Ha.
      apply list_elem_of_filter in Ha as [Hout _]. apply Hout. lia.
  - unfold rows_out_of_range at 1. rewrite filter_app.
    rewrite (filter_none _ (mjoin _)), app_nil_r.
    + apply filter_all. intros a Ha. unfold rows_out_of_range in Ha.
      by apply list_elem_of_filter in Ha as [Hout _].
    + intros a Ha Hout. apply Hout.
      apply list_elem_of_join in Ha as (blk & Ha & Hblk).
      apply list_elem_of_fmap in Hblk as ([id name] & -> & Hin).
      apply elem_of_assignments_of_row in Ha as (_ & k & Hk & ->).
      cbn [fst snd] in Hk.
      rewrite (generated_row_length _ _ _ _ name Egen) in Hk.
      rewrite bool_decide_eq_true_2 in Hk
        by (apply list_elem_of_fmap; by exists (id, name)).
      lia.
Qed.

Lemma assign_shifts_stores_matrix_witness :
  ∃ es start_date total_days,
    first_of_month (default 2026 None) (default 11 None) = Some start_date
    ∧ monthrange_days (default 2026 None) (default 11 None) = Some total_days
    ∧ generate_optimized_shifts (snd <$> staff6) (Z.to_nat total_days) [] = inr es
    ∧ (∀ id name k, (id, name) ∈ staff6 → (k < Z.to_nat total_days)%nat →
         rows_for (db_assignments
                     (assign_shifts 2026 11 None None true staff6 []
                                    november_db).2)
                  id (start_date + Z.of_nat k)
         = match get_shift es name k with
           | Some c =>
             [{| sa_employee_id := id; sa_day := Z.of_nat k + 1; sa_shift := c;
                 sa_shift_date := start_date + Z.of_nat k |}]
           | None => []
           end)
    ∧ rows_out_of_range start_date (start_date + total_days)
        (db_assignments
           (assign_shifts 2026 11 None None true staff6 [] november_db).2)
      = rows_out_of_range start_date (start_date + total_days)
                          (db_assignments november_db)
    ∧ db_commits (assign_shifts 2026 11 None None true staff6 [] november_db).2
      = S (S (db_commits november_db)).
Proof.
  apply (assign_shifts_stores_matrix 2026 11 None None true staff6 []
           november_db _
           (match (assign_shifts 2026 11 None None true staff6 []
                                 november_db).1 with
            | Assigned n => n
            | _ => 0%nat
            end)).
  - by apply (bool_decide_unpack _).
  - by apply (bool_decide_unpack _).
  - vm_compute. reflexivity.
Defined.

Lemma generate_succeeds (employee_names : list string) (total_days : nat)
    (rng : list nat) :
  NoDup employee_names → (6 ≤ length employee_names)%nat →
  ∃ es, generate_optimized_shifts employee_names total_days rng = inr es.
Proof.
  intros Hnd Hlen. unfold generate_optimized_shifts, phases_0_to_5.
  destruct (Z.ltb_spec (Z.of_nat (length employee_names)) min_required_employees)
    as [Hlt|_].
  { change min_required_employees with 6 in Hlt. lia. }
  destruct (phase46_ok total_days employee_names
              (phases_0_to_45 employee_names total_days rng)
              (phases_0_to_45_rows_ok employee_names total_days rng Hnd Hlen))
    as [st' ->].
  by eexists.
Qed.

Lemma month_dates (year month : Z) :
  1 ≤ year ≤ 9998 → 1 ≤ month ≤ 12 →
  ∃ start_date total_days,
    first_of_month year month = Some start_date
    ∧ monthrange_days year month = Some total_days
    ∧ add_days start_date total_days = Some (start_date + total_days)
    ∧ 28 ≤ total_days ≤ 31.
Proof.
  intros Hy Hm. unfold first_of_month, monthrange_days, add_days.
  unfold MINYEAR, MAXYEAR, MAX_ORDINAL.
  destruct (Z.leb_spec 1 year) as [_|?]; [|lia].
  destruct (Z.leb_spec year 9999) as [_|?]; [|lia].
  destruct (Z.leb_spec 1 month) as [_|?]; [|lia].
  destruct (Z.leb_spec month 12) as [_|?]; [|lia].
  cbn [andb]. eexists _, _. split; [reflexivity|]. split; [reflexivity|].
  assert (Hby : 0 ≤ days_before_year year ≤ 3651329).
  { unfold days_before_year. cbv zeta. Z.div_mod_to_equations. lia. }
  assert (Hcases : month = 1 ∨ month = 2 ∨ month = 3 ∨ month = 4 ∨ month = 5
                   ∨ month = 6 ∨ month = 7 ∨ month = 8 ∨ month = 9
                   ∨ month = 10 ∨ month = 11 ∨ month = 12) by lia.
  unfold days_before_month. revert Hby.
  generalize (days_before_year year). intros dby Hby.
  destruct (isleap year);
    destruct Hcases as [->|[->|[->|[->|[->|[->|[->|[->|[->|[->|[->| ->]]]]]]]]]]];
    repeat match goal with
           | |- context [Z.to_nat ?z] =>
             let v := eval vm_compute in (Z.to_nat z) in
             change (Z.to_nat z) with v
           end;
    cbn; (split; [|lia]);
    match goal with
    | |- context [(1 <=? ?a) && (?a <=? 3652059)] =>
      destruct (Z.leb_spec 1 a); [|lia];
      destruct (Z.leb_spec a 3652059); [|lia]
    end; reflexivity.
Qed.

(** X19.  A request for a month that exists, is not past and lies at
    most one year ahead succeeds whenever six or more employees with
    distinct names are listed and either [force] is set or no row is
    stored for that month: the engine raises nothing and the reply is
    the number of rows added. *)
Theorem assign_shifts_succeeds (now_year now_month : Z) (year month : option Z)
    (force : bool) (employee_list : list (N * string)) (rng : list nat)
    (db : database) :
  1 ≤ default now_year year ≤ 9998 → 1 ≤ default now_month month ≤ 12 →
  past_month (default now_year year) (default now_month month)
             now_year now_month = false →
  default now_year year ≤ now_year + 1 →
  force = true
  ∨ month_rows (default now_year year) (default now_month month)
               (db_assignments db) = [] →
  (6 ≤ length employee_list)%nat → NoDup (snd <$> employee_list) →
  ∃ n db',
    assign_shifts now_year now_month year month force employee_list rng db
    = (Assigned n, db').
Proof.
  intros Hy Hm Hpast Hfar Hforce Hlen Hnd.
  destruct (month_dates _ _ Hy Hm) as (start_date & total_days & Hs & Ht & Ha & _).
  unfold assign_shifts. rewrite Ht, Hpast, Hs, Ha.
  destruct (Z.ltb_spec (now_year + 1) (default now_year year)) as [?|_]; [lia|].
  assert (Hgo : (0 <? length (rows_in_range start_date (start_date + total_days)
                                 (db_assignments db)))%nat && negb force = false).
  { destruct Hforce as [->|Hrows]; [apply andb_false_r|].
    unfold month_rows in Hrows. rewrite Hs, Ht in Hrows. by rewrite Hrows. }
  rewrite Hgo.
  destruct (Z.ltb_spec (Z.of_nat (length employee_list)) min_required_employees)
    as [Hlt|_].
  { change min_required_employees with 6 in Hlt. lia. }
  destruct (generate_succeeds (snd <$> employee_list) (Z.to_nat total_days) rng)
    as [es ->]; [done|by rewrite length_fmap|].
  by eexists _, _.
Qed.

Lemma assign_shifts_succeeds_witness :
  ∃ n db',
    assign_shifts 2026 11 (Some 2026) (Some 12) false staff6 [3; 1]%nat small_db
    = (Assigned n, db').
Proof.
  apply assign_shifts_succeeds.
  - simpl. lia.
  - simpl. lia.
  - reflexivity.
  - simpl. lia.
  - right. reflexivity.
  - simpl. lia.
  - by apply (bool_decide_unpack _).
Defined.

(** ** The pairings of a month *)












